(** * coax.td_learning._base: the TD-learning base updaters

    A shallow embedding of [coax/td_learning/_base.py]: the classes
    [BaseTDLearning], [BaseTDLearningV], [BaseTDLearningQ] and
    [BaseTDLearningQWithTargetPolicy].

    Conventions of the embedding
    - Array entries are exact rationals extended with [+Inf], [-Inf] and
      [NaN] (the IEEE special values and their propagation rules); rounding
      and signed zeros are outside the model.
    - A pytree is [None], an array leaf, a tuple, a list or a named tuple
      of pytrees, or a dict with string keys; a dict is flattened in the
      order of its sorted keys, as jax does.
    - Python objects live in a heap indexed by references, so that an
      updater whose target function is the online function itself shares
      the storage.
    - A method is a function from the store to an outcome (a value or a
      raised exception) and the store after the call.
    - External libraries (jax, haiku, optax, chex) and the parts of coax
      that are not part of this module enter as section variables. *)

From Stdlib Require Import QArith Qcanon FunctionalExtensionality.
From stdpp Require Import gmap strings list fin_maps.

#[local] Set Warnings "-register-all".

Local Open Scope Qc_scope.

(** ** Extended rationals standing for floating-point entries *)

Inductive fp : Type :=
| Fin (q : Qc)
| PInf
| NInf
| NaN.

#[global] Instance fp_eq_dec : EqDecision fp.
Proof. solve_decision. Defined.

Definition Qc_of_nat (n : nat) : Qc := Qc_of_Z (Z.of_nat n).

Definition isnan (x : fp) : bool :=
  match x with NaN => true | _ => false end.

Definition isinf (x : fp) : bool :=
  match x with PInf | NInf => true | _ => false end.

Definition isfinite (x : fp) : bool :=
  match x with Fin _ => true | _ => false end.

(** Sign of a rational: [Lt] negative, [Eq] zero, [Gt] positive. *)
Definition Qc_sign (q : Qc) : comparison := (q ?= 0)%Qc.

Definition fneg (x : fp) : fp :=
  match x with
  | Fin q => Fin (- q)
  | PInf => NInf
  | NInf => PInf
  | NaN => NaN
  end.

Definition fadd (x y : fp) : fp :=
  match x, y with
  | NaN, _ | _, NaN => NaN
  | PInf, NInf | NInf, PInf => NaN
  | PInf, _ | _, PInf => PInf
  | NInf, _ | _, NInf => NInf
  | Fin a, Fin b => Fin (a + b)
  end.

Definition fsub (x y : fp) : fp := fadd x (fneg y).

(** An infinity of the sign given by the comparison; [NaN] for [Eq]
    (zero times infinity). *)
Definition inf_of_sign (c : comparison) : fp :=
  match c with Gt => PInf | Lt => NInf | Eq => NaN end.

Definition fmul (x y : fp) : fp :=
  match x, y with
  | NaN, _ | _, NaN => NaN
  | Fin a, Fin b => Fin (a * b)
  | Fin a, PInf | PInf, Fin a => inf_of_sign (Qc_sign a)
  | Fin a, NInf | NInf, Fin a => inf_of_sign (CompOpp (Qc_sign a))
  | PInf, PInf | NInf, NInf => PInf
  | PInf, NInf | NInf, PInf => NInf
  end.

Definition fdiv (x y : fp) : fp :=
  match x, y with
  | NaN, _ | _, NaN => NaN
  | Fin a, Fin b =>
      if decide (b = 0) then inf_of_sign (Qc_sign a) else Fin (a / b)
  | Fin _, (PInf | NInf) => Fin 0
  | PInf, Fin b => if decide (b < 0) then NInf else PInf
  | NInf, Fin b => if decide (b < 0) then PInf else NInf
  | (PInf | NInf), (PInf | NInf) => NaN
  end.

(** [x < y] as IEEE has it: false as soon as one side is [NaN]. *)
Definition fltb (x y : fp) : bool :=
  match x, y with
  | NaN, _ | _, NaN => false
  | Fin a, Fin b => bool_decide (a < b)
  | NInf, (Fin _ | PInf) => true
  | Fin _, PInf => true
  | _, _ => false
  end.

(** [jnp.maximum] and [jnp.minimum]: a [NaN] on either side wins. *)
Definition fmax (x y : fp) : fp :=
  if isnan x then NaN else if isnan y then NaN
  else if fltb x y then y else x.

Definition fmin (x y : fp) : fp :=
  if isnan x then NaN else if isnan y then NaN
  else if fltb y x then y else x.

(** [jnp.clip(x, a_min, a_max)] on one entry. *)
Definition fclip (lo hi x : fp) : fp := fmin (fmax x lo) hi.

(** ** Arrays *)

Record ndarray : Type := mk_ndarray {
  shape : list nat;
  data : list fp
}.

#[global] Instance ndarray_eq_dec : EqDecision ndarray.
Proof. solve_decision. Defined.

Definition rank (a : ndarray) : nat := length (shape a).

(** The rank-1 array of the given entries. *)
Definition arr1 (xs : list fp) : ndarray := mk_ndarray [length xs] xs.

(** A Python float used where an array is expected: rank 0. *)
Definition scalar (x : fp) : ndarray := mk_ndarray [] [x].

Definition arr_map (f : fp → fp) (a : ndarray) : ndarray :=
  mk_ndarray (shape a) (map f (data a)).

Fixpoint zip_with_fp (f : fp → fp → fp) (xs ys : list fp) : list fp :=
  match xs, ys with
  | x :: xs', y :: ys' => f x y :: zip_with_fp f xs' ys'
  | _, _ => []
  end.

(** ** Exceptions and outcomes *)

Inductive exn : Type :=
| TypeError
| RuntimeError
| AttributeError
| AssertionError
| KeyError
| IndexError
| ValueError.

#[global] Instance exn_eq_dec : EqDecision exn.
Proof. solve_decision. Defined.

Inductive result (A : Type) : Type :=
| Ok (a : A)
| Err (e : exn).

Arguments Ok {A} a.
Arguments Err {A} e.

#[global] Instance result_eq_dec {A} `{EqDecision A} : EqDecision (result A).
Proof. solve_decision. Defined.

Definition rbind {A B} (m : result A) (k : A → result B) : result B :=
  match m with
  | Ok a => k a
  | Err e => Err e
  end.

Definition is_ok {A} (r : result A) : bool :=
  match r with Ok _ => true | Err _ => false end.

(** A test on the value of a normal outcome. *)
Definition on_ok {A} (r : result A) (P : A → bool) : bool :=
  match r with Ok a => P a | Err _ => false end.

Declare Scope result_scope.
Delimit Scope result_scope with res.
Notation "x <- m ;; k" := (rbind m (fun x => k))
  (at level 100, m at next level, right associativity) : result_scope.

(** numpy's broadcasting rule for two shapes, read from the last axis:
    two extents are compatible when they are equal or one of them is 1, and
    the shorter shape is extended by leading axes. *)
Fixpoint broadcast_rev (s1 s2 : list nat) : option (list nat) :=
  match s1, s2 with
  | [], s => Some s
  | s, [] => Some s
  | m :: s1', n :: s2' =>
      match broadcast_rev s1' s2' with
      | Some r =>
          if decide (m = n) then Some (m :: r)
          else if decide (m = 1%nat) then Some (n :: r)
          else if decide (n = 1%nat) then Some (m :: r)
          else None
      | None => None
      end
  end.

Definition broadcast_shapes (s1 s2 : list nat) : option (list nat) :=
  match broadcast_rev (rev s1) (rev s2) with
  | Some r => Some (rev r)
  | None => None
  end.

(** The row-major entries of an array of shape [sh] seen at the shape
    [target] it broadcasts to: an axis of extent 1, and an axis the array
    does not have, repeat the entries below them. *)
Fixpoint broadcast_to (target sh : list nat) (xs : list fp) : list fp :=
  match target with
  | [] => xs
  | n :: target' =>
      if decide (length sh = length target) then
        match sh with
        | m :: sh' =>
            let chunk := foldr Nat.mul 1%nat sh' in
            if decide (m = n) then
              flat_map (fun i => broadcast_to target' sh'
                                   (take chunk (drop (i * chunk) xs)))
                (seq 0 n)
            else flat_map (fun _ => broadcast_to target' sh' xs) (seq 0 n)
        | [] => xs
        end
      else flat_map (fun _ => broadcast_to target' sh xs) (seq 0 n)
  end.

(** Elementwise binary operation of [jax.numpy] with broadcasting.  A
    rank-0 operand and operands of one shape are the cases the module meets
    on matching arrays and are written out; other shapes follow the general
    rule, and shapes that do not broadcast raise (as a [ValueError], the
    exception of numpy and of current jax). *)
Definition arr_binop (f : fp → fp → fp) (a b : ndarray) : result ndarray :=
  match shape b, data b with
  | [], [y] => Ok (arr_map (fun x => f x y) a)
  | _, _ =>
      match shape a, data a with
      | [], [x] => Ok (arr_map (f x) b)
      | _, _ =>
          if decide (shape a = shape b) then
            Ok (mk_ndarray (shape a) (zip_with_fp f (data a) (data b)))
          else
            match broadcast_shapes (shape a) (shape b) with
            | Some s =>
                Ok (mk_ndarray s
                      (zip_with_fp f (broadcast_to s (shape a) (data a))
                         (broadcast_to s (shape b) (data b))))
            | None => Err ValueError
            end
      end
  end.

Definition arr_neg (a : ndarray) : ndarray := arr_map fneg a.

(** [k * a] for a Python integer [k]. *)
Definition arr_scale (k : fp) (a : ndarray) : ndarray := arr_map (fmul k) a.

(** [jnp.clip(a, lo, hi)]. *)
Definition jnp_clip (a : ndarray) (lo hi : fp) : ndarray :=
  arr_map (fclip lo hi) a.

Definition fsum (xs : list fp) : fp := foldr fadd (Fin 0) xs.

(** [a.size]: the number of entries the shape announces. *)
Definition arr_size (a : ndarray) : nat := foldr Nat.mul 1%nat (shape a).

(** [jnp.mean(a)]: the sum of all entries over their number, rank 0. *)
Definition jnp_mean (a : ndarray) : ndarray :=
  scalar (fdiv (fsum (data a)) (Fin (Qc_of_nat (arr_size a)))).

(** [chex.assert_equal_shape] and [chex.assert_rank]. *)
Definition assert_equal_shape (xs : list ndarray) : result unit :=
  match xs with
  | [] => Ok tt
  | x :: rest =>
      if forallb (fun y => bool_decide (shape y = shape x)) rest
      then Ok tt else Err AssertionError
  end.

Definition assert_rank (xs : list ndarray) (r : nat) : result unit :=
  if forallb (fun x => bool_decide (rank x = r)) xs
  then Ok tt else Err AssertionError.

(** [a.shape[0]]. *)
Definition shape0 (a : ndarray) : result nat :=
  match shape a with
  | n :: _ => Ok n
  | [] => Err IndexError
  end.

(** ** Pytrees *)

Inductive pytree : Type :=
| PNone
| PLeaf (a : ndarray)
| PTuple (ts : list pytree)
| PList (ts : list pytree)
| PNamedTuple (name : string) (ts : list pytree)
| PDict (kvs : list (string * pytree)).

(** The items of a dict in the order of their keys, the order in which
    jax flattens a dict. *)
Fixpoint insert_by_key {X} (kx : string * X) (l : list (string * X))
  : list (string * X) :=
  match l with
  | [] => [kx]
  | ky :: l' =>
      if String.leb (fst kx) (fst ky) then kx :: l
      else ky :: insert_by_key kx l'
  end.

Definition sort_by_key {X} (l : list (string * X)) : list (string * X) :=
  foldr insert_by_key [] l.

(** [jax.tree_leaves]. *)
Fixpoint tree_leaves (t : pytree) : list ndarray :=
  match t with
  | PNone => []
  | PLeaf a => [a]
  | PTuple ts | PList ts | PNamedTuple _ ts => flat_map tree_leaves ts
  | PDict kvs =>
      concat (map snd (sort_by_key
                         (map (fun kv => (fst kv, tree_leaves (snd kv))) kvs)))
  end.

(** A tree definition is the list of the tree's nodes in traversal order,
    each with its kind and arity, as jaxlib's [PyTreeDef] stores it: tuples,
    lists and named tuples are nodes of different kinds, a named tuple
    carries its type, a dict its sorted keys. *)
Inductive node : Type :=
| NNone
| NLeaf
| NTuple (arity : nat)
| NList (arity : nat)
| NNamedTuple (name : string) (arity : nat)
| NDict (keys : list string).

#[global] Instance node_eq_dec : EqDecision node.
Proof. solve_decision. Defined.

(** [jax.tree_structure]. *)
Fixpoint tree_structure (t : pytree) : list node :=
  match t with
  | PNone => [NNone]
  | PLeaf _ => [NLeaf]
  | PTuple ts => NTuple (length ts) :: flat_map tree_structure ts
  | PList ts => NList (length ts) :: flat_map tree_structure ts
  | PNamedTuple name ts =>
      NNamedTuple name (length ts) :: flat_map tree_structure ts
  | PDict kvs =>
      let items :=
        sort_by_key (map (fun kv => (fst kv, tree_structure (snd kv))) kvs) in
      NDict (map fst items) :: concat (map snd items)
  end.

(** [any(jnp.any(jnp.isnan(g)) for g in jax.tree_leaves(grads))]. *)
Definition any_isnan (grads : pytree) : bool :=
  existsb (fun g => existsb isnan (data g)) (tree_leaves grads).

Definition any_isinf (grads : pytree) : bool :=
  existsb (fun g => existsb isinf (data g)) (tree_leaves grads).

(** Every entry of every leaf is finite. *)
Definition all_finite (grads : pytree) : bool :=
  forallb (fun g => forallb isfinite (data g)) (tree_leaves grads).

(** [jax.tree_map(f, tree, rest)] takes the structure of its first tree
    and asks of the other that it has this structure as a prefix: at a leaf
    of the first tree the other may hold anything, elsewhere the node kinds,
    arities and keys must agree. *)
Fixpoint lookup_key {X} (k : string) (l : list (string * X)) : option X :=
  match l with
  | [] => None
  | (k', x) :: l' => if decide (k = k') then Some x else lookup_key k l'
  end.

Fixpoint is_prefix_of (p u : pytree) {struct p} : bool :=
  let all2 :=
    fix all2 (ps us : list pytree) {struct ps} : bool :=
      match ps, us with
      | [], [] => true
      | p' :: ps', u' :: us' => is_prefix_of p' u' && all2 ps' us'
      | _, _ => false
      end in
  match p with
  | PLeaf _ => true
  | PNone => match u with PNone => true | _ => false end
  | PTuple ps => match u with PTuple us => all2 ps us | _ => false end
  | PList ps => match u with PList us => all2 ps us | _ => false end
  | PNamedTuple n ps =>
      match u with
      | PNamedTuple n' us => bool_decide (n = n') && all2 ps us
      | _ => false
      end
  | PDict ps =>
      match u with
      | PDict us =>
          bool_decide (map fst (sort_by_key ps) = map fst (sort_by_key us))
          && (fix all (ps : list (string * pytree)) : bool :=
                match ps with
                | [] => true
                | (k, p') :: ps' =>
                    match lookup_key k us with
                    | Some u' => is_prefix_of p' u'
                    | None => false
                    end && all ps'
                end) ps
      | _ => false
      end
  end.

(** The first exception of a list of outcomes, or all their values. *)
Fixpoint sequence {A} (rs : list (result A)) : result (list A) :=
  match rs with
  | [] => Ok []
  | r :: rs' => (a <- r ;; as' <- sequence rs' ;; Ok (a :: as'))%res
  end.

(** [p + u] at every leaf of [p], in the order of the leaves; what is not
    an array cannot be added to one. *)
Fixpoint add_trees (p u : pytree) {struct p} : result pytree :=
  let children :=
    fix children (ps us : list pytree) {struct ps} : list (result pytree) :=
      match ps, us with
      | p' :: ps', u' :: us' => add_trees p' u' :: children ps' us'
      | _, _ => []
      end in
  match p with
  | PLeaf a =>
      match u with
      | PLeaf b => (r <- arr_binop fadd a b ;; Ok (PLeaf r))%res
      | _ => Err TypeError
      end
  | PNone => Ok PNone
  | PTuple ps =>
      match u with
      | PTuple us => (rs <- sequence (children ps us) ;; Ok (PTuple rs))%res
      | _ => Err ValueError
      end
  | PList ps =>
      match u with
      | PList us => (rs <- sequence (children ps us) ;; Ok (PList rs))%res
      | _ => Err ValueError
      end
  | PNamedTuple n ps =>
      match u with
      | PNamedTuple _ us =>
          (rs <- sequence (children ps us) ;; Ok (PNamedTuple n rs))%res
      | _ => Err ValueError
      end
  | PDict ps =>
      match u with
      | PDict us =>
          let items :=
            sort_by_key
              (map (fun kp =>
                      (fst kp,
                       match lookup_key (fst kp) us with
                       | Some u' => add_trees (snd kp) u'
                       | None => Err ValueError
                       end)) ps) in
          (rs <- sequence (map snd items) ;;
           Ok (PDict (combine (map fst items) rs)))%res
      | _ => Err ValueError
      end
  end.

(** [optax.apply_updates(params, updates)]: [jax.tree_map] of [p + u] over
    the structure of [params].  The structures are compared before anything
    is added, and a difference is a [ValueError]. *)
Definition apply_updates (p u : pytree) : result pytree :=
  if is_prefix_of p u then add_trees p u else Err ValueError.

(** ** Python values, objects and the store *)

Definition loc : Type := positive.

(** A jax PRNG key: two 32-bit words. *)
Definition key : Type := (Z * Z)%type.

Inductive pyval : Type :=
| PyNone
| PyRef (l : loc)
| PyList (xs : list pyval)
| PyTuple (xs : list pyval)
| PyInt (z : Z).

(** The classes of coax's function approximators. *)
Inductive fclass : Type :=
| ClsV
| ClsStochasticV
| ClsQ
| ClsStochasticQ
| ClsPolicy
| ClsDynamicsModel.

#[global] Instance fclass_eq_dec : EqDecision fclass.
Proof. solve_decision. Defined.

(** The mutable part of a function approximator. *)
Record funobj : Type := mk_funobj {
  f_class : fclass;
  f_params : pytree;
  f_function_state : pytree;
  f_random_key : key
}.

Inductive pyobj : Type :=
| Func (fo : funobj)
| RegularizerObj (f : pyval) (hyperparams : pytree)
| Opaque.

Abbreviation heap := (gmap loc pyobj).

(** The object a value refers to; anything that is not a live reference
    behaves as an object without attributes. *)
Definition deref (h : heap) (v : pyval) : pyobj :=
  match v with
  | PyRef l => default Opaque (h !! l)
  | _ => Opaque
  end.

(** [optax.GradientTransformation]. *)
Record optimizer : Type := mk_optimizer {
  opt_init : pytree → pytree;
  opt_update : pytree → pytree → pytree → pytree * pytree
}.

(** A loss function [loss(y_true, y_pred, w=None)] together with what
    [jax.grad(loss, argnums=1)] evaluates to. *)
Record loss_fn : Type := mk_loss_fn {
  loss_eval : ndarray → ndarray → option ndarray → result ndarray;
  loss_grad_pred : ndarray → ndarray → option ndarray → result ndarray
}.

(** Modelled from the spec: the [TransitionBatch] of section 3 (its class
    is outside this module): observation, action, n-step reward sum,
    bootstrap factor, next observation, next action, done flag and
    importance weight, all with the same leading batch dimension. *)
Record TransitionBatch : Type := mk_batch {
  S : pytree;
  A : pytree;
  Rn : ndarray;
  In : ndarray;
  S_next : pytree;
  A_next : pytree;
  Done : ndarray;
  W : ndarray
}.

Abbreviation bundle := (gmap string pytree).
Abbreviation metrics_dict := (gmap string ndarray).

(** ** Methods: store-passing with exceptions *)

Definition M (St A : Type) : Type := St → result A * St.

Definition ret {St A} (a : A) : M St A := fun s => (Ok a, s).

Definition raise {St A} (e : exn) : M St A := fun s => (Err e, s).

Definition bind {St A B} (m : M St A) (k : A → M St B) : M St B :=
  fun s =>
    match m s with
    | (Ok a, s') => k a s'
    | (Err e, s') => (Err e, s')
    end.

Definition lift_result {St A} (r : result A) : M St A := fun s => (r, s).

Definition gets {St A} (f : St → A) : M St A := fun s => (Ok (f s), s).

Definition modify {St} (f : St → St) : M St unit := fun s => (Ok tt, f s).

Declare Scope M_scope.
Delimit Scope M_scope with M.
Notation "x <- m ;; k" := (bind m (fun x => k))
  (at level 100, m at next level, right associativity) : M_scope.
Notation "m ;;; k" := (bind m (fun _ => k))
  (at level 100, right associativity) : M_scope.

(** ** The updater object and its store *)

(** The jitted closures the subclasses store on the instance. *)
Definition grads_and_metrics_func_t : Type :=
  pytree → bundle → pytree → bundle → key → TransitionBatch →
  result (pytree * pytree * metrics_dict * ndarray).

Definition td_error_func_t : Type :=
  pytree → bundle → pytree → bundle → key → TransitionBatch → result ndarray.

(** The attributes of an updater instance: those [BaseTDLearning.__init__]
    assigns, the two closures of the V and Q subclasses and the target
    policy of [BaseTDLearningQWithTargetPolicy]; [None] where the instance
    has no such attribute. *)
Record BaseTDLearning : Type := mk_td {
  _f : pyval;
  _f_targ : pyval;
  loss_function : loss_fn;
  policy_regularizer : pyval;
  _optimizer : optimizer;
  _optimizer_state : pytree;
  _grads_and_metrics_func : option grads_and_metrics_func_t;
  _td_error_func : option td_error_func_t;
  pi_targ : option pyval
}.

Record store : Type := mk_store {
  st_heap : heap;
  st_self : BaseTDLearning
}.

Definition on_heap {A} (m : M heap A) : M store A :=
  fun s =>
    let (r, h') := m (st_heap s) in
    (r, mk_store h' (st_self s)).

Definition with_optimizer (o : optimizer) (u : BaseTDLearning) : BaseTDLearning :=
  mk_td (_f u) (_f_targ u) (loss_function u) (policy_regularizer u)
    o (_optimizer_state u) (_grads_and_metrics_func u) (_td_error_func u)
    (pi_targ u).

Definition with_optimizer_state (os : pytree) (u : BaseTDLearning)
  : BaseTDLearning :=
  mk_td (_f u) (_f_targ u) (loss_function u) (policy_regularizer u)
    (_optimizer u) os (_grads_and_metrics_func u) (_td_error_func u)
    (pi_targ u).

Definition with_funcs (g : grads_and_metrics_func_t) (t : td_error_func_t)
    (u : BaseTDLearning) : BaseTDLearning :=
  mk_td (_f u) (_f_targ u) (loss_function u) (policy_regularizer u)
    (_optimizer u) (_optimizer_state u) (Some g) (Some t) (pi_targ u).

Definition with_pi_targ (p : pyval) (u : BaseTDLearning) : BaseTDLearning :=
  mk_td (_f u) (_f_targ u) (loss_function u) (policy_regularizer u)
    (_optimizer u) (_optimizer_state u) (_grads_and_metrics_func u)
    (_td_error_func u) (Some p).

Definition set_self_optimizer (o : optimizer) (s : store) : store :=
  mk_store (st_heap s) (with_optimizer o (st_self s)).

Definition set_self_optimizer_state (os : pytree) (s : store) : store :=
  mk_store (st_heap s) (with_optimizer_state os (st_self s)).

(** [isinstance(v, Regularizer)]. *)
Definition is_regularizer (h : heap) (v : pyval) : bool :=
  match deref h v with RegularizerObj _ _ => true | _ => false end.

Definition is_none (v : pyval) : bool :=
  match v with PyNone => true | _ => false end.

(** The function approximator a value refers to; other values have none
    of its attributes. *)
Definition get_func (v : pyval) : M heap funobj :=
  fun h =>
    match deref h v with
    | Func fo => (Ok fo, h)
    | _ => (Err AttributeError, h)
    end.

Definition put_func (v : pyval) (fo : funobj) : M heap unit :=
  fun h =>
    match v with
    | PyRef l => (Ok tt, <[l := Func fo]> h)
    | _ => (Err AttributeError, h)
    end.

Definition params_get (v : pyval) : M heap pytree :=
  (fo <- get_func v ;; ret (f_params fo))%M.

Definition function_state_get (v : pyval) : M heap pytree :=
  (fo <- get_func v ;; ret (f_function_state fo))%M.

Section Base.

(** [jax.random.split(key)]. *)
Variable random_split : key → key * key.

(** The setters of a function approximator's [params] and
    [function_state] attributes, defined with the approximator. *)
Variable set_params : funobj → pytree → result funobj.
Variable set_function_state : funobj → pytree → result funobj.

(** [coax.value_losses.huber] and [optax.adam(1e-3)], the defaults. *)
Variable huber : loss_fn.
Variable adam : optimizer.

Definition params_set (v : pyval) (p : pytree) : M heap unit :=
  (fo <- get_func v ;;
   fo' <- lift_result (set_params fo p) ;;
   put_func v fo')%M.

Definition function_state_set (v : pyval) (st : pytree) : M heap unit :=
  (fo <- get_func v ;;
   fo' <- lift_result (set_function_state fo st) ;;
   put_func v fo')%M.

(** Modelled from the spec: the [rng] attribute of a function approximator
    (section 5: randomness is an evolving generator state owned by the
    function object, every use consumes and advances it).  The stored key is
    split; one half is kept, the other returned. *)
Definition rng (v : pyval) : M heap key :=
  (fo <- get_func v ;;
   let r := random_split (f_random_key fo) in
   put_func v (mk_funobj (f_class fo) (f_params fo) (f_function_state fo) (fst r)) ;;;
   ret (snd r))%M.

(** [BaseTDLearning.__init__]. *)
Definition BaseTDLearning_init (f f_targ : pyval) (optimizer_arg : option optimizer)
    (loss_function_arg : option loss_fn) (policy_regularizer_arg : pyval)
  : M heap BaseTDLearning :=
  (let f_targ' := if is_none f_targ then f else f_targ in
   let loss_function' := default huber loss_function_arg in
   ok <- gets (fun h => is_regularizer h policy_regularizer_arg
                        || is_none policy_regularizer_arg) ;;
   if negb ok then raise TypeError else
   let optimizer' := default adam optimizer_arg in
   p <- params_get f ;;
   ret (mk_td f f_targ' loss_function' policy_regularizer_arg
          optimizer' (opt_init optimizer' p) None None None))%M.

(** The inner [apply_grads_func] of the constructor. *)
Definition apply_grads_func (opt : optimizer) (opt_state params grads : pytree)
  : result (pytree * pytree) :=
  let (updates, new_opt_state) := opt_update opt grads opt_state params in
  (new_params <- apply_updates params updates ;;
   Ok (new_opt_state, new_params))%res.

(** The [optimizer] and [optimizer_state] properties. *)
Definition optimizer_get : M store optimizer :=
  gets (fun s => _optimizer (st_self s)).

Definition optimizer_state_get : M store pytree :=
  gets (fun s => _optimizer_state (st_self s)).

Definition optimizer_set (new_optimizer : optimizer) : M store unit :=
  (f <- gets (fun s => _f (st_self s)) ;;
   p <- on_heap (params_get f) ;;
   let new_optimizer_state_structure :=
     tree_structure (opt_init new_optimizer p) in
   os <- optimizer_state_get ;;
   if decide (new_optimizer_state_structure ≠ tree_structure os)
   then raise AttributeError
   else modify (set_self_optimizer new_optimizer))%M.

Definition optimizer_state_set (new_optimizer_state : pytree) : M store unit :=
  (os <- optimizer_state_get ;;
   if decide (tree_structure new_optimizer_state ≠ tree_structure os)
   then raise AttributeError
   else modify (set_self_optimizer_state new_optimizer_state))%M.

(** The abstract members, supplied by the subclasses. *)
Variable target_params : M store bundle.
Variable target_function_state : M store bundle.

(** An attribute that may be missing from the instance. *)
Definition self_attr {A} (get : BaseTDLearning → option A) : M store A :=
  fun s =>
    match get (st_self s) with
    | Some a => (Ok a, s)
    | None => (Err AttributeError, s)
    end.

(** [BaseTDLearning.update_from_grads]. *)
Definition update_from_grads (grads function_state : pytree) : M store unit :=
  (f <- gets (fun s => _f (st_self s)) ;;
   on_heap (function_state_set f function_state) ;;;
   opt <- optimizer_get ;;
   os <- optimizer_state_get ;;
   p <- on_heap (params_get f) ;;
   r <- lift_result (apply_grads_func opt os p grads) ;;
   optimizer_state_set (fst r) ;;;
   on_heap (params_set f (snd r)))%M.

(** [BaseTDLearning.grads_and_metrics]. *)
Definition grads_and_metrics (transition_batch : TransitionBatch)
  : M store (pytree * pytree * metrics_dict * ndarray) :=
  (func <- self_attr _grads_and_metrics_func ;;
   f <- gets (fun s => _f (st_self s)) ;;
   p <- on_heap (params_get f) ;;
   tp <- target_params ;;
   fs <- on_heap (function_state_get f) ;;
   ts <- target_function_state ;;
   k <- on_heap (rng f) ;;
   lift_result (func p tp fs ts k transition_batch))%M.

(** [BaseTDLearning.td_error]. *)
Definition td_error (transition_batch : TransitionBatch) : M store ndarray :=
  (func <- self_attr _td_error_func ;;
   f <- gets (fun s => _f (st_self s)) ;;
   p <- on_heap (params_get f) ;;
   tp <- target_params ;;
   fs <- on_heap (function_state_get f) ;;
   ts <- target_function_state ;;
   k <- on_heap (rng f) ;;
   lift_result (func p tp fs ts k transition_batch))%M.

(** [BaseTDLearning.update]. *)
Definition update (transition_batch : TransitionBatch) (return_td_error : bool)
  : M store (metrics_dict * option ndarray) :=
  (r <- grads_and_metrics transition_batch ;;
   let '(grads, function_state, metrics, td_error) := r in
   if any_isnan grads then raise RuntimeError else
   update_from_grads grads function_state ;;;
   ret (if return_td_error then (metrics, Some td_error) else (metrics, None)))%M.

End Base.

(** ** The V and Q updaters *)

(** Modelled from the spec: the kind tests of [coax.utils] (section 2: the
    function kinds are V-function, Q-function and Policy, each with a scalar
    or a distributional head); they are [isinstance] tests on the class. *)
Definition class_of (h : heap) (v : pyval) : option fclass :=
  match deref h v with
  | Func fo => Some (f_class fo)
  | _ => None
  end.

Definition is_vfunction (h : heap) (v : pyval) : bool :=
  match class_of h v with
  | Some (ClsV | ClsStochasticV) => true
  | _ => false
  end.

Definition is_qfunction (h : heap) (v : pyval) : bool :=
  match class_of h v with
  | Some (ClsQ | ClsStochasticQ) => true
  | _ => false
  end.

Definition is_policy (h : heap) (v : pyval) : bool :=
  match class_of h v with
  | Some ClsPolicy => true
  | _ => false
  end.

Definition is_stochastic (h : heap) (v : pyval) : bool :=
  match class_of h v with
  | Some (ClsStochasticV | ClsStochasticQ | ClsPolicy | ClsDynamicsModel) => true
  | _ => false
  end.

(** [isinstance(v, (list, tuple))]. *)
Definition is_list_or_tuple (v : pyval) : bool :=
  match v with
  | PyList _ | PyTuple _ => true
  | _ => false
  end.

(** [getattr(v, 'f', None)], [getattr(v, 'params', None)],
    [getattr(v, 'function_state', None)], [getattr(v, 'hyperparams', None)]. *)
Definition getattr_f (h : heap) (v : pyval) : pyval :=
  match deref h v with
  | RegularizerObj f _ => f
  | _ => PyNone
  end.

Definition getattr_params (h : heap) (v : pyval) : pytree :=
  match deref h v with
  | Func fo => f_params fo
  | _ => PNone
  end.

Definition getattr_function_state (h : heap) (v : pyval) : pytree :=
  match deref h v with
  | Func fo => f_function_state fo
  | _ => PNone
  end.

Definition getattr_hyperparams (h : heap) (v : pyval) : pytree :=
  match deref h v with
  | RegularizerObj _ hp => hp
  | _ => PNone
  end.

(** [d[k]] on an immutable dict. *)
Definition getitem (d : bundle) (k : string) : result pytree :=
  match d !! k with
  | Some t => Ok t
  | None => Err KeyError
  end.

(** The probability-distribution collaborator of a distributional head. *)
Record ProbaDist (VT : Type) : Type := mk_proba_dist {
  affine_transform : pytree → ndarray → ndarray → VT → pytree;
  cross_entropy : pytree → pytree → ndarray;
  mean : pytree → ndarray;
  postprocess_variate : key → ndarray → bool → ndarray
}.

Arguments affine_transform {VT} _ _ _ _ _.
Arguments cross_entropy {VT} _ _ _.
Arguments mean {VT} _ _.
Arguments postprocess_variate {VT} _ _ _ _.

(** Modelled from the spec: the mean-squared-error loss
    [coax.value_losses.mse] (its module is outside this one), the loss under
    which the TD error is the plain difference [target - prediction]
    (sections 4.2 and 8): the mean of half the squared error, each term
    times its weight when weights are given. *)
Definition half : fp := Fin (Q2Qc (1 # 2)).

Definition mse_eval (y_true y_pred : ndarray) (w : option ndarray)
  : result ndarray :=
  (err <- arr_binop fsub y_pred y_true ;;
   let loss := arr_map (fun e => fmul half (fmul e e)) err in
   match w with
   | None => Ok (jnp_mean loss)
   | Some w => wl <- arr_binop fmul loss w ;; Ok (jnp_mean wl)
   end)%res.

(** Its gradient in the prediction where target, prediction and weights
    have one shape, as they have wherever [loss_func] takes the gradient
    (after its assertions): entry [i] is [(y_pred[i] - y_true[i]) / n],
    times [w[i]] under weights.  The gradient at operands that broadcast is
    not modelled and reported as an error. *)
Definition mse_grad_pred (y_true y_pred : ndarray) (w : option ndarray)
  : result ndarray :=
  if decide (shape y_true = shape y_pred) then
    (err <- arr_binop fsub y_pred y_true ;;
     let g := arr_map (fun e => fdiv e (Fin (Qc_of_nat (arr_size err)))) err in
     match w with
     | None => Ok g
     | Some w =>
         if decide (shape w = shape y_pred) then arr_binop fmul g w
         else Err ValueError
     end)%res
  else Err ValueError.

Definition mse : loss_fn := mk_loss_fn mse_eval mse_grad_pred.

(** The bounds of the importance-weight clipping. *)
Definition W_lo : fp := Fin (Q2Qc (1 # 10)).
Definition W_hi : fp := Fin (Q2Qc 10).

(** What a branch of [loss_func] hands to the common tail: the loss, the
    target [G], the prediction, the target function's own estimate and the
    new function state. *)
Record branch_out : Type := mk_branch_out {
  bo_loss : ndarray;
  bo_G : ndarray;
  bo_pred : ndarray;
  bo_targ : ndarray;
  bo_state_new : pytree
}.

(** The tail the two [loss_func]s share, from the shape assertions on:
    the TD error and the metrics dict. *)
Definition td_error_and_metrics (class_name : string) (lf : loss_fn)
    (W : ndarray) (o : branch_out)
  : result (ndarray * (ndarray * pytree * metrics_dict)) :=
  let G := bo_G o in
  let V := bo_pred o in
  let V_targ := bo_targ o in
  (_ <- assert_equal_shape [G; V; V_targ; W] ;;
   _ <- assert_rank [G; V; V_targ; W] 1 ;;
   let dLoss_dV := loss_grad_pred lf in
   n <- shape0 V ;;
   d <- dLoss_dV G V None ;;
   let td_error := arr_scale (Fin (- Qc_of_nat n)) d in
   _ <- assert_equal_shape [td_error; W] ;;
   w_td <- arr_binop fmul W td_error ;;
   d_targ <- dLoss_dV V V_targ (Some W) ;;
   let metrics : metrics_dict :=
     <[ (class_name +:+ "/loss") := bo_loss o ]>
     (<[ (class_name +:+ "/td_error") := jnp_mean w_td ]>
     (<[ (class_name +:+ "/td_error_targ") := jnp_mean (arr_neg d_targ) ]> ∅)) in
   Ok (bo_loss o, (td_error, bo_state_new o, metrics)))%res.

Section Updaters.

Variable random_split : key → key * key.
Variable set_params : funobj → pytree → result funobj.
Variable set_function_state : funobj → pytree → result funobj.
Variable huber : loss_fn.
Variable adam : optimizer.

(** [self.__class__.__name__]. *)
Variable class_name : string.

(** The online function [self._f]: its preprocessors, its forward pass
    ([function] for a V-function, [function_type1] for a Q-function; with a
    scalar head the output is an array, with a distributional head a dict of
    distribution parameters), its distribution and value transform. *)
Variable observation_preprocessor : key → pytree → pytree.
Variable action_preprocessor : key → pytree → pytree.
Variable v_function : pytree → pytree → key → pytree → bool → ndarray * pytree.
Variable v_function_dist : pytree → pytree → key → pytree → bool → pytree * pytree.
Variable q_function_type1 :
  pytree → pytree → key → pytree → pytree → bool → ndarray * pytree.
Variable q_function_type1_dist :
  pytree → pytree → key → pytree → pytree → bool → pytree * pytree.
Variable VT : Type.
Variable proba_dist : ProbaDist VT.
Variable value_transform : VT.

(** The abstract [target_func] of the concrete strategy, at either head. *)
Variable target_func : bundle → bundle → key → TransitionBatch → ndarray.
Variable target_func_dist : bundle → bundle → key → TransitionBatch → pytree.

(** [self.policy_regularizer.batch_eval]. *)
Variable batch_eval : pytree → pytree → pytree → key → TransitionBatch → ndarray.

(** [jax.grad(f)(params)] for a scalar-valued [f] of the parameters, and
    [coax.utils.get_grads_diagnostics]. *)
Variable jax_grad : (pytree → result ndarray) → pytree → pytree.
Variable get_grads_diagnostics : pytree → string → metrics_dict.

(** [next(rngs)] on a [hk.PRNGSequence]: the fresh key, and the sequence
    after it. *)
Definition rng_key (rngs : key) : key := snd (random_split rngs).
Definition rng_rest (rngs : key) : key := fst (random_split rngs).

(** The key the [i]-th [next(rngs)] yields, counting from 0. *)
Definition nth_key (i : nat) (rngs : key) : key :=
  rng_key (Nat.iter i rng_rest rngs).

(** The regularization term of [loss_func]: [0.] without a regularizer,
    else the negated [batch_eval]; with the key sequence after it. *)
Definition regularization_term (reg_none : bool) (target_params target_state : bundle)
    (rngs : key) (transition_batch : TransitionBatch) : result (ndarray * key) :=
  if reg_none then Ok (scalar (Fin 0), rngs)
  else
    (reg <- getitem target_params "reg" ;;
     reg_hparams <- getitem target_params "reg_hparams" ;;
     reg_state <- getitem target_state "reg" ;;
     Ok (arr_neg (batch_eval reg reg_hparams reg_state (rng_key rngs)
                    transition_batch),
         rng_rest rngs))%res.

(** *** BaseTDLearningV *)

(** The distributional branch of [BaseTDLearningV]'s [loss_func]. *)
Definition V_dist_branch (reg_none : bool) (params : pytree)
    (target_params : bundle) (state : pytree) (target_state : bundle)
    (rng rngs : key) (S' : pytree) (regularizer : ndarray)
    (transition_batch : TransitionBatch) : result branch_out :=
  let r := v_function_dist params state (rng_key rngs) S' true in
  let rngs := rng_rest rngs in
  let dist_params := fst r in
  let state_new := snd r in
  let dist_params_target :=
    target_func_dist target_params target_state rng transition_batch in
  let dist_params_target :=
    if negb reg_none
    then affine_transform proba_dist dist_params_target (scalar (Fin 1))
           regularizer value_transform
    else dist_params_target in
  let loss := jnp_mean (cross_entropy proba_dist dist_params_target dist_params) in
  let V := mean proba_dist dist_params in
  let V := postprocess_variate proba_dist (rng_key rngs) V true in
  let rngs := rng_rest rngs in
  let G := mean proba_dist dist_params_target in
  let G := postprocess_variate proba_dist (rng_key rngs) G true in
  let rngs := rng_rest rngs in
  (p_targ <- getitem target_params "v_targ" ;;
   s_targ <- getitem target_state "v_targ" ;;
   let dist_params_v_targ :=
     fst (v_function_dist p_targ s_targ (rng_key rngs) S' false) in
   let rngs := rng_rest rngs in
   let V_targ := mean proba_dist dist_params_v_targ in
   let V_targ := postprocess_variate proba_dist (rng_key rngs) V_targ true in
   Ok (mk_branch_out loss G V V_targ state_new))%res.

(** The scalar branch of [BaseTDLearningV]'s [loss_func]. *)
Definition V_scalar_branch (lf : loss_fn) (params : pytree)
    (target_params : bundle) (state : pytree) (target_state : bundle)
    (rngs : key) (S' : pytree) (W' regularizer : ndarray)
    (transition_batch : TransitionBatch) : result branch_out :=
  let r := v_function params state (rng_key rngs) S' true in
  let rngs := rng_rest rngs in
  let V := fst r in
  let state_new := snd r in
  let G := target_func target_params target_state (rng_key rngs) transition_batch in
  let rngs := rng_rest rngs in
  (G <- arr_binop fadd G regularizer ;;
   loss <- loss_eval lf G V (Some W') ;;
   p_targ <- getitem target_params "v_targ" ;;
   s_targ <- getitem target_state "v_targ" ;;
   let V_targ := fst (v_function p_targ s_targ (rng_key rngs) S' false) in
   Ok (mk_branch_out loss G V V_targ state_new))%res.

(** [loss_func] of [BaseTDLearningV.__init__], in two parts: everything up
    to the end of the branch on the head, and the common tail.
    [stochastic] is [is_stochastic(self.v)], [reg_none] is
    [self.policy_regularizer is None] and [lf] is [self.loss_function]. *)
Definition V_forward (stochastic reg_none : bool) (lf : loss_fn)
    (params : pytree) (target_params : bundle) (state : pytree)
    (target_state : bundle) (rng : key) (transition_batch : TransitionBatch)
  : result branch_out :=
  let rngs := rng in
  let S' := observation_preprocessor (rng_key rngs) (S transition_batch) in
  let rngs := rng_rest rngs in
  let W' := jnp_clip (W transition_batch) W_lo W_hi in
  (rr <- regularization_term reg_none target_params target_state rngs
           transition_batch ;;
   let regularizer := fst rr in
   let rngs := snd rr in
   if stochastic
   then V_dist_branch reg_none params target_params state target_state
          rng rngs S' regularizer transition_batch
   else V_scalar_branch lf params target_params state target_state
          rngs S' W' regularizer transition_batch)%res.

Definition V_loss_func (stochastic reg_none : bool) (lf : loss_fn)
    (params : pytree) (target_params : bundle) (state : pytree)
    (target_state : bundle) (rng : key) (transition_batch : TransitionBatch)
  : result (ndarray * (ndarray * pytree * metrics_dict)) :=
  let W' := jnp_clip (W transition_batch) W_lo W_hi in
  (o <- V_forward stochastic reg_none lf params target_params state
          target_state rng transition_batch ;;
   td_error_and_metrics class_name lf W' o)%res.

(** [jax.grad(loss_func, has_aux=True)]: the gradient of the first output
    with respect to the first argument, and the auxiliary output of the
    evaluation. *)
Definition grad_has_aux {X} (f : pytree → result (ndarray * X)) (params : pytree)
  : result (pytree * X) :=
  (r <- f params ;;
   Ok (jax_grad (fun p => r' <- f p ;; Ok (fst r')) params, snd r))%res.

Definition V_grads_and_metrics_func (stochastic reg_none : bool) (lf : loss_fn)
  : grads_and_metrics_func_t :=
  fun params target_params state target_state rng transition_batch =>
    let rngs := rng in
    (r <- grad_has_aux
            (fun p => V_loss_func stochastic reg_none lf p target_params state
                        target_state (rng_key rngs) transition_batch) params ;;
     let grads := fst r in
     let '(td_error, state_new, metrics) := snd r in
     let metrics :=
       get_grads_diagnostics grads (class_name +:+ "/grads_") ∪ metrics in
     Ok (grads, state_new, metrics, td_error))%res.

Definition V_td_error_func (stochastic reg_none : bool) (lf : loss_fn)
  : td_error_func_t :=
  fun params target_params state target_state rng transition_batch =>
    (r <- V_loss_func stochastic reg_none lf params target_params state
            target_state rng transition_batch ;;
     let '(td_error, state_new, metrics) := snd r in
     Ok td_error)%res.

(** [hk.data_structures.to_immutable_dict]: the same mapping, read-only. *)
Definition to_immutable_dict (d : bundle) : bundle := d.

(** [BaseTDLearningV.__init__]. *)
Definition BaseTDLearningV_init (v v_targ : pyval) (optimizer_arg : option optimizer)
    (loss_function_arg : option loss_fn) (policy_regularizer_arg : pyval)
  : M heap BaseTDLearning :=
  (ok <- gets (fun h => is_vfunction h v) ;;
   if negb ok then raise TypeError else
   ok <- gets (fun h => is_none v_targ || is_vfunction h v_targ) ;;
   if negb ok then raise TypeError else
   u <- BaseTDLearning_init huber adam v v_targ optimizer_arg loss_function_arg
          policy_regularizer_arg ;;
   stochastic <- gets (fun h => is_stochastic h v) ;;
   let reg_none := is_none (policy_regularizer u) in
   ret (with_funcs
          (V_grads_and_metrics_func stochastic reg_none (loss_function u))
          (V_td_error_func stochastic reg_none (loss_function u)) u))%M.

(** [BaseTDLearningV.target_params] and [target_function_state]. *)
Definition V_target_params : M store bundle :=
  (u <- gets st_self ;;
   v_params <- on_heap (params_get (_f u)) ;;
   v_targ_params <- on_heap (params_get (_f_targ u)) ;;
   h <- gets st_heap ;;
   ret (to_immutable_dict
          (<[ "v" := v_params ]>
          (<[ "v_targ" := v_targ_params ]>
          (<[ "reg" := getattr_params h (getattr_f h (policy_regularizer u)) ]>
          (<[ "reg_hparams" := getattr_hyperparams h (policy_regularizer u) ]>
           ∅))))))%M.

Definition V_target_function_state : M store bundle :=
  (u <- gets st_self ;;
   v_state <- on_heap (function_state_get (_f u)) ;;
   v_targ_state <- on_heap (function_state_get (_f_targ u)) ;;
   h <- gets st_heap ;;
   ret (to_immutable_dict
          (<[ "v" := v_state ]>
          (<[ "v_targ" := v_targ_state ]>
          (<[ "reg" :=
                getattr_function_state h (getattr_f h (policy_regularizer u)) ]>
           ∅)))))%M.

(** *** BaseTDLearningQ *)

(** The distributional branch of [BaseTDLearningQ]'s [loss_func]. *)
Definition Q_dist_branch (reg_none : bool) (params : pytree)
    (target_params : bundle) (state : pytree) (target_state : bundle)
    (rng rngs : key) (S' A' : pytree) (regularizer : ndarray)
    (transition_batch : TransitionBatch) : result branch_out :=
  let r := q_function_type1_dist params state (rng_key rngs) S' A' true in
  let rngs := rng_rest rngs in
  let dist_params := fst r in
  let state_new := snd r in
  let dist_params_target :=
    target_func_dist target_params target_state rng transition_batch in
  let dist_params_target :=
    if negb reg_none
    then affine_transform proba_dist dist_params_target (scalar (Fin 1))
           regularizer value_transform
    else dist_params_target in
  let loss := jnp_mean (cross_entropy proba_dist dist_params_target dist_params) in
  let Q := mean proba_dist dist_params in
  let Q := postprocess_variate proba_dist (rng_key rngs) Q true in
  let rngs := rng_rest rngs in
  let G := mean proba_dist dist_params_target in
  let G := postprocess_variate proba_dist (rng_key rngs) G true in
  let rngs := rng_rest rngs in
  (p_targ <- getitem target_params "q_targ" ;;
   s_targ <- getitem target_state "q_targ" ;;
   let dist_params_q_targ :=
     fst (q_function_type1_dist p_targ s_targ (rng_key rngs) S' A' false) in
   let rngs := rng_rest rngs in
   let Q_targ := mean proba_dist dist_params_q_targ in
   let Q_targ := postprocess_variate proba_dist (rng_key rngs) Q_targ true in
   Ok (mk_branch_out loss G Q Q_targ state_new))%res.

(** The scalar branch of [BaseTDLearningQ]'s [loss_func]. *)
Definition Q_scalar_branch (lf : loss_fn) (params : pytree)
    (target_params : bundle) (state : pytree) (target_state : bundle)
    (rngs : key) (S' A' : pytree) (W' regularizer : ndarray)
    (transition_batch : TransitionBatch) : result branch_out :=
  let r := q_function_type1 params state (rng_key rngs) S' A' true in
  let rngs := rng_rest rngs in
  let Q := fst r in
  let state_new := snd r in
  let G := target_func target_params target_state (rng_key rngs) transition_batch in
  let rngs := rng_rest rngs in
  (G <- arr_binop fadd G regularizer ;;
   loss <- loss_eval lf G Q (Some W') ;;
   p_targ <- getitem target_params "q_targ" ;;
   s_targ <- getitem target_state "q_targ" ;;
   let Q_targ := fst (q_function_type1 p_targ s_targ (rng_key rngs) S' A' false) in
   Ok (mk_branch_out loss G Q Q_targ state_new))%res.

(** [loss_func] of [BaseTDLearningQ.__init__], in the same two parts. *)
Definition Q_forward (stochastic reg_none : bool) (lf : loss_fn)
    (params : pytree) (target_params : bundle) (state : pytree)
    (target_state : bundle) (rng : key) (transition_batch : TransitionBatch)
  : result branch_out :=
  let rngs := rng in
  let S' := observation_preprocessor (rng_key rngs) (S transition_batch) in
  let rngs := rng_rest rngs in
  let A' := action_preprocessor (rng_key rngs) (A transition_batch) in
  let rngs := rng_rest rngs in
  let W' := jnp_clip (W transition_batch) W_lo W_hi in
  (rr <- regularization_term reg_none target_params target_state rngs
           transition_batch ;;
   let regularizer := fst rr in
   let rngs := snd rr in
   if stochastic
   then Q_dist_branch reg_none params target_params state target_state
          rng rngs S' A' regularizer transition_batch
   else Q_scalar_branch lf params target_params state target_state
          rngs S' A' W' regularizer transition_batch)%res.

Definition Q_loss_func (stochastic reg_none : bool) (lf : loss_fn)
    (params : pytree) (target_params : bundle) (state : pytree)
    (target_state : bundle) (rng : key) (transition_batch : TransitionBatch)
  : result (ndarray * (ndarray * pytree * metrics_dict)) :=
  let W' := jnp_clip (W transition_batch) W_lo W_hi in
  (o <- Q_forward stochastic reg_none lf params target_params state
          target_state rng transition_batch ;;
   td_error_and_metrics class_name lf W' o)%res.

Definition Q_grads_and_metrics_func (stochastic reg_none : bool) (lf : loss_fn)
  : grads_and_metrics_func_t :=
  fun params target_params state target_state rng transition_batch =>
    let rngs := rng in
    (r <- grad_has_aux
            (fun p => Q_loss_func stochastic reg_none lf p target_params state
                        target_state (rng_key rngs) transition_batch) params ;;
     let grads := fst r in
     let '(td_error, state_new, metrics) := snd r in
     let metrics :=
       get_grads_diagnostics grads (class_name +:+ "/grads_") ∪ metrics in
     Ok (grads, state_new, metrics, td_error))%res.

Definition Q_td_error_func (stochastic reg_none : bool) (lf : loss_fn)
  : td_error_func_t :=
  fun params target_params state target_state rng transition_batch =>
    (r <- Q_loss_func stochastic reg_none lf params target_params state
            target_state rng transition_batch ;;
     let '(td_error, state_new, metrics) := snd r in
     Ok td_error)%res.

(** [BaseTDLearningQ.__init__]. *)
Definition BaseTDLearningQ_init (q q_targ : pyval) (optimizer_arg : option optimizer)
    (loss_function_arg : option loss_fn) (policy_regularizer_arg : pyval)
  : M heap BaseTDLearning :=
  (ok <- gets (fun h => is_qfunction h q) ;;
   if negb ok then raise TypeError else
   ok <- gets (fun h => is_none q_targ || is_list_or_tuple q_targ
                        || is_qfunction h q_targ) ;;
   if negb ok then raise TypeError else
   u <- BaseTDLearning_init huber adam q q_targ optimizer_arg loss_function_arg
          policy_regularizer_arg ;;
   stochastic <- gets (fun h => is_stochastic h q) ;;
   let reg_none := is_none (policy_regularizer u) in
   ret (with_funcs
          (Q_grads_and_metrics_func stochastic reg_none (loss_function u))
          (Q_td_error_func stochastic reg_none (loss_function u)) u))%M.

(** [BaseTDLearningQ.target_params] and [target_function_state]. *)
Definition Q_target_params : M store bundle :=
  (u <- gets st_self ;;
   q_params <- on_heap (params_get (_f u)) ;;
   q_targ_params <- on_heap (params_get (_f_targ u)) ;;
   h <- gets st_heap ;;
   ret (to_immutable_dict
          (<[ "q" := q_params ]>
          (<[ "q_targ" := q_targ_params ]>
          (<[ "reg" := getattr_params h (getattr_f h (policy_regularizer u)) ]>
          (<[ "reg_hparams" := getattr_hyperparams h (policy_regularizer u) ]>
           ∅))))))%M.

Definition Q_target_function_state : M store bundle :=
  (u <- gets st_self ;;
   q_state <- on_heap (function_state_get (_f u)) ;;
   q_targ_state <- on_heap (function_state_get (_f_targ u)) ;;
   h <- gets st_heap ;;
   ret (to_immutable_dict
          (<[ "q" := q_state ]>
          (<[ "q_targ" := q_targ_state ]>
          (<[ "reg" :=
                getattr_function_state h (getattr_f h (policy_regularizer u)) ]>
           ∅)))))%M.

(** *** BaseTDLearningQWithTargetPolicy *)

(** [BaseTDLearningQWithTargetPolicy.__init__]. *)
Definition BaseTDLearningQWithTargetPolicy_init (q pi_targ_arg q_targ : pyval)
    (optimizer_arg : option optimizer) (loss_function_arg : option loss_fn)
    (policy_regularizer_arg : pyval) : M heap BaseTDLearning :=
  (bad <- gets (fun h => negb (is_none pi_targ_arg)
                         && negb (is_policy h pi_targ_arg)) ;;
   if bad then raise TypeError else
   u <- BaseTDLearningQ_init q q_targ optimizer_arg loss_function_arg
          policy_regularizer_arg ;;
   ret (with_pi_targ pi_targ_arg u))%M.

(** The target policy of the instance ([None] where the attribute was
    never assigned). *)
Definition self_pi_targ (u : BaseTDLearning) : pyval := default PyNone (pi_targ u).

Definition QWithTargetPolicy_target_params : M store bundle :=
  (u <- gets st_self ;;
   q_params <- on_heap (params_get (_f u)) ;;
   q_targ_params <- on_heap (params_get (_f_targ u)) ;;
   h <- gets st_heap ;;
   ret (to_immutable_dict
          (<[ "q" := q_params ]>
          (<[ "q_targ" := q_targ_params ]>
          (<[ "pi_targ" := getattr_params h (self_pi_targ u) ]>
          (<[ "reg" := getattr_params h (getattr_f h (policy_regularizer u)) ]>
          (<[ "reg_hparams" := getattr_hyperparams h (policy_regularizer u) ]>
           ∅)))))))%M.

Definition QWithTargetPolicy_target_function_state : M store bundle :=
  (u <- gets st_self ;;
   q_state <- on_heap (function_state_get (_f u)) ;;
   q_targ_state <- on_heap (function_state_get (_f_targ u)) ;;
   h <- gets st_heap ;;
   ret (to_immutable_dict
          (<[ "q" := q_state ]>
          (<[ "q_targ" := q_targ_state ]>
          (<[ "pi_targ" := getattr_function_state h (self_pi_targ u) ]>
          (<[ "reg" :=
                getattr_function_state h (getattr_f h (policy_regularizer u)) ]>
           ∅))))))%M.

End Updaters.

(** ** Definitions used by the statements *)

(** What an update is meant to change or keep: every object of the heap up
    to the random key of the function approximators, and the updater. *)
Definition forget_key (o : pyobj) : pyobj :=
  match o with
  | Func fo =>
      Func (mk_funobj (f_class fo) (f_params fo) (f_function_state fo) (0, 0)%Z)
  | _ => o
  end.

Definition learnables (s : store) : heap * BaseTDLearning :=
  (forget_key <$> st_heap s, st_self s).

(** The split compute/apply path of section 8:
    [update_from_grads(grads_and_metrics(batch).gradients, state)]. *)
Definition split_update (random_split : key → key * key)
    (set_params set_function_state : funobj → pytree → result funobj)
    (target_params target_function_state : M store bundle)
    (transition_batch : TransitionBatch) : M store unit :=
  (r <- grads_and_metrics random_split target_params target_function_state
          transition_batch ;;
   let '(grads, function_state, _, _) := r in
   update_from_grads set_params set_function_state grads function_state)%M.

(** The clamp to the interval [[0.1, 10]] in the words of the specification:
    an entry below 0.1 becomes 0.1, an entry above 10 becomes 10, every
    other entry is kept. *)
Definition clamp_weight (x : fp) : fp :=
  if fltb x (Fin (Q2Qc (1 # 10))) then Fin (Q2Qc (1 # 10))
  else if fltb (Fin (Q2Qc 10)) x then Fin (Q2Qc 10)
  else x.

(** Two weights that are equal or lie beyond the same clipping bound. *)
Definition same_side (x y : fp) : Prop :=
  x = y
  ∨ (fltb W_hi x = true ∧ fltb W_hi y = true)
  ∨ (fltb x W_lo = true ∧ fltb y W_lo = true).

Definition with_W (b : TransitionBatch) (w : ndarray) : TransitionBatch :=
  mk_batch (S b) (A b) (Rn b) (In b) (S_next b) (A_next b) (Done b) w.

(** Two batches that differ at most in weights beyond the same bound. *)
Definition differ_in_clipped_W (b1 b2 : TransitionBatch) : Prop :=
  b2 = with_W b1 (W b2)
  ∧ shape (W b1) = shape (W b2)
  ∧ Forall2 same_side (data (W b1)) (data (W b2)).

(** A collaborator that does not read the raw importance weights. *)
Definition ignores_W {X} (f : TransitionBatch → X) : Prop :=
  ∀ b w, f (with_W b w) = f b.


(** The four arrays of the assertions have one shape, of rank 1. *)
Definition same_shape_rank1 (o : branch_out) (W : ndarray) : Prop :=
  ∃ n, shape (bo_G o) = [n] ∧ shape (bo_pred o) = [n]
       ∧ shape (bo_targ o) = [n] ∧ shape W = [n].


(** The mean-squared-error loss and its gradient on plain rationals. *)
Definition half_sq (g v : Qc) : Qc := Q2Qc (1 # 2) * ((v - g) * (v - g)).

Fixpoint sum_half_sq (gs vs : list Qc) : Qc :=
  match vs, gs with
  | v :: vs', g :: gs' => half_sq g v + sum_half_sq gs' vs'
  | _, _ => 0
  end.

Definition mse_q (gs vs : list Qc) : Qc :=
  sum_half_sq gs vs / Qc_of_nat (length vs).

Fixpoint mse_grad_q (n : Qc) (gs vs : list Qc) : list Qc :=
  match vs, gs with
  | v :: vs', g :: gs' => (v - g) / n :: mse_grad_q n gs' vs'
  | _, _ => []
  end.

Definition fin_arr1 (xs : list Qc) : ndarray := arr1 (map Fin xs).

(** The regularizer test of the base constructor. *)
Definition reg_ok (h : heap) (reg : pyval) : bool :=
  is_regularizer h reg || is_none reg.

(** Two stores that differ at most in the random key of the function
    approximator that [f] refers to: the updater is the same, and every
    address holds what it held, but for the object of [f], which may hold
    another key. *)
Definition same_up_to_key_of (f : pyval) (s s' : store) : Prop :=
  st_self s' = st_self s
  ∧ ∀ l, st_heap s' !! l = st_heap s !! l
         ∨ (f = PyRef l
            ∧ ∃ fo k',
                st_heap s !! l = Some (Func fo)
                ∧ st_heap s' !! l
                  = Some (Func (mk_funobj (f_class fo) (f_params fo)
                                  (f_function_state fo) k'))).

(** A computation that changes at most the random key of [f]. *)
Definition advances_key_of {A} (f : pyval) (m : M store A) : Prop :=
  ∀ s, same_up_to_key_of f s (snd (m s)).

(** A property read leaves the store as it is. *)
Definition read_only {A} (m : M store A) : Prop := ∀ s, snd (m s) = s.

(** A computation that keeps the learnables, whatever its outcome. *)
Definition keeps {A} (m : M store A) : Prop :=
  ∀ s, learnables (snd (m s)) = learnables s.

(** ** A small concrete updater, for the examples *)

(** A splitter, a plain pair of setters and a gradient-descent optimizer
    without state: [updates = -grads]. *)
Definition ex_split (k : key) : key * key :=
  ((fst k + 1, snd k)%Z, (snd k, fst k)).

Definition ex_set_params (fo : funobj) (p : pytree) : result funobj :=
  if decide (tree_structure p ≠ tree_structure (f_params fo)) then Err TypeError
  else Ok (mk_funobj (f_class fo) p (f_function_state fo) (f_random_key fo)).

Definition ex_set_function_state (fo : funobj) (st : pytree) : result funobj :=
  if decide (tree_structure st ≠ tree_structure (f_function_state fo))
  then Err TypeError
  else Ok (mk_funobj (f_class fo) (f_params fo) st (f_random_key fo)).

Fixpoint tree_map (f : ndarray → ndarray) (t : pytree) : pytree :=
  match t with
  | PNone => PNone
  | PLeaf a => PLeaf (f a)
  | PTuple ts => PTuple (map (tree_map f) ts)
  | PList ts => PList (map (tree_map f) ts)
  | PNamedTuple n ts => PNamedTuple n (map (tree_map f) ts)
  | PDict kvs => PDict (map (fun kv => (fst kv, tree_map f (snd kv))) kvs)
  end.

Definition ex_sgd : optimizer :=
  mk_optimizer (fun _ => PTuple [])
    (fun grads st _ => (tree_map arr_neg grads, st)).

(** An optimizer whose state is one array per parameter tree. *)
Definition ex_momentum : optimizer :=
  mk_optimizer (fun p => PTuple [p])
    (fun grads st _ => (tree_map arr_neg grads, PTuple [grads])).

Definition fin (z : Z) : fp := Fin (Qc_of_Z z).

(** One V-function with a single weight, at address 1. *)
Definition ex_v : funobj :=
  mk_funobj ClsV (PLeaf (arr1 [fin 2])) PNone (7, 11)%Z.

Definition ex_heap : heap := {[ 1%positive := Func ex_v ]}.

Definition ex_batch : TransitionBatch :=
  mk_batch (PLeaf (arr1 [fin 1; fin 3])) PNone (arr1 [fin 1; fin 0])
    (arr1 [fin 1; fin 1]) (PLeaf (arr1 [fin 3; fin 1])) PNone
    (arr1 [fin 0; fin 0]) (arr1 [fin 1; fin 1]).

(** Closures a subclass could store: the gradient is the given tree, the
    new function state is [None]. *)
Definition ex_grads_func (g : pytree) : grads_and_metrics_func_t :=
  fun _ _ _ _ _ _ => Ok (g, PNone, ∅, arr1 [fin 0; fin 0]).

Definition ex_td_error_func : td_error_func_t :=
  fun _ _ _ _ _ _ => Ok (arr1 [fin 0; fin 0]).

Definition ex_updater (g : pytree) : BaseTDLearning :=
  mk_td (PyRef 1%positive) (PyRef 1%positive) mse PyNone ex_sgd (PTuple [])
    (Some (ex_grads_func g)) (Some ex_td_error_func) None.

Definition ex_store (g : pytree) : store := mk_store ex_heap (ex_updater g).

(** The example updater, as a V-learning updater. *)
Definition ex_update :=
  update ex_split ex_set_params ex_set_function_state
    V_target_params V_target_function_state.

Definition ex_grads_and_metrics :=
  grads_and_metrics ex_split V_target_params V_target_function_state.

Definition ex_split_update :=
  split_update ex_split ex_set_params ex_set_function_state
    V_target_params V_target_function_state.

Definition g_inf : pytree := PLeaf (arr1 [PInf]).
Definition g_nan : pytree := PLeaf (arr1 [NaN]).
Definition g_fin : pytree := PLeaf (arr1 [fin 3]).

(** Toy collaborators: a linear V-function [w * s] and Q-function
    [w * s * a] with the same distributional heads wrapped in a dict, a
    target that is the n-step return plus the bootstrap factor, a
    regularizer that returns its hyperparameter array, and a [jax.grad]
    that returns a fixed tree. *)
Definition leaf_or_empty (t : pytree) : ndarray :=
  match t with
  | PLeaf a => a
  | _ => arr1 []
  end.

Definition weight_of (t : pytree) : fp := hd (Fin 0) (data (leaf_or_empty t)).

Definition ex_preprocessor (_ : key) (x : pytree) : pytree := x.

Definition ex_v_function (params state : pytree) (_ : key) (S' : pytree)
    (_ : bool) : ndarray * pytree :=
  (arr_map (fmul (weight_of params)) (leaf_or_empty S'), state).

Definition ex_v_function_dist (params state : pytree) (k : key) (S' : pytree)
    (t : bool) : pytree * pytree :=
  (PDict [("mu", PLeaf (fst (ex_v_function params state k S' t)))], state).

Definition ex_q_function_type1 (params state : pytree) (_ : key) (S' A' : pytree)
    (_ : bool) : ndarray * pytree :=
  (arr_map (fmul (weight_of params))
     (mk_ndarray (shape (leaf_or_empty S'))
        (zip_with_fp fmul (data (leaf_or_empty S')) (data (leaf_or_empty A')))),
   state).

Definition ex_q_function_type1_dist (params state : pytree) (k : key)
    (S' A' : pytree) (t : bool) : pytree * pytree :=
  (PDict [("mu", PLeaf (fst (ex_q_function_type1 params state k S' A' t)))], state).

Definition dist_mu (d : pytree) : ndarray :=
  match d with
  | PDict [(_, PLeaf a)] => a
  | _ => arr1 []
  end.

Definition ex_proba_dist : ProbaDist unit :=
  mk_proba_dist unit
    (fun d scale shift _ =>
       PDict [("mu",
               PLeaf (arr_map (fun x => fadd (fmul x (hd (Fin 1) (data scale)))
                                          (hd (Fin 0) (data shift)))
                        (dist_mu d)))])
    (fun d_targ d =>
       mk_ndarray (shape (dist_mu d))
         (zip_with_fp (fun g v => fmul half (fmul (fsub v g) (fsub v g)))
            (data (dist_mu d_targ)) (data (dist_mu d))))
    dist_mu
    (fun _ x _ => x).

Definition ex_target_func (_ _ : bundle) (_ : key) (b : TransitionBatch) : ndarray :=
  mk_ndarray (shape (Rn b)) (zip_with_fp fadd (data (Rn b)) (data (In b))).

Definition ex_target_func_dist (tp ts : bundle) (k : key) (b : TransitionBatch)
  : pytree :=
  PDict [("mu", PLeaf (ex_target_func tp ts k b))].

Definition ex_batch_eval (_ hparams _ : pytree) (_ : key) (_ : TransitionBatch)
  : ndarray := leaf_or_empty hparams.

Definition ex_jax_grad (g : pytree) (_ : pytree → result ndarray) (_ : pytree)
  : pytree := g.

Definition ex_diagnostics (_ : pytree) (_ : string) : metrics_dict := ∅.

(** The three constructors with these collaborators, the class name ["TD"],
    mse as the default loss and gradient descent as the default optimizer. *)
Definition ex_V_init (g : pytree) :=
  BaseTDLearningV_init ex_split mse ex_sgd "TD" ex_preprocessor
    ex_v_function ex_v_function_dist unit ex_proba_dist tt
    ex_target_func ex_target_func_dist ex_batch_eval (ex_jax_grad g)
    ex_diagnostics.

Definition ex_Q_init (g : pytree) :=
  BaseTDLearningQ_init ex_split mse ex_sgd "TD" ex_preprocessor ex_preprocessor
    ex_q_function_type1 ex_q_function_type1_dist unit ex_proba_dist tt
    ex_target_func ex_target_func_dist ex_batch_eval (ex_jax_grad g)
    ex_diagnostics.

Definition ex_QWithTargetPolicy_init (g : pytree) :=
  BaseTDLearningQWithTargetPolicy_init ex_split mse ex_sgd "TD" ex_preprocessor
    ex_preprocessor ex_q_function_type1 ex_q_function_type1_dist unit
    ex_proba_dist tt ex_target_func ex_target_func_dist ex_batch_eval
    (ex_jax_grad g) ex_diagnostics.

(** A heap with a V-function at 1, a Q-function at 2, a policy at 3 and a
    regularizer over that policy at 4. *)
Definition ex_q : funobj :=
  mk_funobj ClsQ (PLeaf (arr1 [fin 2])) PNone (5, 3)%Z.

Definition ex_pi : funobj :=
  mk_funobj ClsPolicy (PLeaf (arr1 [fin 1])) PNone (1, 2)%Z.

Definition ex_heap4 : heap :=
  <[ 1%positive := Func ex_v ]>
  (<[ 2%positive := Func ex_q ]>
  (<[ 3%positive := Func ex_pi ]>
  (<[ 4%positive := RegularizerObj (PyRef 3%positive) (PLeaf (arr1 [fin 1; fin 1])) ]>
   ∅))).


(** Bundles, parameters and a key for the loss computations, and the
    loss functions of the V and Q updaters with the toy collaborators. *)
Definition ex_tp : bundle :=
  <[ "v" := PLeaf (arr1 [fin 2]) ]>
  (<[ "v_targ" := PLeaf (arr1 [fin 2]) ]>
  (<[ "q" := PLeaf (arr1 [fin 2]) ]>
  (<[ "q_targ" := PLeaf (arr1 [fin 2]) ]>
  (<[ "reg" := PLeaf (arr1 [fin 1]) ]>
  (<[ "reg_hparams" := PLeaf (arr1 [fin 1; fin 1]) ]> ∅))))).

Definition ex_ts : bundle :=
  <[ "v" := PNone ]> (<[ "v_targ" := PNone ]>
  (<[ "q" := PNone ]> (<[ "q_targ" := PNone ]> (<[ "reg" := PNone ]> ∅)))).

Definition ex_params : pytree := PLeaf (arr1 [fin 2]).

Definition ex_key : key := (7, 11)%Z.

Definition ex_V_forward :=
  V_forward ex_split ex_preprocessor ex_v_function ex_v_function_dist unit
    ex_proba_dist tt ex_target_func ex_target_func_dist ex_batch_eval.

Definition ex_V_loss_func :=
  V_loss_func ex_split "TD" ex_preprocessor ex_v_function ex_v_function_dist
    unit ex_proba_dist tt ex_target_func ex_target_func_dist ex_batch_eval.

Definition ex_V_td_error_func :=
  V_td_error_func ex_split "TD" ex_preprocessor ex_v_function
    ex_v_function_dist unit ex_proba_dist tt ex_target_func
    ex_target_func_dist ex_batch_eval.

Definition ex_V_grads_and_metrics_func :=
  V_grads_and_metrics_func ex_split "TD" ex_preprocessor ex_v_function
    ex_v_function_dist unit ex_proba_dist tt ex_target_func
    ex_target_func_dist ex_batch_eval (ex_jax_grad g_fin) ex_diagnostics.

(** The example batch with other weights. *)
Definition ex_batch_W (ws : list fp) : TransitionBatch :=
  with_W ex_batch (arr1 ws).


(** ** The distributional targets of the V and Q updaters *)

Section TargetDistParams.

Variable random_split : key → key * key.

(** The target function [self.v_targ] (or [self.q_targ]): its observation
    preprocessor, its forward pass with a distributional head, its
    distribution and its value transform. *)
Variable targ_observation_preprocessor : key → pytree → pytree.
Variable targ_function_dist : pytree → pytree → key → pytree → bool → pytree * pytree.
Variable targ_function_type1_dist :
  pytree → pytree → key → pytree → pytree → bool → pytree * pytree.
Variable VT : Type.
Variable targ_proba_dist : ProbaDist VT.
Variable targ_value_transform : VT.

(** [BaseTDLearningV._get_target_dist_params]. *)
Definition V_get_target_dist_params (params state : pytree) (rng : key)
    (transition_batch : TransitionBatch) : pytree :=
  let rngs := rng in
  let S_next' :=
    targ_observation_preprocessor (rng_key random_split rngs)
      (S_next transition_batch) in
  let rngs := rng_rest random_split rngs in
  let scale := In transition_batch in
  let shift := Rn transition_batch in
  let dist_params_next :=
    fst (targ_function_dist params state (rng_key random_split rngs) S_next'
           false) in
  affine_transform targ_proba_dist dist_params_next scale shift
    targ_value_transform.

(** [BaseTDLearningQ._get_target_dist_params]. *)
Definition Q_get_target_dist_params (params state : pytree) (rng : key)
    (transition_batch : TransitionBatch) (A_next' : pytree) : pytree :=
  let rngs := rng in
  let S_next' :=
    targ_observation_preprocessor (rng_key random_split rngs)
      (S_next transition_batch) in
  let rngs := rng_rest random_split rngs in
  let scale := In transition_batch in
  let shift := Rn transition_batch in
  let dist_params_next :=
    fst (targ_function_type1_dist params state (rng_key random_split rngs)
           S_next' A_next' false) in
  affine_transform targ_proba_dist dist_params_next scale shift
    targ_value_transform.

End TargetDistParams.

(** ** coax._core.dynamics_model: the arguments a DynamicsModel is built from *)

Section DynamicsModel.

(** Gym spaces, Haiku-style forward-pass functions, distributions and
    preprocessors; [ProbaDist(space)] and its [preprocess_variate] method. *)
Variable space : Type.
Variable func_t : Type.
Variable proba_dist_t : Type.
Variable preprocessor_t : Type.
Variable ProbaDist_new : space → proba_dist_t.
Variable preprocess_variate : proba_dist_t → preprocessor_t.

(** The part of a gym environment the constructor reads. *)
Record Env : Type := mk_env {
  env_observation_space : space;
  env_action_space : space
}.

(** The keyword arguments handed to [BaseModel.__init__]. *)
Record model_kwargs : Type := mk_model_kwargs {
  kw_func : func_t;
  kw_observation_space : space;
  kw_action_space : space;
  kw_observation_preprocessor : preprocessor_t;
  kw_action_preprocessor : preprocessor_t;
  kw_proba_dist : proba_dist_t;
  kw_random_seed : option Z
}.

(** The keyword arguments handed to [BaseModel.example_data]. *)
Record example_kwargs : Type := mk_example_kwargs {
  ekw_observation_space : space;
  ekw_action_space : space;
  ekw_observation_preprocessor : preprocessor_t;
  ekw_action_preprocessor : preprocessor_t;
  ekw_proba_dist : proba_dist_t;
  ekw_batch_size : nat;
  ekw_random_seed : option Z
}.

(** [BaseModel.__init__] and [BaseModel.example_data], defined with the
    base class. *)
Variable model_t : Type.
Variable example_t : Type.
Variable BaseModel_init : model_kwargs → result model_t.
Variable BaseModel_example_data : example_kwargs → result example_t.

(** The arguments [DynamicsModel.__init__] resolves before it calls the
    base constructor. *)
Definition DynamicsModel_init_kwargs (func : func_t) (env : Env)
    (action_preprocessor : option preprocessor_t)
    (proba_dist : option proba_dist_t) (random_seed : option Z) : model_kwargs :=
  let action_preprocessor :=
    match action_preprocessor with
    | None => preprocess_variate (ProbaDist_new (env_action_space env))
    | Some ap => ap
    end in
  let proba_dist :=
    match proba_dist with
    | None => ProbaDist_new (env_observation_space env)
    | Some pd => pd
    end in
  let observation_preprocessor := preprocess_variate proba_dist in
  mk_model_kwargs func (env_observation_space env) (env_action_space env)
    observation_preprocessor action_preprocessor proba_dist random_seed.

(** [DynamicsModel.__init__]. *)
Definition DynamicsModel_init (func : func_t) (env : Env)
    (action_preprocessor : option preprocessor_t)
    (proba_dist : option proba_dist_t) (random_seed : option Z)
  : result model_t :=
  BaseModel_init
    (DynamicsModel_init_kwargs func env action_preprocessor proba_dist
       random_seed).

(** The arguments [DynamicsModel.example_data] resolves. *)
Definition DynamicsModel_example_data_kwargs (observation_space action_space : space)
    (action_preprocessor : option preprocessor_t)
    (proba_dist : option proba_dist_t) (batch_size : nat)
    (random_seed : option Z) : example_kwargs :=
  let action_preprocessor :=
    match action_preprocessor with
    | None => preprocess_variate (ProbaDist_new action_space)
    | Some ap => ap
    end in
  let proba_dist :=
    match proba_dist with
    | None => ProbaDist_new observation_space
    | Some pd => pd
    end in
  let observation_preprocessor := preprocess_variate proba_dist in
  mk_example_kwargs observation_space action_space observation_preprocessor
    action_preprocessor proba_dist batch_size random_seed.

(** [DynamicsModel.example_data]. *)
Definition DynamicsModel_example_data (observation_space action_space : space)
    (action_preprocessor : option preprocessor_t)
    (proba_dist : option proba_dist_t) (batch_size : nat)
    (random_seed : option Z) : result example_t :=
  BaseModel_example_data
    (DynamicsModel_example_data_kwargs observation_space action_space
       action_preprocessor proba_dist batch_size random_seed).

End DynamicsModel.

(** ** Further definitions used by the statements *)

(** What no method of the updater changes: the functions it refers to, its
    loss function, regularizer and closures, and the tree structure of its
    optimizer state. *)
Definition same_wiring (u u' : BaseTDLearning) : Prop :=
  _f u' = _f u
  ∧ _f_targ u' = _f_targ u
  ∧ loss_function u' = loss_function u
  ∧ policy_regularizer u' = policy_regularizer u
  ∧ _grads_and_metrics_func u' = _grads_and_metrics_func u
  ∧ _td_error_func u' = _td_error_func u
  ∧ pi_targ u' = pi_targ u
  ∧ tree_structure (_optimizer_state u') = tree_structure (_optimizer_state u).

Definition keeps_wiring {A} (m : M store A) : Prop :=
  ∀ s, same_wiring (st_self s) (st_self (snd (m s))).

(** Two batches with the same next observations, bootstrap factors and
    n-step returns. *)
Definition same_bootstrap_fields (b1 b2 : TransitionBatch) : Prop :=
  S_next b1 = S_next b2 ∧ In b1 = In b2 ∧ Rn b1 = Rn b2.

(** The three metric names of [loss_func]. *)
Definition loss_key (class_name : string) : string := class_name +:+ "/loss".
Definition td_error_key (class_name : string) : string :=
  class_name +:+ "/td_error".
Definition td_error_targ_key (class_name : string) : string :=
  class_name +:+ "/td_error_targ".



(** ** Further examples *)

(** An optimizer whose update returns a state of another structure than
    its [init]. *)
Definition ex_restructuring_opt : optimizer :=
  mk_optimizer (fun _ => PTuple [])
    (fun grads _ _ => (tree_map arr_neg grads, PNone)).

(** The V-learning and Q-learning updaters the constructors build on the
    example heap; the Q updater with a list of targets. *)
Definition ex_V_updater (g : pytree) : BaseTDLearning :=
  match fst (ex_V_init g (PyRef 1%positive) PyNone None None PyNone ex_heap4) with
  | Ok u => u
  | Err _ => ex_updater g
  end.

Definition ex_V_store (g : pytree) : store := mk_store ex_heap4 (ex_V_updater g).

Definition ex_Q_list_updater : BaseTDLearning :=
  match fst (ex_Q_init g_fin (PyRef 2%positive)
               (PyList [PyRef 2%positive; PyRef 2%positive]) None None PyNone
               ex_heap4) with
  | Ok u => u
  | Err _ => ex_updater g_fin
  end.

Definition ex_Q_list_store : store := mk_store ex_heap4 ex_Q_list_updater.

Definition ex_Q_update :=
  update ex_split ex_set_params ex_set_function_state
    Q_target_params Q_target_function_state.

Definition ex_td_error :=
  td_error ex_split V_target_params V_target_function_state.

Definition ex_update_from_grads :=
  update_from_grads ex_set_params ex_set_function_state.

(** ** Facts about the store-passing combinators *)

Lemma bind_ok_inv {St A B} (m : M St A) (k : A → M St B) s b s2 :
  bind m k s = (Ok b, s2) → ∃ a s1, m s = (Ok a, s1) ∧ k a s1 = (Ok b, s2).
Proof.
  unfold bind. destruct (m s) as [[a|e] s1]; [eauto | discriminate].
Qed.

Lemma bind_eq {St A B} (m : M St A) (k : A → M St B) s a s1 :
  m s = (Ok a, s1) → bind m k s = k a s1.
Proof. unfold bind. intros ->. reflexivity. Qed.

Lemma bind_err {St A B} (m : M St A) (k : A → M St B) s e s1 :
  m s = (Err e, s1) → bind m k s = (Err e, s1).
Proof. unfold bind. intros ->. reflexivity. Qed.

Lemma get_func_heap v h : snd (get_func v h) = h.
Proof. unfold get_func. destruct (deref h v); reflexivity. Qed.

Lemma params_get_heap v h : snd (params_get v h) = h.
Proof.
  unfold params_get, bind, get_func. destruct (deref h v); reflexivity.
Qed.

Lemma function_state_get_heap v h : snd (function_state_get v h) = h.
Proof.
  unfold function_state_get, bind, get_func. destruct (deref h v); reflexivity.
Qed.

Lemma on_heap_read_only {A} (m : M heap A) :
  (∀ h, snd (m h) = h) → read_only (on_heap m).
Proof.
  intros Hm [h u]. unfold on_heap. simpl. specialize (Hm h).
  destruct (m h) as [r h']. simpl in *. subst. reflexivity.
Qed.

Lemma deref_func_lookup h l fo :
  deref h (PyRef l) = Func fo → h !! l = Some (Func fo).
Proof.
  unfold deref. destruct (h !! l) as [o|]; simpl; [congruence | discriminate].
Qed.

Lemma forget_key_overwrite (h : heap) l fo k :
  h !! l = Some (Func fo) →
  forget_key <$>
    <[l := Func (mk_funobj (f_class fo) (f_params fo) (f_function_state fo) k)]> h
  = forget_key <$> h.
Proof.
  intros Hl. rewrite fmap_insert. apply insert_id.
  rewrite lookup_fmap, Hl. reflexivity.
Qed.

Lemma read_only_keeps {A} (m : M store A) : read_only m → keeps m.
Proof. intros H s. rewrite H. reflexivity. Qed.

Lemma keeps_bind {A B} (m : M store A) (k : A → M store B) :
  keeps m → (∀ a, keeps (k a)) → keeps (bind m k).
Proof.
  intros Hm Hk s. unfold bind. specialize (Hm s).
  destruct (m s) as [[a|e] s1]; simpl in *; [| exact Hm].
  rewrite Hk. exact Hm.
Qed.

Lemma read_only_bind {A B} (m : M store A) (k : A → M store B) :
  read_only m → (∀ a, read_only (k a)) → read_only (bind m k).
Proof.
  intros Hm Hk s. unfold bind. specialize (Hm s).
  destruct (m s) as [[a|e] s1]; simpl in *; subst; [apply Hk | reflexivity].
Qed.

Lemma read_only_ret {A} (a : A) : read_only (ret a).
Proof. intros s. reflexivity. Qed.

Lemma read_only_raise {A} e : read_only (@raise store A e).
Proof. intros s. reflexivity. Qed.

Lemma read_only_gets {A} (f : store → A) : read_only (gets f).
Proof. intros s. reflexivity. Qed.

Lemma read_only_lift {A} (r : result A) : read_only (lift_result r).
Proof. intros s. reflexivity. Qed.

Lemma read_only_self_attr {A} (get : BaseTDLearning → option A) :
  read_only (self_attr get).
Proof. intros s. unfold self_attr. destruct (get (st_self s)); reflexivity. Qed.

Lemma read_only_params_get f : read_only (on_heap (params_get f)).
Proof. apply on_heap_read_only, params_get_heap. Qed.

Lemma read_only_function_state_get f : read_only (on_heap (function_state_get f)).
Proof. apply on_heap_read_only, function_state_get_heap. Qed.

Create HintDb ro.

#[local] Hint Resolve read_only_ret read_only_raise read_only_gets
  read_only_lift read_only_self_attr read_only_params_get
  read_only_function_state_get : ro.

Ltac solve_read_only :=
  repeat first
    [ apply read_only_bind; [| intros ? ]
    | solve [ eauto with ro ] ].

Lemma all_finite_no_nan g : all_finite g = true → any_isnan g = false.
Proof.
  unfold all_finite, any_isnan. intros H.
  apply not_true_is_false. intros Hn.
  apply existsb_exists in Hn as (a & Ha & Hn).
  apply existsb_exists in Hn as (x & Hx & Hn).
  rewrite forallb_forall in H. specialize (H a Ha).
  rewrite forallb_forall in H. specialize (H x Hx).
  destruct x; discriminate.
Qed.

Lemma forget_key_deref h1 h2 v :
  forget_key <$> h1 = forget_key <$> h2 →
  forget_key (deref h1 v) = forget_key (deref h2 v).
Proof.
  intros H. destruct v as [|l| | |]; simpl; try reflexivity.
  assert (Hl : (forget_key <$> h1) !! l = (forget_key <$> h2) !! l) by (rewrite H; reflexivity).
  rewrite !lookup_fmap in Hl.
  destruct (h1 !! l), (h2 !! l); simpl in *; congruence.
Qed.

Lemma learnables_params s1 s2 v :
  learnables s1 = learnables s2 →
  getattr_params (st_heap s1) v = getattr_params (st_heap s2) v
  ∧ getattr_function_state (st_heap s1) v = getattr_function_state (st_heap s2) v.
Proof.
  unfold learnables. intros [= Hh Hu].
  pose proof (forget_key_deref _ _ v Hh) as Hd.
  unfold getattr_params, getattr_function_state.
  destruct (deref (st_heap s1) v) as [[]| |], (deref (st_heap s2) v) as [[]| |];
    simpl in Hd; try discriminate; try (split; reflexivity).
  injection Hd as -> -> ->. split; reflexivity.
Qed.

Section BaseFacts.

Variable random_split : key → key * key.
Variable set_params : funobj → pytree → result funobj.
Variable set_function_state : funobj → pytree → result funobj.
Variable target_params : M store bundle.
Variable target_function_state : M store bundle.

Hypothesis target_params_ro : read_only target_params.
Hypothesis target_function_state_ro : read_only target_function_state.

Local Abbreviation rng' := (rng random_split).
Local Abbreviation update' :=
  (update random_split set_params set_function_state
     target_params target_function_state).
Local Abbreviation update_from_grads' :=
  (update_from_grads set_params set_function_state).
Local Abbreviation grads_and_metrics' :=
  (grads_and_metrics random_split target_params target_function_state).
Local Abbreviation split_update' :=
  (split_update random_split set_params set_function_state
     target_params target_function_state).

Lemma rng_keeps f : keeps (on_heap (rng' f)).
Proof.
  intros [h u]. unfold on_heap, rng, bind, get_func, learnables.
  simpl. destruct (deref h f) as [fo| |] eqn:Hd; simpl; try reflexivity.
  unfold put_func. destruct f as [|l| | |]; simpl; try reflexivity.
  apply deref_func_lookup in Hd.
  rewrite (forget_key_overwrite h l fo _ Hd). reflexivity.
Qed.

Lemma grads_and_metrics_keeps b : keeps (grads_and_metrics' b).
Proof.
  unfold grads_and_metrics.
  repeat first
    [ apply rng_keeps
    | apply keeps_bind; [| intros ? ]
    | apply read_only_keeps; solve [ eauto with ro ] ].
Qed.

(** C1 (as the code has it): the guard of [update] looks for NaN.  When
    a gradient leaf holds a NaN, [update] raises [RuntimeError] right after
    [grads_and_metrics]; the online parameters, the function state, the
    optimizer and its state are those from before the call.  When no leaf
    holds a NaN (infinite entries included), [update] goes on to
    [update_from_grads] with these gradients. *)
Theorem update_nan_guard b rte s g fs m td s1 :
  grads_and_metrics' b s = (Ok (g, fs, m, td), s1) →
  (any_isnan g = true →
     update' b rte s = (Err RuntimeError, s1)
     ∧ learnables s1 = learnables s
     ∧ getattr_params (st_heap s1) (_f (st_self s1))
       = getattr_params (st_heap s) (_f (st_self s))
     ∧ getattr_function_state (st_heap s1) (_f (st_self s1))
       = getattr_function_state (st_heap s) (_f (st_self s))
     ∧ _optimizer_state (st_self s1) = _optimizer_state (st_self s))
  ∧ (any_isnan g = false →
       update' b rte s
       = bind (update_from_grads' g fs)
           (fun _ => ret (if rte then (m, Some td) else (m, None))) s1).
Proof.
  intros Hg. split; intros Hn.
  - pose proof (grads_and_metrics_keeps b s) as Hk. rewrite Hg in Hk. simpl in Hk.
    split; [| split; [exact Hk |]].
    + unfold update. rewrite (bind_eq _ _ _ _ _ Hg). rewrite Hn. reflexivity.
    + assert (Hu : st_self s1 = st_self s) by (unfold learnables in Hk; congruence).
      rewrite Hu.
      destruct (learnables_params s1 s (_f (st_self s)) Hk) as [Hp Hf].
      auto.
  - unfold update. rewrite (bind_eq _ _ _ _ _ Hg). rewrite Hn. reflexivity.
Qed.

(** C2: for a batch whose gradients are all finite, [update] leaves the
    store (online parameters, function state, optimizer state, random key)
    exactly as calling [grads_and_metrics] and then [update_from_grads] on
    its gradients and function state does, and raises exactly when that
    does. *)
Theorem update_split_equiv b rte s :
  (∀ g fs m td s1,
     grads_and_metrics' b s = (Ok (g, fs, m, td), s1) → all_finite g = true) →
  snd (update' b rte s) = snd (split_update' b s)
  ∧ is_ok (fst (update' b rte s)) = is_ok (fst (split_update' b s)).
Proof.
  intros Hfin. unfold update, split_update.
  destruct (grads_and_metrics' b s) as [[[[[g fs] m] td]|e] s1] eqn:Hg.
  - rewrite !(bind_eq _ _ _ _ _ Hg).
    rewrite (all_finite_no_nan g (Hfin _ _ _ _ _ eq_refl)).
    unfold bind. destruct (update_from_grads' g fs s1) as [[[]|e] s2];
      simpl; split; reflexivity.
  - rewrite !(bind_err _ _ _ _ _ Hg). split; reflexivity.
Qed.

End BaseFacts.

(** C9: assigning to [optimizer] raises [AttributeError] if and only if
    the structure of the new optimizer's state, initialised on the online
    parameters, differs from the structure of the current optimizer state;
    assigning to [optimizer_state] raises if and only if the new state's
    structure differs from the current one.  A raised assignment leaves the
    store as it was, an accepted one stores the new value. *)
Theorem optimizer_setters_check s new_opt new_os fo :
  deref (st_heap s) (_f (st_self s)) = Func fo →
  let cur := tree_structure (_optimizer_state (st_self s)) in
  (tree_structure (opt_init new_opt (f_params fo)) ≠ cur
   ↔ fst (optimizer_set new_opt s) = Err AttributeError)
  ∧ (tree_structure (opt_init new_opt (f_params fo)) ≠ cur →
     optimizer_set new_opt s = (Err AttributeError, s))
  ∧ (tree_structure (opt_init new_opt (f_params fo)) = cur →
     optimizer_set new_opt s = (Ok tt, set_self_optimizer new_opt s))
  ∧ (tree_structure new_os ≠ cur
     ↔ fst (optimizer_state_set new_os s) = Err AttributeError)
  ∧ (tree_structure new_os ≠ cur →
     optimizer_state_set new_os s = (Err AttributeError, s))
  ∧ (tree_structure new_os = cur →
     optimizer_state_set new_os s = (Ok tt, set_self_optimizer_state new_os s)).
Proof.
  intros Hf cur.
  assert (Hset : optimizer_set new_opt s =
    if decide (tree_structure (opt_init new_opt (f_params fo)) ≠ cur)
    then (Err AttributeError, s) else (Ok tt, set_self_optimizer new_opt s)).
  { destruct s as [h u]. simpl in *.
    unfold optimizer_set, bind, gets, on_heap, params_get, bind, get_func.
    simpl. rewrite Hf. simpl. fold cur.
    destruct (decide (tree_structure (opt_init new_opt (f_params fo)) ≠ cur));
      reflexivity. }
  assert (Hst : optimizer_state_set new_os s =
    if decide (tree_structure new_os ≠ cur)
    then (Err AttributeError, s) else (Ok tt, set_self_optimizer_state new_os s)).
  { destruct s as [h u]. simpl in *.
    unfold optimizer_state_set, bind, optimizer_state_get, gets. simpl. fold cur.
    destruct (decide (tree_structure new_os ≠ cur)); reflexivity. }
  rewrite Hset, Hst.
  destruct (decide (tree_structure (opt_init new_opt (f_params fo)) ≠ cur)) as [Hd|Hd];
    destruct (decide (tree_structure new_os ≠ cur)) as [Hd'|Hd'];
    simpl; repeat split; intros; try reflexivity; try congruence;
    try (exfalso; apply Hd; assumption);
    try (apply dec_stable in Hd; congruence);
    try (apply dec_stable in Hd'; congruence).
Qed.

(** The target bundles of the three classes are property reads. *)
Lemma V_target_params_ro : read_only V_target_params.
Proof. unfold V_target_params. solve_read_only. Qed.

Lemma V_target_function_state_ro : read_only V_target_function_state.
Proof. unfold V_target_function_state. solve_read_only. Qed.

Lemma Q_target_params_ro : read_only Q_target_params.
Proof. unfold Q_target_params. solve_read_only. Qed.

Lemma Q_target_function_state_ro : read_only Q_target_function_state.
Proof. unfold Q_target_function_state. solve_read_only. Qed.

Lemma QWithTargetPolicy_target_params_ro :
  read_only QWithTargetPolicy_target_params.
Proof. unfold QWithTargetPolicy_target_params. solve_read_only. Qed.

Lemma QWithTargetPolicy_target_function_state_ro :
  read_only QWithTargetPolicy_target_function_state.
Proof. unfold QWithTargetPolicy_target_function_state. solve_read_only. Qed.

(** C1, as stated, fails: for the V-learning updater built by the
    constructor, a gradient whose only entry is [+Inf] is not finite, yet
    [update] returns normally and the online parameter has been overwritten
    (by [-Inf]). *)
Lemma update_inf_not_caught :
  ∃ u,
    ex_V_init g_inf (PyRef 1%positive) PyNone None None PyNone ex_heap4
      = (Ok u, ex_heap4)
    ∧ on_ok (fst (ex_grads_and_metrics ex_batch (mk_store ex_heap4 u)))
        (fun r => any_isinf (fst (fst (fst r)))
                  && negb (all_finite (fst (fst (fst r))))) = true
    ∧ is_ok (fst (ex_update ex_batch false (mk_store ex_heap4 u))) = true
    ∧ getattr_params ex_heap4 (PyRef 1%positive) = PLeaf (arr1 [fin 2])
    ∧ getattr_params
        (st_heap (snd (ex_update ex_batch false (mk_store ex_heap4 u))))
        (PyRef 1%positive)
      = PLeaf (arr1 [NInf]).
Proof.
  eexists. split; [reflexivity |].
  repeat split; vm_compute; reflexivity.
Qed.

Lemma update_nan_guard_witness :
  fst (ex_grads_and_metrics ex_batch (ex_store g_nan))
    = Ok (g_nan, PNone, ∅, arr1 [fin 0; fin 0])
  ∧ any_isnan g_nan = true
  ∧ fst (ex_update ex_batch false (ex_store g_nan)) = Err RuntimeError
  ∧ getattr_params
      (st_heap (snd (ex_update ex_batch false (ex_store g_nan)))) (PyRef 1%positive)
    = getattr_params (st_heap (ex_store g_nan)) (PyRef 1%positive).
Proof.
  pose (s1 := snd (ex_grads_and_metrics ex_batch (ex_store g_nan))).
  assert (Hg : ex_grads_and_metrics ex_batch (ex_store g_nan)
               = (Ok (g_nan, PNone, ∅, arr1 [fin 0; fin 0]), s1)).
  { rewrite (surjective_pairing (ex_grads_and_metrics ex_batch (ex_store g_nan))).
    f_equal. }
  destruct (update_nan_guard ex_split ex_set_params ex_set_function_state
              V_target_params V_target_function_state
              V_target_params_ro V_target_function_state_ro
              ex_batch false (ex_store g_nan) g_nan PNone ∅
              (arr1 [fin 0; fin 0]) s1 Hg)
    as [Hnan _].
  destruct (Hnan eq_refl) as (Hu & _ & Hp & _ & _).
  split; [rewrite Hg; reflexivity |].
  split; [reflexivity |].
  unfold ex_update. rewrite Hu. simpl fst. simpl snd.
  split; [reflexivity | exact Hp].
Defined.

Lemma update_split_equiv_witness :
  all_finite g_fin = true
  ∧ snd (ex_update ex_batch false (ex_store g_fin))
    = snd (ex_split_update ex_batch (ex_store g_fin)).
Proof.
  split; [reflexivity |].
  apply (update_split_equiv ex_split ex_set_params ex_set_function_state
           V_target_params V_target_function_state ex_batch false
           (ex_store g_fin)).
  intros g fs m td s1 Hg.
  assert (E : fst (ex_grads_and_metrics ex_batch (ex_store g_fin))
              = Ok (g_fin, PNone, ∅, arr1 [fin 0; fin 0]))
    by (vm_compute; reflexivity).
  unfold ex_grads_and_metrics in E. rewrite Hg in E. simpl in E.
  injection E as -> _ _ _. reflexivity.
Defined.

Lemma optimizer_setters_check_witness :
  optimizer_set ex_momentum (ex_store g_fin)
    = (Err AttributeError, ex_store g_fin)
  ∧ optimizer_set ex_sgd (ex_store g_fin)
    = (Ok tt, set_self_optimizer ex_sgd (ex_store g_fin))
  ∧ optimizer_state_set (PTuple [PNone]) (ex_store g_fin)
    = (Err AttributeError, ex_store g_fin).
Proof.
  destruct (optimizer_setters_check (ex_store g_fin) ex_momentum
              (PTuple [PNone]) ex_v eq_refl) as (_ & H1 & _ & _ & H2 & _).
  destruct (optimizer_setters_check (ex_store g_fin) ex_sgd
              (PTuple [PNone]) ex_v eq_refl) as (_ & _ & H3 & _).
  split; [apply H1; vm_compute; discriminate |].
  split; [apply H3; reflexivity | apply H2; vm_compute; discriminate].
Defined.

(** ** The constructors *)

Lemma is_vfunction_func h v :
  is_vfunction h v = true → ∃ fo, deref h v = Func fo.
Proof.
  unfold is_vfunction, class_of. destruct (deref h v); [eauto | discriminate..].
Qed.

Lemma is_qfunction_func h v :
  is_qfunction h v = true → ∃ fo, deref h v = Func fo.
Proof.
  unfold is_qfunction, class_of. destruct (deref h v); [eauto | discriminate..].
Qed.

Section InitFacts.

Variable random_split : key → key * key.
Variable huber : loss_fn.
Variable adam : optimizer.
Variable class_name : string.
Variable observation_preprocessor : key → pytree → pytree.
Variable action_preprocessor : key → pytree → pytree.
Variable v_function : pytree → pytree → key → pytree → bool → ndarray * pytree.
Variable v_function_dist : pytree → pytree → key → pytree → bool → pytree * pytree.
Variable q_function_type1 :
  pytree → pytree → key → pytree → pytree → bool → ndarray * pytree.
Variable q_function_type1_dist :
  pytree → pytree → key → pytree → pytree → bool → pytree * pytree.
Variable VT : Type.
Variable proba_dist : ProbaDist VT.
Variable value_transform : VT.
Variable target_func : bundle → bundle → key → TransitionBatch → ndarray.
Variable target_func_dist : bundle → bundle → key → TransitionBatch → pytree.
Variable batch_eval : pytree → pytree → pytree → key → TransitionBatch → ndarray.
Variable jax_grad : (pytree → result ndarray) → pytree → pytree.
Variable get_grads_diagnostics : pytree → string → metrics_dict.

Local Abbreviation Base_init := (BaseTDLearning_init huber adam).
Local Abbreviation V_init :=
  (BaseTDLearningV_init random_split huber adam class_name
     observation_preprocessor v_function v_function_dist VT proba_dist
     value_transform target_func target_func_dist batch_eval jax_grad
     get_grads_diagnostics).
Local Abbreviation Q_init :=
  (BaseTDLearningQ_init random_split huber adam class_name
     observation_preprocessor action_preprocessor q_function_type1
     q_function_type1_dist VT proba_dist value_transform target_func
     target_func_dist batch_eval jax_grad get_grads_diagnostics).
Local Abbreviation QWithTargetPolicy_init :=
  (BaseTDLearningQWithTargetPolicy_init random_split huber adam class_name
     observation_preprocessor action_preprocessor q_function_type1
     q_function_type1_dist VT proba_dist value_transform target_func
     target_func_dist batch_eval jax_grad get_grads_diagnostics).

Lemma Base_init_eq f f_targ opt lf reg h :
  Base_init f f_targ opt lf reg h =
  if reg_ok h reg then
    match deref h f with
    | Func fo =>
        (Ok (mk_td f (if is_none f_targ then f else f_targ) (default huber lf)
               reg (default adam opt)
               (opt_init (default adam opt) (f_params fo)) None None None), h)
    | _ => (Err AttributeError, h)
    end
  else (Err TypeError, h).
Proof.
  unfold BaseTDLearning_init, bind, gets, reg_ok.
  destruct (is_regularizer h reg || is_none reg); simpl; [| reflexivity].
  unfold params_get, bind, get_func. destruct (deref h f); reflexivity.
Qed.

Lemma V_init_eq v v_targ opt lf reg h :
  V_init v v_targ opt lf reg h =
  if is_vfunction h v && (is_none v_targ || is_vfunction h v_targ) then
    match Base_init v v_targ opt lf reg h with
    | (Ok u, h') =>
        (Ok (with_funcs
               (V_grads_and_metrics_func random_split class_name
                  observation_preprocessor v_function v_function_dist VT
                  proba_dist value_transform target_func target_func_dist
                  batch_eval jax_grad get_grads_diagnostics
                  (is_stochastic h' v) (is_none (policy_regularizer u))
                  (loss_function u))
               (V_td_error_func random_split class_name
                  observation_preprocessor v_function v_function_dist VT
                  proba_dist value_transform target_func target_func_dist
                  batch_eval
                  (is_stochastic h' v) (is_none (policy_regularizer u))
                  (loss_function u)) u), h')
    | (Err e, h') => (Err e, h')
    end
  else (Err TypeError, h).
Proof.
  unfold BaseTDLearningV_init, bind, gets.
  destruct (is_vfunction h v); simpl; [| reflexivity].
  destruct (is_none v_targ || is_vfunction h v_targ); simpl; [| reflexivity].
  destruct (Base_init v v_targ opt lf reg h) as [[u|e] h']; reflexivity.
Qed.

Lemma Q_init_eq q q_targ opt lf reg h :
  Q_init q q_targ opt lf reg h =
  if is_qfunction h q
     && (is_none q_targ || is_list_or_tuple q_targ || is_qfunction h q_targ) then
    match Base_init q q_targ opt lf reg h with
    | (Ok u, h') =>
        (Ok (with_funcs
               (Q_grads_and_metrics_func random_split class_name
                  observation_preprocessor action_preprocessor q_function_type1
                  q_function_type1_dist VT proba_dist value_transform
                  target_func target_func_dist batch_eval jax_grad
                  get_grads_diagnostics
                  (is_stochastic h' q) (is_none (policy_regularizer u))
                  (loss_function u))
               (Q_td_error_func random_split class_name
                  observation_preprocessor action_preprocessor q_function_type1
                  q_function_type1_dist VT proba_dist value_transform
                  target_func target_func_dist batch_eval
                  (is_stochastic h' q) (is_none (policy_regularizer u))
                  (loss_function u)) u), h')
    | (Err e, h') => (Err e, h')
    end
  else (Err TypeError, h).
Proof.
  unfold BaseTDLearningQ_init, bind, gets.
  destruct (is_qfunction h q); simpl; [| reflexivity].
  destruct (is_none q_targ || is_list_or_tuple q_targ || is_qfunction h q_targ);
    simpl; [| reflexivity].
  destruct (Base_init q q_targ opt lf reg h) as [[u|e] h']; reflexivity.
Qed.

Lemma QWithTargetPolicy_init_eq q pi_t q_targ opt lf reg h :
  QWithTargetPolicy_init q pi_t q_targ opt lf reg h =
  if negb (is_none pi_t) && negb (is_policy h pi_t) then (Err TypeError, h)
  else match Q_init q q_targ opt lf reg h with
       | (Ok u, h') => (Ok (with_pi_targ pi_t u), h')
       | (Err e, h') => (Err e, h')
       end.
Proof.
  unfold BaseTDLearningQWithTargetPolicy_init, bind, gets.
  destruct (negb (is_none pi_t) && negb (is_policy h pi_t)); simpl; [reflexivity |].
  destruct (Q_init q q_targ opt lf reg h) as [[u|e] h']; reflexivity.
Qed.

Lemma V_init_outcome v v_targ opt lf reg h :
  let c := is_vfunction h v && (is_none v_targ || is_vfunction h v_targ)
           && reg_ok h reg in
  (c = true → ∃ u, V_init v v_targ opt lf reg h = (Ok u, h))
  ∧ (c = false → V_init v v_targ opt lf reg h = (Err TypeError, h)).
Proof.
  rewrite V_init_eq, Base_init_eq.
  destruct (is_vfunction h v) eqn:Hv; simpl; [| split; [discriminate | reflexivity]].
  destruct (is_vfunction_func _ _ Hv) as [fo ->].
  destruct (is_none v_targ || is_vfunction h v_targ), (reg_ok h reg); simpl;
    split; intros; try discriminate; eauto.
Qed.

Lemma Q_init_outcome q q_targ opt lf reg h :
  let c := is_qfunction h q
           && (is_none q_targ || is_list_or_tuple q_targ || is_qfunction h q_targ)
           && reg_ok h reg in
  (c = true → ∃ u, Q_init q q_targ opt lf reg h = (Ok u, h))
  ∧ (c = false → Q_init q q_targ opt lf reg h = (Err TypeError, h)).
Proof.
  rewrite Q_init_eq, Base_init_eq.
  destruct (is_qfunction h q) eqn:Hq; simpl; [| split; [discriminate | reflexivity]].
  destruct (is_qfunction_func _ _ Hq) as [fo ->].
  destruct (is_none q_targ || is_list_or_tuple q_targ || is_qfunction h q_targ),
    (reg_ok h reg); simpl; split; intros; try discriminate; eauto.
Qed.

Lemma QWithTargetPolicy_init_outcome q pi_t q_targ opt lf reg h :
  let c := negb (negb (is_none pi_t) && negb (is_policy h pi_t))
           && (is_qfunction h q
               && (is_none q_targ || is_list_or_tuple q_targ
                   || is_qfunction h q_targ)
               && reg_ok h reg) in
  (c = true → ∃ u, QWithTargetPolicy_init q pi_t q_targ opt lf reg h = (Ok u, h))
  ∧ (c = false →
     QWithTargetPolicy_init q pi_t q_targ opt lf reg h = (Err TypeError, h)).
Proof.
  rewrite QWithTargetPolicy_init_eq.
  destruct (Q_init_outcome q q_targ opt lf reg h) as [Hok Herr].
  destruct (negb (is_none pi_t) && negb (is_policy h pi_t)); simpl;
    [split; [discriminate | reflexivity] |].
  destruct (is_qfunction h q
            && (is_none q_targ || is_list_or_tuple q_targ || is_qfunction h q_targ)
            && reg_ok h reg); split; intros; try discriminate.
  - destruct (Hok eq_refl) as [u ->]. eauto.
  - rewrite (Herr eq_refl). reflexivity.
Qed.

(** C8: each constructor raises [TypeError] exactly when a function of
    the wrong kind or a regularizer of the wrong type is supplied, raises
    nothing else when the online function is of the right kind, and leaves
    the heap (hence every parameter) as it was, raised or not. *)
Theorem init_type_errors h f v v_targ q q_targ pi_t opt lf reg :
  (fst (Base_init f v_targ opt lf reg h) = Err TypeError ↔ reg_ok h reg = false)
  ∧ (fst (V_init v v_targ opt lf reg h) = Err TypeError
     ↔ is_vfunction h v = false
       ∨ (is_none v_targ = false ∧ is_vfunction h v_targ = false)
       ∨ reg_ok h reg = false)
  ∧ (fst (Q_init q q_targ opt lf reg h) = Err TypeError
     ↔ is_qfunction h q = false
       ∨ (is_none q_targ = false ∧ is_list_or_tuple q_targ = false
          ∧ is_qfunction h q_targ = false)
       ∨ reg_ok h reg = false)
  ∧ (fst (QWithTargetPolicy_init q pi_t q_targ opt lf reg h) = Err TypeError
     ↔ (is_none pi_t = false ∧ is_policy h pi_t = false)
       ∨ fst (Q_init q q_targ opt lf reg h) = Err TypeError)
  ∧ (∀ e, fst (V_init v v_targ opt lf reg h) = Err e → e = TypeError)
  ∧ (∀ e, fst (Q_init q q_targ opt lf reg h) = Err e → e = TypeError)
  ∧ (∀ e, fst (QWithTargetPolicy_init q pi_t q_targ opt lf reg h) = Err e →
          e = TypeError)
  ∧ snd (Base_init f v_targ opt lf reg h) = h
  ∧ snd (V_init v v_targ opt lf reg h) = h
  ∧ snd (Q_init q q_targ opt lf reg h) = h
  ∧ snd (QWithTargetPolicy_init q pi_t q_targ opt lf reg h) = h.
Proof.
  destruct (V_init_outcome v v_targ opt lf reg h) as [Vok Verr].
  destruct (Q_init_outcome q q_targ opt lf reg h) as [Qok Qerr].
  destruct (QWithTargetPolicy_init_outcome q pi_t q_targ opt lf reg h)
    as [Pok Perr].
  split; [| split; [| split; [| split]]].
  - rewrite Base_init_eq.
    destruct (reg_ok h reg); [| split; reflexivity].
    destruct (deref h f); simpl; split; discriminate.
  - destruct (is_vfunction h v), (is_none v_targ), (is_vfunction h v_targ),
      (reg_ok h reg); simpl in *;
      first [ rewrite (Verr eq_refl) | destruct (Vok eq_refl) as [u ->] ];
      simpl; split; intros; try discriminate; try reflexivity; auto;
      intuition discriminate.
  - destruct (is_qfunction h q), (is_none q_targ), (is_list_or_tuple q_targ),
      (is_qfunction h q_targ), (reg_ok h reg); simpl in *;
      first [ rewrite (Qerr eq_refl) | destruct (Qok eq_refl) as [u ->] ];
      simpl; split; intros; try discriminate; try reflexivity; auto;
      intuition discriminate.
  - destruct (is_none pi_t), (is_policy h pi_t);
      destruct (is_qfunction h q
                && (is_none q_targ || is_list_or_tuple q_targ
                    || is_qfunction h q_targ)
                && reg_ok h reg); simpl in *;
      first [ rewrite (Perr eq_refl) | destruct (Pok eq_refl) as [u ->] ];
      first [ rewrite (Qerr eq_refl) | destruct (Qok eq_refl) as [u' ->] ];
      simpl; split; intros; try discriminate; try reflexivity; auto;
      intuition discriminate.
  - repeat split.
    + intros e.
      destruct (is_vfunction h v && (is_none v_targ || is_vfunction h v_targ)
                && reg_ok h reg);
        first [ rewrite (Verr eq_refl) | destruct (Vok eq_refl) as [u ->] ];
        simpl; congruence.
    + intros e.
      destruct (is_qfunction h q
                && (is_none q_targ || is_list_or_tuple q_targ
                    || is_qfunction h q_targ)
                && reg_ok h reg);
        first [ rewrite (Qerr eq_refl) | destruct (Qok eq_refl) as [u ->] ];
        simpl; congruence.
    + intros e.
      destruct (negb (negb (is_none pi_t) && negb (is_policy h pi_t))
                && (is_qfunction h q
                    && (is_none q_targ || is_list_or_tuple q_targ
                        || is_qfunction h q_targ)
                    && reg_ok h reg));
        first [ rewrite (Perr eq_refl) | destruct (Pok eq_refl) as [u ->] ];
        simpl; congruence.
    + rewrite Base_init_eq.
      destruct (reg_ok h reg); [| reflexivity]. destruct (deref h f); reflexivity.
    + destruct (is_vfunction h v && (is_none v_targ || is_vfunction h v_targ)
                && reg_ok h reg);
        first [ rewrite (Verr eq_refl) | destruct (Vok eq_refl) as [u ->] ];
        reflexivity.
    + destruct (is_qfunction h q
                && (is_none q_targ || is_list_or_tuple q_targ
                    || is_qfunction h q_targ)
                && reg_ok h reg);
        first [ rewrite (Qerr eq_refl) | destruct (Qok eq_refl) as [u ->] ];
        reflexivity.
    + destruct (negb (negb (is_none pi_t) && negb (is_policy h pi_t))
                && (is_qfunction h q
                    && (is_none q_targ || is_list_or_tuple q_targ
                        || is_qfunction h q_targ)
                    && reg_ok h reg));
        first [ rewrite (Perr eq_refl) | destruct (Pok eq_refl) as [u ->] ];
        reflexivity.
Qed.

(** C10: with a q-function and an acceptable regularizer, the Q
    constructor accepts a list or a tuple as [q_targ], a q-function, or
    [None]; it stores the given target, and the online q-function itself
    when [q_targ] is [None]; any other [q_targ] raises [TypeError]. *)
Theorem Q_init_q_targ h q q_targ opt lf reg :
  is_qfunction h q = true →
  reg_ok h reg = true →
  (is_list_or_tuple q_targ = true →
     ∃ u, Q_init q q_targ opt lf reg h = (Ok u, h)
          ∧ _f u = q ∧ _f_targ u = q_targ)
  ∧ (is_qfunction h q_targ = true →
     ∃ u, Q_init q q_targ opt lf reg h = (Ok u, h)
          ∧ _f u = q ∧ _f_targ u = q_targ)
  ∧ (q_targ = PyNone →
     ∃ u, Q_init q q_targ opt lf reg h = (Ok u, h)
          ∧ _f u = q ∧ _f_targ u = q)
  ∧ (is_none q_targ = false → is_list_or_tuple q_targ = false →
     is_qfunction h q_targ = false →
     Q_init q q_targ opt lf reg h = (Err TypeError, h)).
Proof.
  intros Hq Hreg. rewrite Q_init_eq, Base_init_eq, Hq, Hreg.
  destruct (is_qfunction_func _ _ Hq) as [fo Hfo]. rewrite Hfo. simpl.
  repeat split.
  - intros Hl. rewrite Hl, orb_true_r. simpl. eexists. split; [reflexivity |].
    simpl. split; [reflexivity |].
    destruct q_targ; simpl in *; try discriminate; reflexivity.
  - intros Hqt. rewrite Hqt, orb_true_r. eexists. split; [reflexivity |].
    simpl. split; [reflexivity |].
    destruct q_targ; simpl in *; try discriminate; reflexivity.
  - intros ->. simpl. eexists. split; [reflexivity |]. simpl. auto.
  - intros -> -> ->. reflexivity.
Qed.

End InitFacts.

Lemma Q_init_q_targ_witness :
  is_qfunction ex_heap4 (PyRef 2%positive) = true
  ∧ reg_ok ex_heap4 PyNone = true
  ∧ (∃ u, ex_Q_init g_fin (PyRef 2%positive)
            (PyList [PyRef 2%positive; PyRef 2%positive]) None None PyNone ex_heap4
          = (Ok u, ex_heap4)
          ∧ _f u = PyRef 2%positive
          ∧ _f_targ u = PyList [PyRef 2%positive; PyRef 2%positive])
  ∧ (∃ u, ex_Q_init g_fin (PyRef 2%positive) PyNone None None PyNone ex_heap4
          = (Ok u, ex_heap4)
          ∧ _f u = PyRef 2%positive ∧ _f_targ u = PyRef 2%positive)
  ∧ ex_Q_init g_fin (PyRef 2%positive) (PyRef 1%positive) None None PyNone ex_heap4
    = (Err TypeError, ex_heap4).
Proof.
  assert (Hq : is_qfunction ex_heap4 (PyRef 2%positive) = true) by reflexivity.
  assert (Hr : reg_ok ex_heap4 PyNone = true) by reflexivity.
  pose proof (fun q_targ =>
    Q_init_q_targ ex_split mse ex_sgd "TD" ex_preprocessor ex_preprocessor
      ex_q_function_type1 ex_q_function_type1_dist unit ex_proba_dist tt
      ex_target_func ex_target_func_dist ex_batch_eval (ex_jax_grad g_fin)
      ex_diagnostics ex_heap4 (PyRef 2%positive) q_targ None None PyNone Hq Hr)
    as H.
  split; [exact Hq |]. split; [exact Hr |].
  split; [| split].
  - destruct (H (PyList [PyRef 2%positive; PyRef 2%positive])) as (Hl & _).
    exact (Hl eq_refl).
  - destruct (H PyNone) as (_ & _ & Hn & _). exact (Hn eq_refl).
  - destruct (H (PyRef 1%positive)) as (_ & _ & _ & He).
    exact (He eq_refl eq_refl eq_refl).
Defined.

(** ** The target parameter bundle *)

(** C6 (as the code has it): the bundle of each class always holds the
    keys ['reg'] and ['reg_hparams']; for an updater without a policy
    regularizer both are bound to [None]. *)
Theorem target_params_reg_entry s b :
  policy_regularizer (st_self s) = PyNone →
  fst (V_target_params s) = Ok b ∨ fst (Q_target_params s) = Ok b
  ∨ fst (QWithTargetPolicy_target_params s) = Ok b →
  b !! "reg" = Some PNone ∧ b !! "reg_hparams" = Some PNone
  ∧ "reg" ∈ dom b.
Proof.
  intros Hreg Hb.
  assert (H : b !! "reg" = Some PNone ∧ b !! "reg_hparams" = Some PNone).
  { destruct s as [h u]. simpl in Hreg.
    unfold V_target_params, Q_target_params, QWithTargetPolicy_target_params,
      bind, gets, on_heap, params_get, bind, get_func, ret, to_immutable_dict
      in Hb.
    simpl in Hb. rewrite Hreg in Hb.
    destruct (deref h (_f u)); simpl in Hb;
      try (destruct Hb as [Hb|[Hb|Hb]]; discriminate).
    destruct (deref h (_f_targ u)); simpl in Hb;
      try (destruct Hb as [Hb|[Hb|Hb]]; discriminate).
    destruct Hb as [Hb|[Hb|Hb]]; injection Hb as <-; split; reflexivity. }
  destruct H as [H1 H2]. repeat split; try assumption.
  apply elem_of_dom. rewrite H1. eauto.
Qed.

(** C6, as stated, fails: a V-learning updater constructed without a
    policy regularizer has a ['reg'] entry in its target parameter bundle
    (bound to [None]). *)
Lemma target_params_has_reg_key :
  ∃ u b,
    ex_V_init g_fin (PyRef 1%positive) PyNone None None PyNone ex_heap4
      = (Ok u, ex_heap4)
    ∧ policy_regularizer u = PyNone
    ∧ V_target_params (mk_store ex_heap4 u) = (Ok b, mk_store ex_heap4 u)
    ∧ b !! "reg" = Some PNone
    ∧ "reg" ∈ dom b.
Proof.
  eexists. eexists.
  split; [reflexivity |]. split; [reflexivity |]. split; [reflexivity |].
  split; [reflexivity |]. apply elem_of_dom. eexists. reflexivity.
Qed.

Lemma target_params_reg_entry_witness :
  policy_regularizer (st_self (ex_store g_fin)) = PyNone
  ∧ ∃ b, fst (V_target_params (ex_store g_fin)) = Ok b
         ∧ b !! "reg" = Some PNone ∧ b !! "reg_hparams" = Some PNone.
Proof.
  split; [reflexivity |]. eexists. split; [reflexivity |].
  destruct (target_params_reg_entry (ex_store g_fin) _ eq_refl
              (or_introl eq_refl)) as (H1 & H2 & _).
  split; [exact H1 | exact H2].
Defined.

(** ** Broadcasting *)

Lemma broadcast_rev_same s : broadcast_rev s s = Some s.
Proof.
  induction s as [|n s IH]; [reflexivity |].
  simpl. rewrite IH. rewrite decide_True by reflexivity. reflexivity.
Qed.

Lemma broadcast_shapes_same s : broadcast_shapes s s = Some s.
Proof.
  unfold broadcast_shapes. rewrite broadcast_rev_same, rev_involutive.
  reflexivity.
Qed.

Lemma flat_map_ext_in {X Y} (f g : X → list Y) (l : list X) :
  (∀ x, x ∈ l → f x = g x) → flat_map f l = flat_map g l.
Proof.
  induction l as [|x l IH]; intros H; [reflexivity |].
  simpl. rewrite (H x) by apply list_elem_of_here.
  rewrite IH by (intros y Hy; apply H, list_elem_of_further, Hy). reflexivity.
Qed.

Lemma flat_map_chunks_from {X} (n chunk start : nat) (xs : list X) :
  flat_map (fun i => take chunk (drop (i * chunk) xs)) (seq start n)
  = take (n * chunk) (drop (start * chunk) xs).
Proof.
  revert start. induction n as [|n IH]; intros start; [reflexivity |].
  cbn [seq flat_map]. rewrite IH.
  replace (drop (Datatypes.S start * chunk) xs)
    with (drop chunk (drop (start * chunk) xs))
    by (rewrite drop_drop; f_equal; lia).
  replace (Datatypes.S n * chunk)%nat with (chunk + n * chunk)%nat by lia.
  apply take_take_drop.
Qed.

Lemma flat_map_chunks {X} (n chunk : nat) (xs : list X) :
  length xs = (n * chunk)%nat →
  flat_map (fun i => take chunk (drop (i * chunk) xs)) (seq 0 n) = xs.
Proof.
  intros Hl. rewrite flat_map_chunks_from. simpl.
  apply take_ge. lia.
Qed.

(** Seen at its own shape, a well-formed array is itself: for operands of
    one shape the general rule is the entrywise operation. *)
Lemma broadcast_to_same s xs :
  length xs = foldr Nat.mul 1%nat s → broadcast_to s s xs = xs.
Proof.
  revert xs. induction s as [|n s IH]; intros xs Hl; [reflexivity |].
  simpl. rewrite decide_True by reflexivity.
  rewrite decide_True by reflexivity.
  transitivity
    (flat_map (fun i => take (foldr Nat.mul 1%nat s)
                          (drop (i * foldr Nat.mul 1%nat s) xs)) (seq 0 n));
    [| apply flat_map_chunks; simpl in Hl; exact Hl].
  apply flat_map_ext_in. intros i Hi. apply elem_of_seq in Hi.
  apply IH. rewrite length_take, length_drop. simpl in Hl. nia.
Qed.

(** Seen at a shape, a rank-0 array repeats its entry. *)
Lemma broadcast_to_scalar s y :
  broadcast_to s [] [y] = replicate (foldr Nat.mul 1%nat s) y.
Proof.
  induction s as [|n s IH]; [reflexivity |].
  cbn [broadcast_to foldr]. destruct (decide _) as [E|_]; [discriminate E |].
  rewrite IH. clear IH. generalize (foldr Nat.mul 1%nat s). intros c.
  generalize 0%nat. induction n as [|n IHn]; intros st; [reflexivity |].
  cbn [seq flat_map]. rewrite IHn.
  change (Datatypes.S n * c)%nat with (c + n * c)%nat.
  rewrite replicate_add. reflexivity.
Qed.

(** ** Arithmetic of the array entries *)

Lemma Qc_of_nat_pos n : n ≠ 0%nat → 0 < Qc_of_nat n.
Proof.
  intros Hn. unfold Qc_of_nat, Qc_of_Z, Qclt, Qlt. simpl. lia.
Qed.


Lemma fadd_0_r x : fadd x (Fin 0) = x.
Proof. destruct x; simpl; try reflexivity. f_equal. ring. Qed.



Lemma W_lo_lt_hi : Q2Qc (1 # 10) < Q2Qc 10.
Proof. reflexivity. Qed.

Lemma fltb_nan_l x y : fltb x y = true → isnan x = false.
Proof. destruct x, y; simpl; congruence. Qed.

Lemma fltb_nan_r x y : fltb x y = true → isnan y = false.
Proof. destruct x, y; simpl; congruence. Qed.

Lemma fclip_above x : fltb W_hi x = true → fclip W_lo W_hi x = W_hi.
Proof.
  unfold fclip, fmax, fmin, W_lo, W_hi.
  destruct x as [a| | |]; simpl; try discriminate; try reflexivity.
  intros Ha. apply bool_decide_eq_true in Ha.
  assert (Hn : ¬ a < Q2Qc (1 # 10)).
  { apply Qcle_not_lt, Qclt_le_weak.
    eapply Qclt_trans; [exact W_lo_lt_hi | exact Ha]. }
  rewrite (bool_decide_eq_false_2 _ Hn). simpl.
  rewrite (bool_decide_eq_true_2 _ Ha). reflexivity.
Qed.

Lemma fclip_below x : fltb x W_lo = true → fclip W_lo W_hi x = W_lo.
Proof.
  unfold fclip, fmax, fmin, W_lo, W_hi.
  destruct x as [a| | |]; simpl; try discriminate; try reflexivity.
  intros Ha. rewrite Ha. reflexivity.
Qed.

Lemma fclip_same_side x y :
  same_side x y → fclip W_lo W_hi x = fclip W_lo W_hi y.
Proof.
  intros [-> | [[Hx Hy] | [Hx Hy]]]; [reflexivity | |].
  - rewrite !fclip_above by assumption. reflexivity.
  - rewrite !fclip_below by assumption. reflexivity.
Qed.

(** A clipped weight that is a number lies in [[0.1, 10]]. *)
Lemma fclip_range x :
  isnan x = false →
  fltb (fclip W_lo W_hi x) W_lo = false ∧ fltb W_hi (fclip W_lo W_hi x) = false.
Proof.
  unfold fclip, fmax, fmin, W_lo, W_hi.
  destruct x as [a| | |]; simpl; try discriminate; intros _;
    try (split; reflexivity).
  destruct (bool_decide (a < Q2Qc (1 # 10))) eqn:Hlo; simpl.
  - split; reflexivity.
  - destruct (bool_decide (Q2Qc 10 < a)) eqn:Hhi; simpl.
    + split; reflexivity.
    + rewrite Hlo, Hhi. split; reflexivity.
Qed.

Lemma jnp_clip_same_side w1 w2 :
  shape w1 = shape w2 →
  Forall2 same_side (data w1) (data w2) →
  jnp_clip w1 W_lo W_hi = jnp_clip w2 W_lo W_hi.
Proof.
  intros Hs Hd. unfold jnp_clip, arr_map. rewrite Hs. f_equal.
  induction Hd as [| x y xs ys Hxy _ IH]; [reflexivity |].
  simpl. rewrite (fclip_same_side x y Hxy), IH. reflexivity.
Qed.

(** ** The mean-squared-error loss and its gradient *)

Lemma half_plus_half : Q2Qc (1 # 2) + Q2Qc (1 # 2) = 1.
Proof. apply Qc_is_canon. reflexivity. Qed.

Lemma half_sq_shift g v h :
  half_sq g (v + h) = half_sq g v + h * (v - g) + Q2Qc (1 # 2) * (h * h).
Proof.
  unfold half_sq.
  rewrite <- (Qcmult_1_l (h * (v - g))), <- half_plus_half. ring.
Qed.

Lemma sum_half_sq_insert gs vs i g v h :
  gs !! i = Some g → vs !! i = Some v →
  sum_half_sq gs (<[i := v + h]> vs)
  = sum_half_sq gs vs + h * (v - g) + Q2Qc (1 # 2) * (h * h).
Proof.
  revert gs vs. induction i as [|i IH]; intros [|g' gs] [|v' vs] Hg Hv;
    simpl in *; try discriminate.
  - injection Hg as ->. injection Hv as ->. rewrite half_sq_shift. ring.
  - rewrite (IH gs vs Hg Hv). ring.
Qed.

(** The modelled gradient is the derivative of the modelled loss: moving
    one prediction by [h] moves the loss by [h] times the gradient entry,
    up to the second-order term [h^2 / (2 n)]. *)
Lemma mse_q_difference gs vs i g v h :
  gs !! i = Some g → vs !! i = Some v →
  mse_q gs (<[i := v + h]> vs)
  = mse_q gs vs + h * ((v - g) / Qc_of_nat (length vs))
    + (Q2Qc (1 # 2) * (h * h)) / Qc_of_nat (length vs).
Proof.
  intros Hg Hv. unfold mse_q. rewrite length_insert.
  rewrite (sum_half_sq_insert gs vs i g v h Hg Hv).
  assert (Hn : Qc_of_nat (length vs) ≠ 0).
  { assert (Hl : length vs ≠ 0%nat).
    { apply lookup_lt_Some in Hv. lia. }
    pose proof (Qc_of_nat_pos _ Hl) as Hp. intros E. rewrite E in Hp.
    inversion Hp. }
  field. exact Hn.
Qed.

Lemma zip_fsub_fin vs gs :
  zip_with_fp fsub (map Fin vs) (map Fin gs)
  = map Fin (zip_with Qcminus vs gs).
Proof.
  revert gs. induction vs as [|v vs IH]; intros [|g gs]; simpl; try reflexivity.
  rewrite IH. reflexivity.
Qed.

Lemma fsum_half_sq vs gs :
  length gs = length vs →
  fsum (map (fun e => fmul half (fmul e e)) (map Fin (zip_with Qcminus vs gs)))
  = Fin (sum_half_sq gs vs).
Proof.
  revert gs. induction vs as [|v vs IH]; intros [|g gs] Hl; simpl in *;
    try discriminate; try reflexivity.
  unfold fsum in IH. rewrite IH by congruence. reflexivity.
Qed.

Lemma mse_eval_fin gs vs :
  length gs = length vs → length vs ≠ 0%nat →
  mse_eval (fin_arr1 gs) (fin_arr1 vs) None = Ok (scalar (Fin (mse_q gs vs))).
Proof.
  intros Hl Hn. unfold mse_eval, fin_arr1, arr1, arr_binop. simpl.
  rewrite !length_map, Hl. rewrite decide_True by reflexivity. simpl.
  unfold jnp_mean, arr_map, arr_size. simpl.
  rewrite zip_fsub_fin, fsum_half_sq by exact Hl.
  rewrite Nat.mul_1_r. simpl.
  pose proof (Qc_of_nat_pos _ Hn) as Hp.
  destruct (decide (Qc_of_nat (length vs) = 0)) as [E|_];
    [rewrite E in Hp; inversion Hp |].
  reflexivity.
Qed.

Lemma map_fdiv_fin n vs gs :
  n ≠ 0 →
  map (fun e => fdiv e (Fin n)) (zip_with_fp fsub (map Fin vs) (map Fin gs))
  = map Fin (mse_grad_q n gs vs).
Proof.
  intros Hn. revert gs.
  induction vs as [|v vs IH]; intros [|g gs]; simpl; try reflexivity.
  rewrite decide_False by exact Hn. rewrite IH. reflexivity.
Qed.

Lemma length_mse_grad_q n gs vs :
  length gs = length vs → length (mse_grad_q n gs vs) = length vs.
Proof.
  revert gs. induction vs as [|v vs IH]; intros [|g gs] Hl; simpl in *;
    try discriminate; try reflexivity.
  rewrite IH by congruence. reflexivity.
Qed.

Lemma mse_grad_fin gs vs :
  length gs = length vs → length vs ≠ 0%nat →
  mse_grad_pred (fin_arr1 gs) (fin_arr1 vs) None
  = Ok (fin_arr1 (mse_grad_q (Qc_of_nat (length vs)) gs vs)).
Proof.
  intros Hl Hn. unfold mse_grad_pred, fin_arr1, arr1, arr_binop. simpl.
  rewrite !length_map, Hl. rewrite !decide_True by reflexivity. simpl.
  unfold arr_map, arr_size. simpl. rewrite Nat.mul_1_r.
  pose proof (Qc_of_nat_pos _ Hn) as Hp.
  assert (Hne : Qc_of_nat (length vs) ≠ 0)
    by (intros E; rewrite E in Hp; inversion Hp).
  rewrite (map_fdiv_fin _ vs gs Hne), (length_mse_grad_q _ gs vs Hl).
  reflexivity.
Qed.

(** ** The loss computation *)

Lemma rbind_ok_inv {A B} (m : result A) (k : A → result B) b :
  rbind m k = Ok b → ∃ a, m = Ok a ∧ k a = Ok b.
Proof. destruct m; simpl; [eauto | discriminate]. Qed.

Lemma asserts_ok_iff o W :
  (assert_equal_shape [bo_G o; bo_pred o; bo_targ o; W] = Ok tt
   ∧ assert_rank [bo_G o; bo_pred o; bo_targ o; W] 1 = Ok tt)
  ↔ same_shape_rank1 o W.
Proof.
  unfold assert_equal_shape, assert_rank, same_shape_rank1, rank. simpl.
  split.
  - intros [H1 H2].
    repeat case_bool_decide; simpl in *; try discriminate.
    destruct (shape (bo_G o)) as [|n [|]] eqn:E; simpl in *; try discriminate.
    exists n. repeat split; congruence.
  - intros (n & HG & HV & HT & HW). rewrite HG, HV, HT, HW. simpl.
    rewrite !bool_decide_eq_true_2 by reflexivity. simpl. split; reflexivity.
Qed.



Lemma tail_ok_inv cn lf W o loss td st m :
  td_error_and_metrics cn lf W o = Ok (loss, (td, st, m)) →
  same_shape_rank1 o W
  ∧ ∃ n d, shape (bo_pred o) = [n]
           ∧ loss_grad_pred lf (bo_G o) (bo_pred o) None = Ok d
           ∧ td = arr_scale (Fin (- Qc_of_nat n)) d
           ∧ shape td = shape W
           ∧ loss = bo_loss o ∧ st = bo_state_new o.
Proof.
  unfold td_error_and_metrics. intros H.
  apply rbind_ok_inv in H as ([] & E1 & H).
  apply rbind_ok_inv in H as ([] & E2 & H).
  apply rbind_ok_inv in H as (n & E3 & H).
  apply rbind_ok_inv in H as (d & E4 & H).
  apply rbind_ok_inv in H as ([] & E5 & H).
  apply rbind_ok_inv in H as (wtd & E6 & H).
  apply rbind_ok_inv in H as (dt & E7 & H).
  injection H as <- <- <- <-.
  assert (Hs : same_shape_rank1 o W) by (apply asserts_ok_iff; auto).
  split; [exact Hs |].
  destruct Hs as (k & HG & HV & HT & HW).
  unfold shape0 in E3. rewrite HV in E3. injection E3 as <-.
  exists k, d. repeat split; try assumption; try reflexivity.
  unfold assert_equal_shape in E5. simpl in E5.
  case_bool_decide; [auto | discriminate].
Qed.




Lemma getitem_ok_inv (d : bundle) k t : getitem d k = Ok t → d !! k = Some t.
Proof. unfold getitem. destruct (d !! k); congruence. Qed.

Lemma arr_add_zero G : arr_binop fadd G (scalar (Fin 0)) = Ok G.
Proof.
  unfold arr_binop, scalar, arr_map. simpl. f_equal.
  destruct G as [sh d]. simpl. f_equal.
  induction d as [|x d IH]; [reflexivity |].
  simpl. rewrite fadd_0_r, IH. reflexivity.
Qed.



Lemma string_app_inv (s a b : string) : s +:+ a = s +:+ b → a = b.
Proof.
  induction s as [|c s IH]; simpl; [auto |].
  intros H. injection H as H. auto.
Qed.

Lemma tail_metrics cn lf W o loss td st m :
  td_error_and_metrics cn lf W o = Ok (loss, (td, st, m)) →
  ∃ wtd dt,
    arr_binop fmul W td = Ok wtd
    ∧ loss_grad_pred lf (bo_pred o) (bo_targ o) (Some W) = Ok dt
    ∧ m = <[ loss_key cn := loss ]>
          (<[ td_error_key cn := jnp_mean wtd ]>
          (<[ td_error_targ_key cn := jnp_mean (arr_neg dt) ]> ∅)).
Proof.
  unfold td_error_and_metrics. intros H.
  apply rbind_ok_inv in H as ([] & E1 & H).
  apply rbind_ok_inv in H as ([] & E2 & H).
  apply rbind_ok_inv in H as (n & E3 & H).
  apply rbind_ok_inv in H as (d & E4 & H).
  apply rbind_ok_inv in H as ([] & E5 & H).
  apply rbind_ok_inv in H as (wtd & E6 & H).
  apply rbind_ok_inv in H as (dt & E7 & H).
  injection H as <- <- <- <-.
  exists wtd, dt. repeat split; assumption.
Qed.

Lemma fclip_clamp x : fclip W_lo W_hi x = clamp_weight x.
Proof.
  unfold fclip, fmax, fmin, clamp_weight, W_lo, W_hi.
  destruct x as [a| | |]; simpl; try reflexivity.
  destruct (bool_decide (a < Q2Qc (1 # 10))) eqn:Hlo; simpl; [reflexivity |].
  destruct (bool_decide (Q2Qc 10 < a)); reflexivity.
Qed.

Lemma jnp_clip_clamp w : jnp_clip w W_lo W_hi = arr_map clamp_weight w.
Proof.
  unfold jnp_clip, arr_map. f_equal.
  apply map_ext. intros x. apply fclip_clamp.
Qed.

Lemma loss_metrics_weights (fwd : result branch_out) cn lf W' loss td st m :
  rbind fwd (td_error_and_metrics cn lf W') = Ok (loss, (td, st, m)) →
  shape td = shape W'
  ∧ ∃ wtd, arr_binop fmul W' td = Ok wtd
           ∧ m !! td_error_key cn = Some (jnp_mean wtd).
Proof.
  intros H. apply rbind_ok_inv in H as (o & _ & Ht).
  pose proof Ht as Ht'.
  apply tail_ok_inv in Ht as (_ & n & d & _ & _ & _ & Hs & _).
  apply tail_metrics in Ht' as (wtd & dt & Hw & _ & ->).
  split; [exact Hs |]. exists wtd. split; [exact Hw |].
  rewrite lookup_insert_ne
    by (intros E; pose proof (string_app_inv _ _ _ E); discriminate).
  apply lookup_insert_eq.
Qed.

Section ForwardFacts.

Variable random_split : key → key * key.
Variable observation_preprocessor : key → pytree → pytree.
Variable action_preprocessor : key → pytree → pytree.
Variable v_function : pytree → pytree → key → pytree → bool → ndarray * pytree.
Variable v_function_dist : pytree → pytree → key → pytree → bool → pytree * pytree.
Variable q_function_type1 :
  pytree → pytree → key → pytree → pytree → bool → ndarray * pytree.
Variable q_function_type1_dist :
  pytree → pytree → key → pytree → pytree → bool → pytree * pytree.
Variable VT : Type.
Variable proba_dist : ProbaDist VT.
Variable value_transform : VT.
Variable target_func : bundle → bundle → key → TransitionBatch → ndarray.
Variable target_func_dist : bundle → bundle → key → TransitionBatch → pytree.
Variable batch_eval : pytree → pytree → pytree → key → TransitionBatch → ndarray.

Local Abbreviation V_fwd :=
  (V_forward random_split observation_preprocessor v_function v_function_dist
     VT proba_dist value_transform target_func target_func_dist batch_eval).
Local Abbreviation Q_fwd :=
  (Q_forward random_split observation_preprocessor action_preprocessor
     q_function_type1 q_function_type1_dist VT proba_dist value_transform
     target_func target_func_dist batch_eval).
Local Abbreviation reg_term := (regularization_term random_split batch_eval).







End ForwardFacts.

Section LossFacts.

Variable random_split : key → key * key.
Variable class_name : string.
Variable observation_preprocessor : key → pytree → pytree.
Variable action_preprocessor : key → pytree → pytree.
Variable v_function : pytree → pytree → key → pytree → bool → ndarray * pytree.
Variable v_function_dist : pytree → pytree → key → pytree → bool → pytree * pytree.
Variable q_function_type1 :
  pytree → pytree → key → pytree → pytree → bool → ndarray * pytree.
Variable q_function_type1_dist :
  pytree → pytree → key → pytree → pytree → bool → pytree * pytree.
Variable VT : Type.
Variable proba_dist : ProbaDist VT.
Variable value_transform : VT.
Variable target_func : bundle → bundle → key → TransitionBatch → ndarray.
Variable target_func_dist : bundle → bundle → key → TransitionBatch → pytree.
Variable batch_eval : pytree → pytree → pytree → key → TransitionBatch → ndarray.
Variable jax_grad : (pytree → result ndarray) → pytree → pytree.
Variable get_grads_diagnostics : pytree → string → metrics_dict.

Local Abbreviation V_fwd :=
  (V_forward random_split observation_preprocessor v_function v_function_dist
     VT proba_dist value_transform target_func target_func_dist batch_eval).
Local Abbreviation V_loss :=
  (V_loss_func random_split class_name observation_preprocessor v_function
     v_function_dist VT proba_dist value_transform target_func target_func_dist
     batch_eval).
Local Abbreviation V_gm :=
  (V_grads_and_metrics_func random_split class_name observation_preprocessor
     v_function v_function_dist VT proba_dist value_transform target_func
     target_func_dist batch_eval jax_grad get_grads_diagnostics).
Local Abbreviation V_td :=
  (V_td_error_func random_split class_name observation_preprocessor v_function
     v_function_dist VT proba_dist value_transform target_func target_func_dist
     batch_eval).
Local Abbreviation Q_fwd :=
  (Q_forward random_split observation_preprocessor action_preprocessor
     q_function_type1 q_function_type1_dist VT proba_dist value_transform
     target_func target_func_dist batch_eval).
Local Abbreviation Q_loss :=
  (Q_loss_func random_split class_name observation_preprocessor
     action_preprocessor q_function_type1 q_function_type1_dist VT proba_dist
     value_transform target_func target_func_dist batch_eval).
Local Abbreviation Q_gm :=
  (Q_grads_and_metrics_func random_split class_name observation_preprocessor
     action_preprocessor q_function_type1 q_function_type1_dist VT proba_dist
     value_transform target_func target_func_dist batch_eval jax_grad
     get_grads_diagnostics).
Local Abbreviation Q_td :=
  (Q_td_error_func random_split class_name observation_preprocessor
     action_preprocessor q_function_type1 q_function_type1_dist VT proba_dist
     value_transform target_func target_func_dist batch_eval).
Local Abbreviation key_at := (nth_key random_split).
Local Abbreviation clipW b := (jnp_clip (W b) W_lo W_hi).
Local Abbreviation reg_term := (regularization_term random_split batch_eval).
Local Abbreviation key_of := (rng_key random_split).
Local Abbreviation rest_of := (rng_rest random_split).

(** What [loss_func] returns, read off its two parts. *)
Lemma loss_of_parts (fwd : result branch_out) lf W' loss td st m :
  rbind fwd (td_error_and_metrics class_name lf W') = Ok (loss, (td, st, m)) →
  ∃ o n d,
    fwd = Ok o
    ∧ same_shape_rank1 o W'
    ∧ shape (bo_pred o) = [n]
    ∧ loss_grad_pred lf (bo_G o) (bo_pred o) None = Ok d
    ∧ td = arr_scale (Fin (- Qc_of_nat n)) d
    ∧ shape td = shape W'
    ∧ loss = bo_loss o ∧ st = bo_state_new o.
Proof.
  intros H. apply rbind_ok_inv in H as (o & Hf & Ht).
  apply tail_ok_inv in Ht as (Hs & n & d & H1 & H2 & H3 & H4 & H5 & H6).
  exists o, n, d. repeat split; assumption.
Qed.


(** With a scalar head the loss of the branch is the loss function at the
    target, the prediction and the clipped weights. *)
Lemma V_scalar_forward_loss rn lf p tp s ts k b o :
  V_fwd false rn lf p tp s ts k b = Ok o →
  loss_eval lf (bo_G o) (bo_pred o) (Some (clipW b)) = Ok (bo_loss o).
Proof.
  unfold V_forward. intros H.
  apply rbind_ok_inv in H as (rr & _ & H). unfold V_scalar_branch in H.
  apply rbind_ok_inv in H as (G & _ & H).
  apply rbind_ok_inv in H as (l & Hl & H).
  apply rbind_ok_inv in H as (pt & _ & H).
  apply rbind_ok_inv in H as (st & _ & H).
  injection H as <-. exact Hl.
Qed.

Lemma Q_scalar_forward_loss rn lf p tp s ts k b o :
  Q_fwd false rn lf p tp s ts k b = Ok o →
  loss_eval lf (bo_G o) (bo_pred o) (Some (clipW b)) = Ok (bo_loss o).
Proof.
  unfold Q_forward. intros H.
  apply rbind_ok_inv in H as (rr & _ & H). unfold Q_scalar_branch in H.
  apply rbind_ok_inv in H as (G & _ & H).
  apply rbind_ok_inv in H as (l & Hl & H).
  apply rbind_ok_inv in H as (pt & _ & H).
  apply rbind_ok_inv in H as (st & _ & H).
  injection H as <-. exact Hl.
Qed.





Section ClippedWeights.

Hypothesis target_func_ignores_W : ∀ tp ts k, ignores_W (target_func tp ts k).
Hypothesis target_func_dist_ignores_W :
  ∀ tp ts k, ignores_W (target_func_dist tp ts k).
Hypothesis batch_eval_ignores_W : ∀ r hp rs k, ignores_W (batch_eval r hp rs k).

Lemma regularization_term_with_W rn tp ts k b w :
  regularization_term random_split batch_eval rn tp ts k (with_W b w)
  = regularization_term random_split batch_eval rn tp ts k b.
Proof.
  unfold regularization_term. destruct rn; [reflexivity |].
  destruct (getitem tp "reg"); simpl; [| reflexivity].
  destruct (getitem tp "reg_hparams"); simpl; [| reflexivity].
  destruct (getitem ts "reg"); simpl; [| reflexivity].
  rewrite batch_eval_ignores_W. reflexivity.
Qed.

Lemma V_forward_with_W stoch rn lf p tp s ts k b w :
  jnp_clip w W_lo W_hi = clipW b →
  V_fwd stoch rn lf p tp s ts k (with_W b w) = V_fwd stoch rn lf p tp s ts k b.
Proof.
  intros Hw. unfold V_forward. cbn [S W with_W].
  rewrite Hw, regularization_term_with_W.
  destruct (regularization_term random_split batch_eval rn tp ts _ b) as [rr|e];
    simpl; [| reflexivity].
  destruct stoch.
  - unfold V_dist_branch. rewrite target_func_dist_ignores_W. reflexivity.
  - unfold V_scalar_branch. rewrite target_func_ignores_W. reflexivity.
Qed.

Lemma Q_forward_with_W stoch rn lf p tp s ts k b w :
  jnp_clip w W_lo W_hi = clipW b →
  Q_fwd stoch rn lf p tp s ts k (with_W b w) = Q_fwd stoch rn lf p tp s ts k b.
Proof.
  intros Hw. unfold Q_forward. cbn [S A W with_W].
  rewrite Hw, regularization_term_with_W.
  destruct (regularization_term random_split batch_eval rn tp ts _ b) as [rr|e];
    simpl; [| reflexivity].
  destruct stoch.
  - unfold Q_dist_branch. rewrite target_func_dist_ignores_W. reflexivity.
  - unfold Q_scalar_branch. rewrite target_func_ignores_W. reflexivity.
Qed.

Lemma clipped_weights_loss_eq stoch rn lf tp s ts b1 b2 :
  differ_in_clipped_W b1 b2 →
  (∀ p k, V_loss stoch rn lf p tp s ts k b1 = V_loss stoch rn lf p tp s ts k b2)
  ∧ (∀ p k, Q_loss stoch rn lf p tp s ts k b1 = Q_loss stoch rn lf p tp s ts k b2).
Proof.
  intros (Hb & Hs & Hd).
  assert (Hc : clipW b1 = clipW b2) by (apply jnp_clip_same_side; assumption).
  split; intros p k.
  - transitivity (V_loss stoch rn lf p tp s ts k (with_W b1 (W b2)));
      [| rewrite <- Hb; reflexivity].
    unfold V_loss_func.
    rewrite V_forward_with_W by (symmetry; exact Hc).
    cbn [W with_W]. rewrite Hc. reflexivity.
  - transitivity (Q_loss stoch rn lf p tp s ts k (with_W b1 (W b2)));
      [| rewrite <- Hb; reflexivity].
    unfold Q_loss_func.
    rewrite Q_forward_with_W by (symmetry; exact Hc).
    cbn [W with_W]. rewrite Hc. reflexivity.
Qed.

End ClippedWeights.

(** C4: the weights enter the loss computation clamped to [[0.1, 10]]:
    what [loss_func] works with is the weight array with every entry below
    0.1 replaced by 0.1, every entry above 10 by 10 and every other entry
    kept.  This array is what the loss function of the scalar head receives,
    what the assertions compare and what the TD-error metric is weighted by,
    and any weights that clamp to it give the same result.  So two batches
    that differ only in weights beyond the same bound have the same clamped
    weights and, with a target function and a regularizer that do not read
    the raw weights, the same loss, TD error, metrics and gradients. *)
Theorem clipped_weights_same_loss stoch rn lf p tp s ts k b1 b2 :
  let Wc := arr_map clamp_weight (W b1) in
  clipW b1 = Wc
  ∧ (∀ x, x ∈ data (W b1) → isnan x = false →
          fltb (fclip W_lo W_hi x) W_lo = false
          ∧ fltb W_hi (fclip W_lo W_hi x) = false)
  ∧ (∀ o, V_fwd false rn lf p tp s ts k b1 = Ok o →
          loss_eval lf (bo_G o) (bo_pred o) (Some Wc) = Ok (bo_loss o))
  ∧ (∀ o, Q_fwd false rn lf p tp s ts k b1 = Ok o →
          loss_eval lf (bo_G o) (bo_pred o) (Some Wc) = Ok (bo_loss o))
  ∧ (∀ loss td st m,
       V_loss stoch rn lf p tp s ts k b1 = Ok (loss, (td, st, m)) →
       shape td = shape Wc
       ∧ ∃ wtd, arr_binop fmul Wc td = Ok wtd
                ∧ m !! td_error_key class_name = Some (jnp_mean wtd))
  ∧ (∀ loss td st m,
       Q_loss stoch rn lf p tp s ts k b1 = Ok (loss, (td, st, m)) →
       shape td = shape Wc
       ∧ ∃ wtd, arr_binop fmul Wc td = Ok wtd
                ∧ m !! td_error_key class_name = Some (jnp_mean wtd))
  ∧ ((∀ tp ts k, ignores_W (target_func tp ts k)) →
     (∀ tp ts k, ignores_W (target_func_dist tp ts k)) →
     (∀ r hp rs k, ignores_W (batch_eval r hp rs k)) →
     ∀ w, arr_map clamp_weight w = Wc →
          V_loss stoch rn lf p tp s ts k (with_W b1 w)
          = V_loss stoch rn lf p tp s ts k b1
          ∧ Q_loss stoch rn lf p tp s ts k (with_W b1 w)
            = Q_loss stoch rn lf p tp s ts k b1)
  ∧ (differ_in_clipped_W b1 b2 →
     clipW b1 = clipW b2
     ∧ ((∀ tp ts k, ignores_W (target_func tp ts k)) →
        (∀ tp ts k, ignores_W (target_func_dist tp ts k)) →
        (∀ r hp rs k, ignores_W (batch_eval r hp rs k)) →
        V_loss stoch rn lf p tp s ts k b1 = V_loss stoch rn lf p tp s ts k b2
        ∧ V_gm stoch rn lf p tp s ts k b1 = V_gm stoch rn lf p tp s ts k b2
        ∧ Q_loss stoch rn lf p tp s ts k b1 = Q_loss stoch rn lf p tp s ts k b2
        ∧ Q_gm stoch rn lf p tp s ts k b1 = Q_gm stoch rn lf p tp s ts k b2)).
Proof.
  intros Wc.
  assert (Hc : clipW b1 = Wc) by apply jnp_clip_clamp.
  split; [exact Hc |].
  split; [intros x _ Hx; apply fclip_range, Hx |].
  split; [intros o Ho; rewrite <- Hc; eapply V_scalar_forward_loss, Ho |].
  split; [intros o Ho; rewrite <- Hc; eapply Q_scalar_forward_loss, Ho |].
  split.
  { intros loss td st m H. rewrite <- Hc. unfold V_loss_func in H.
    eapply loss_metrics_weights, H. }
  split.
  { intros loss td st m H. rewrite <- Hc. unfold Q_loss_func in H.
    eapply loss_metrics_weights, H. }
  split.
  { intros H1 H2 H3 w Hw.
    assert (Hw' : jnp_clip w W_lo W_hi = clipW b1)
      by (rewrite jnp_clip_clamp, Hw, Hc; reflexivity).
    split.
    - unfold V_loss_func. rewrite (V_forward_with_W H1 H2 H3) by exact Hw'.
      cbn [W with_W]. rewrite Hw'. reflexivity.
    - unfold Q_loss_func. rewrite (Q_forward_with_W H1 H2 H3) by exact Hw'.
      cbn [W with_W]. rewrite Hw'. reflexivity. }
  intros Hdiff.
  split; [destruct Hdiff as (_ & Hs & Hd); apply jnp_clip_same_side; assumption |].
  intros H1 H2 H3.
  destruct (clipped_weights_loss_eq H1 H2 H3 stoch rn lf tp s ts b1 b2 Hdiff)
    as [HV HQ].
  split; [apply HV |]. split; [| split; [apply HQ |]].
  - unfold V_grads_and_metrics_func.
    replace (fun p0 => V_loss stoch rn lf p0 tp s ts (rng_key random_split k) b1)
      with (fun p0 => V_loss stoch rn lf p0 tp s ts (rng_key random_split k) b2)
      by (apply functional_extensionality; intros p0; symmetry; apply HV).
    reflexivity.
  - unfold Q_grads_and_metrics_func.
    replace (fun p0 => Q_loss stoch rn lf p0 tp s ts (rng_key random_split k) b1)
      with (fun p0 => Q_loss stoch rn lf p0 tp s ts (rng_key random_split k) b2)
      by (apply functional_extensionality; intros p0; symmetry; apply HQ).
    reflexivity.
Qed.

Lemma regularization_term_configured tp ts k b rr :
  regularization_term random_split batch_eval false tp ts k b = Ok rr →
  ∃ reg hp rs,
    tp !! "reg" = Some reg ∧ tp !! "reg_hparams" = Some hp
    ∧ ts !! "reg" = Some rs
    ∧ rr = (arr_neg (batch_eval reg hp rs (rng_key random_split k) b),
            rng_rest random_split k).
Proof.
  unfold regularization_term. intros H.
  apply rbind_ok_inv in H as (reg & H1 & H).
  apply rbind_ok_inv in H as (hp & H2 & H).
  apply rbind_ok_inv in H as (rs & H3 & H).
  injection H as <-.
  exists reg, hp, rs. auto using getitem_ok_inv.
Qed.

(** C5: a configured regularizer is evaluated on the ['reg'] entries of
    the target bundle and negated; with a scalar head the negated value is
    added to the output of [target_func] before the loss function is
    applied, with a distributional head it is the shift of an affine
    transform of scale 1 of the target distribution before the
    cross-entropy; without a regularizer the target is the output of
    [target_func] as it is. *)
Theorem regularizer_enters_target lf p tp s ts k b :
  let S' := observation_preprocessor (key_at 0 k) (S b) in
  let A' := action_preprocessor (key_at 1 k) (A b) in
  (∀ o, V_fwd false false lf p tp s ts k b = Ok o →
     ∃ reg hp rs,
       tp !! "reg" = Some reg ∧ tp !! "reg_hparams" = Some hp
       ∧ ts !! "reg" = Some rs
       ∧ arr_binop fadd (target_func tp ts (key_at 3 k) b)
           (arr_neg (batch_eval reg hp rs (key_at 1 k) b)) = Ok (bo_G o)
       ∧ loss_eval lf (bo_G o) (bo_pred o) (Some (clipW b)) = Ok (bo_loss o))
  ∧ (∀ o, V_fwd true false lf p tp s ts k b = Ok o →
     ∃ reg hp rs,
       tp !! "reg" = Some reg ∧ tp !! "reg_hparams" = Some hp
       ∧ ts !! "reg" = Some rs
       ∧ let target :=
           affine_transform proba_dist (target_func_dist tp ts k b)
             (scalar (Fin 1)) (arr_neg (batch_eval reg hp rs (key_at 1 k) b))
             value_transform in
         bo_loss o
         = jnp_mean (cross_entropy proba_dist target
                       (fst (v_function_dist p s (key_at 2 k) S' true)))
         ∧ bo_G o
           = postprocess_variate proba_dist (key_at 4 k)
               (mean proba_dist target) true)
  ∧ (∀ o, V_fwd false true lf p tp s ts k b = Ok o →
       bo_G o = target_func tp ts (key_at 2 k) b
       ∧ loss_eval lf (bo_G o) (bo_pred o) (Some (clipW b)) = Ok (bo_loss o))
  ∧ (∀ o, V_fwd true true lf p tp s ts k b = Ok o →
       bo_loss o
       = jnp_mean (cross_entropy proba_dist (target_func_dist tp ts k b)
                     (fst (v_function_dist p s (key_at 1 k) S' true)))
       ∧ bo_G o
         = postprocess_variate proba_dist (key_at 3 k)
             (mean proba_dist (target_func_dist tp ts k b)) true)
  ∧ (∀ o, Q_fwd false false lf p tp s ts k b = Ok o →
     ∃ reg hp rs,
       tp !! "reg" = Some reg ∧ tp !! "reg_hparams" = Some hp
       ∧ ts !! "reg" = Some rs
       ∧ arr_binop fadd (target_func tp ts (key_at 4 k) b)
           (arr_neg (batch_eval reg hp rs (key_at 2 k) b)) = Ok (bo_G o)
       ∧ loss_eval lf (bo_G o) (bo_pred o) (Some (clipW b)) = Ok (bo_loss o))
  ∧ (∀ o, Q_fwd true false lf p tp s ts k b = Ok o →
     ∃ reg hp rs,
       tp !! "reg" = Some reg ∧ tp !! "reg_hparams" = Some hp
       ∧ ts !! "reg" = Some rs
       ∧ let target :=
           affine_transform proba_dist (target_func_dist tp ts k b)
             (scalar (Fin 1)) (arr_neg (batch_eval reg hp rs (key_at 2 k) b))
             value_transform in
         bo_loss o
         = jnp_mean (cross_entropy proba_dist target
                       (fst (q_function_type1_dist p s (key_at 3 k) S' A' true)))
         ∧ bo_G o
           = postprocess_variate proba_dist (key_at 5 k)
               (mean proba_dist target) true)
  ∧ (∀ o, Q_fwd false true lf p tp s ts k b = Ok o →
       bo_G o = target_func tp ts (key_at 3 k) b
       ∧ loss_eval lf (bo_G o) (bo_pred o) (Some (clipW b)) = Ok (bo_loss o))
  ∧ (∀ o, Q_fwd true true lf p tp s ts k b = Ok o →
       bo_loss o
       = jnp_mean (cross_entropy proba_dist (target_func_dist tp ts k b)
                     (fst (q_function_type1_dist p s (key_at 2 k) S' A' true)))
       ∧ bo_G o
         = postprocess_variate proba_dist (key_at 4 k)
             (mean proba_dist (target_func_dist tp ts k b)) true).
Proof.
  intros S' A'.
  split; [| split; [| split; [| split; [| split; [| split; [| split]]]]]];
    intros o H.
  - unfold V_forward in H.
    apply rbind_ok_inv in H as (rr & Hr & H).
    apply regularization_term_configured in Hr
      as (reg & hp & rs & H1 & H2 & H3 & ->).
    unfold V_scalar_branch in H. cbn [fst snd] in H.
    apply rbind_ok_inv in H as (G & HG & H).
    apply rbind_ok_inv in H as (loss & Hl & H).
    apply rbind_ok_inv in H as (pt & _ & H).
    apply rbind_ok_inv in H as (st & _ & H).
    injection H as <-. exists reg, hp, rs. cbn [bo_G bo_pred bo_loss].
    repeat split; assumption.
  - unfold V_forward in H.
    apply rbind_ok_inv in H as (rr & Hr & H).
    apply regularization_term_configured in Hr
      as (reg & hp & rs & H1 & H2 & H3 & ->).
    unfold V_dist_branch in H. cbn [fst snd negb] in H.
    apply rbind_ok_inv in H as (pt & _ & H).
    apply rbind_ok_inv in H as (st & _ & H).
    injection H as <-. exists reg, hp, rs. cbn [bo_G bo_loss].
    repeat split; assumption || reflexivity.
  - unfold V_forward, regularization_term in H. cbn [rbind fst snd] in H.
    unfold V_scalar_branch in H. rewrite arr_add_zero in H. cbn [rbind] in H.
    apply rbind_ok_inv in H as (loss & Hl & H).
    apply rbind_ok_inv in H as (pt & _ & H).
    apply rbind_ok_inv in H as (st & _ & H).
    injection H as <-. cbn [bo_G bo_pred bo_loss]. split; [reflexivity | exact Hl].
  - unfold V_forward, regularization_term in H. cbn [rbind fst snd] in H.
    unfold V_dist_branch in H. cbn [negb] in H.
    apply rbind_ok_inv in H as (pt & _ & H).
    apply rbind_ok_inv in H as (st & _ & H).
    injection H as <-. cbn [bo_G bo_loss]. split; reflexivity.
  - unfold Q_forward in H.
    apply rbind_ok_inv in H as (rr & Hr & H).
    apply regularization_term_configured in Hr
      as (reg & hp & rs & H1 & H2 & H3 & ->).
    unfold Q_scalar_branch in H. cbn [fst snd] in H.
    apply rbind_ok_inv in H as (G & HG & H).
    apply rbind_ok_inv in H as (loss & Hl & H).
    apply rbind_ok_inv in H as (pt & _ & H).
    apply rbind_ok_inv in H as (st & _ & H).
    injection H as <-. exists reg, hp, rs. cbn [bo_G bo_pred bo_loss].
    repeat split; assumption.
  - unfold Q_forward in H.
    apply rbind_ok_inv in H as (rr & Hr & H).
    apply regularization_term_configured in Hr
      as (reg & hp & rs & H1 & H2 & H3 & ->).
    unfold Q_dist_branch in H. cbn [fst snd negb] in H.
    apply rbind_ok_inv in H as (pt & _ & H).
    apply rbind_ok_inv in H as (st & _ & H).
    injection H as <-. exists reg, hp, rs. cbn [bo_G bo_loss].
    repeat split; assumption || reflexivity.
  - unfold Q_forward, regularization_term in H. cbn [rbind fst snd] in H.
    unfold Q_scalar_branch in H. rewrite arr_add_zero in H. cbn [rbind] in H.
    apply rbind_ok_inv in H as (loss & Hl & H).
    apply rbind_ok_inv in H as (pt & _ & H).
    apply rbind_ok_inv in H as (st & _ & H).
    injection H as <-. cbn [bo_G bo_pred bo_loss]. split; [reflexivity | exact Hl].
  - unfold Q_forward, regularization_term in H. cbn [rbind fst snd] in H.
    unfold Q_dist_branch in H. cbn [negb] in H.
    apply rbind_ok_inv in H as (pt & _ & H).
    apply rbind_ok_inv in H as (st & _ & H).
    injection H as <-. cbn [bo_G bo_loss]. split; reflexivity.
Qed.

End LossFacts.

(** ** The theorems at the example updater *)

(** Settle a decidable closed statement by evaluating its decision. *)
Ltac by_evaluation :=
  match goal with
  | |- ?P =>
      let H := fresh in
      assert (H : bool_decide P = true) by (vm_compute; reflexivity);
      exact (proj1 (bool_decide_eq_true P) H)
  end.

(** What [arr_binop] does beyond the two cases it writes out, at examples:
    an axis of extent 1 is repeated, a missing axis is added in front, and
    extents that differ without one of them being 1 do not broadcast. *)
Lemma arr_binop_broadcast_examples :
  arr_binop fadd (arr1 [fin 1; fin 2]) (arr1 [fin 10])
    = Ok (arr1 [fin 11; fin 12])
  ∧ arr_binop fadd
      (mk_ndarray [2; 1]%nat [fin 10; fin 20]) (arr1 [fin 1; fin 2; fin 3])
    = Ok (mk_ndarray [2; 3]%nat
            [fin 11; fin 12; fin 13; fin 21; fin 22; fin 23])
  ∧ arr_binop fadd (arr1 [fin 1; fin 2; fin 3]) (arr1 [fin 1; fin 2])
    = Err ValueError.
Proof. split; [by_evaluation |]. split; by_evaluation. Qed.

(** The tree structure tells a list from a tuple and from a named tuple,
    and does not depend on the order in which a dict holds its items; so
    the [optimizer_state] setter refuses a list where the state is a
    tuple. *)
Lemma tree_structure_examples :
  tree_structure (PList []) ≠ tree_structure (PTuple [])
  ∧ tree_structure (PNamedTuple "State" []) ≠ tree_structure (PTuple [])
  ∧ tree_structure (PDict [("b", PNone); ("a", PTuple [])])
    = tree_structure (PDict [("a", PTuple []); ("b", PNone)])
  ∧ optimizer_state_set (PList []) (ex_store g_fin)
    = (Err AttributeError, ex_store g_fin).
Proof.
  split; [discriminate |]. split; [discriminate |].
  split; reflexivity.
Qed.

(** [apply_updates] at examples: an update that is not an array cannot be
    added to a parameter array, and the structures are compared before
    anything is added. *)
Lemma apply_updates_examples :
  apply_updates (PLeaf (arr1 [fin 1])) (PTuple []) = Err TypeError
  ∧ apply_updates (PTuple [PLeaf (arr1 [fin 1])]) (PLeaf (arr1 [fin 1]))
    = Err ValueError
  ∧ apply_updates (PTuple [PLeaf (arr1 [fin 1]); PNone])
      (PTuple [PNone; PLeaf (arr1 [fin 1])])
    = Err ValueError.
Proof. repeat split; vm_compute; reflexivity. Qed.




Lemma clipped_weights_same_loss_witness :
  differ_in_clipped_W (ex_batch_W [fin 100; fin 1]) (ex_batch_W [PInf; fin 1])
  ∧ jnp_clip (W (ex_batch_W [fin 100; fin 1])) W_lo W_hi
    = arr1 [Fin (Q2Qc 10); fin 1]
  ∧ ex_V_loss_func false true mse ex_params ex_tp PNone ex_ts ex_key
      (ex_batch_W [fin 100; fin 1])
    = ex_V_loss_func false true mse ex_params ex_tp PNone ex_ts ex_key
        (ex_batch_W [PInf; fin 1])
  ∧ ex_V_grads_and_metrics_func false true mse ex_params ex_tp PNone ex_ts
      ex_key (ex_batch_W [fin 100; fin 1])
    = ex_V_grads_and_metrics_func false true mse ex_params ex_tp PNone ex_ts
        ex_key (ex_batch_W [PInf; fin 1]).
Proof.
  assert (Hd : differ_in_clipped_W (ex_batch_W [fin 100; fin 1])
                 (ex_batch_W [PInf; fin 1])).
  { split; [reflexivity |]. split; [reflexivity |].
    constructor.
    - right. left. split; vm_compute; reflexivity.
    - constructor; [left; reflexivity | constructor]. }
  split; [exact Hd |].
  pose proof (clipped_weights_same_loss ex_split "TD" ex_preprocessor
                ex_preprocessor ex_v_function ex_v_function_dist
                ex_q_function_type1 ex_q_function_type1_dist unit ex_proba_dist
                tt ex_target_func ex_target_func_dist ex_batch_eval
                (ex_jax_grad g_fin) ex_diagnostics
                false true mse ex_params ex_tp PNone ex_ts ex_key
                (ex_batch_W [fin 100; fin 1]) (ex_batch_W [PInf; fin 1]))
    as H.
  cbv zeta in H. destruct H as (Hc & _ & _ & _ & _ & _ & _ & H).
  split; [rewrite Hc; vm_compute; reflexivity |].
  destruct (H Hd) as (_ & H').
  destruct (H' (fun _ _ _ _ _ => eq_refl) (fun _ _ _ _ _ => eq_refl)
               (fun _ _ _ _ _ _ => eq_refl)) as (HV & HG & _).
  split; [exact HV | exact HG].
Defined.

Lemma regularizer_enters_target_witness :
  ∃ o, ex_V_forward false false mse ex_params ex_tp PNone ex_ts ex_key ex_batch
         = Ok o
       ∧ arr_binop fadd
           (ex_target_func ex_tp ex_ts (nth_key ex_split 3 ex_key) ex_batch)
           (arr_neg (arr1 [fin 1; fin 1]))
         = Ok (bo_G o).
Proof.
  destruct (ex_V_forward false false mse ex_params ex_tp PNone ex_ts ex_key
              ex_batch) as [o|e] eqn:E;
    [| vm_compute in E; discriminate].
  exists o. split; [reflexivity |].
  destruct (regularizer_enters_target ex_split ex_preprocessor
              ex_preprocessor ex_v_function ex_v_function_dist
              ex_q_function_type1 ex_q_function_type1_dist unit ex_proba_dist
              tt ex_target_func ex_target_func_dist ex_batch_eval
              mse ex_params ex_tp PNone ex_ts ex_key ex_batch) as [Hreg _].
  destruct (Hreg o E) as (reg & hp & rs & _ & H2 & _ & HG & _).
  assert (Hhp : ex_tp !! "reg_hparams" = Some (PLeaf (arr1 [fin 1; fin 1])))
    by reflexivity.
  rewrite Hhp in H2. injection H2 as <-. exact HG.
Defined.

Lemma init_type_errors_witness :
  fst (ex_V_init g_fin (PyRef 2%positive) PyNone None None PyNone ex_heap4)
    = Err TypeError
  ∧ fst (ex_Q_init g_fin (PyRef 2%positive) PyNone None None (PyRef 3%positive)
           ex_heap4)
    = Err TypeError
  ∧ fst (ex_QWithTargetPolicy_init g_fin (PyRef 2%positive) (PyRef 1%positive)
           PyNone None None PyNone ex_heap4)
    = Err TypeError
  ∧ snd (ex_V_init g_fin (PyRef 2%positive) PyNone None None PyNone ex_heap4)
    = ex_heap4.
Proof.
  destruct (init_type_errors ex_split mse ex_sgd "TD" ex_preprocessor
              ex_preprocessor ex_v_function ex_v_function_dist
              ex_q_function_type1 ex_q_function_type1_dist unit ex_proba_dist
              tt ex_target_func ex_target_func_dist ex_batch_eval
              (ex_jax_grad g_fin) ex_diagnostics ex_heap4
              (PyRef 1%positive) (PyRef 2%positive) PyNone (PyRef 2%positive)
              PyNone (PyRef 1%positive) None None PyNone)
    as (_ & HV & _ & HP & _ & _ & _ & _ & HsV & _).
  destruct (init_type_errors ex_split mse ex_sgd "TD" ex_preprocessor
              ex_preprocessor ex_v_function ex_v_function_dist
              ex_q_function_type1 ex_q_function_type1_dist unit ex_proba_dist
              tt ex_target_func ex_target_func_dist ex_batch_eval
              (ex_jax_grad g_fin) ex_diagnostics ex_heap4
              (PyRef 1%positive) (PyRef 2%positive) PyNone (PyRef 2%positive)
              PyNone (PyRef 1%positive) None None (PyRef 3%positive))
    as (_ & _ & HQ & _).
  split; [apply HV; left; reflexivity |].
  split; [apply HQ; right; right; reflexivity |].
  split; [apply HP; left; split; reflexivity | exact HsV].
Defined.

(** * Further properties of the updaters *)

(** ** Further properties of the base updater *)

Lemma same_wiring_refl u : same_wiring u u.
Proof. unfold same_wiring. repeat split; reflexivity. Qed.

Lemma same_wiring_trans u1 u2 u3 :
  same_wiring u1 u2 → same_wiring u2 u3 → same_wiring u1 u3.
Proof.
  unfold same_wiring.
  intros (A1 & A2 & A3 & A4 & A5 & A6 & A7 & A8)
         (B1 & B2 & B3 & B4 & B5 & B6 & B7 & B8).
  repeat split; congruence.
Qed.

Lemma keeps_wiring_bind {A B} (m : M store A) (k : A → M store B) :
  keeps_wiring m → (∀ a, keeps_wiring (k a)) → keeps_wiring (bind m k).
Proof.
  intros Hm Hk s. unfold bind. specialize (Hm s).
  destruct (m s) as [[a|e] s1]; simpl in *; [| exact Hm].
  eapply same_wiring_trans; [exact Hm | apply Hk].
Qed.

Lemma read_only_keeps_wiring {A} (m : M store A) :
  read_only m → keeps_wiring m.
Proof. intros H s. rewrite H. apply same_wiring_refl. Qed.

Lemma on_heap_keeps_wiring {A} (m : M heap A) : keeps_wiring (on_heap m).
Proof.
  intros [h u]. unfold on_heap. simpl. destruct (m h) as [r h']. simpl.
  apply same_wiring_refl.
Qed.

Lemma optimizer_state_set_keeps_wiring os : keeps_wiring (optimizer_state_set os).
Proof.
  intros [h u]. unfold optimizer_state_set, bind, optimizer_state_get, gets.
  simpl.
  destruct (decide (tree_structure os ≠ tree_structure (_optimizer_state u)))
    as [Hd|Hd]; simpl; [apply same_wiring_refl |].
  apply dec_stable in Hd. unfold same_wiring. simpl. repeat split; auto.
Qed.

Lemma optimizer_set_keeps_wiring o : keeps_wiring (optimizer_set o).
Proof.
  intros [h u]. unfold optimizer_set, bind, gets, on_heap, params_get, bind,
    get_func, optimizer_state_get, gets. simpl.
  destruct (deref h (_f u)); simpl; try apply same_wiring_refl.
  destruct (decide _); simpl; [apply same_wiring_refl |].
  unfold same_wiring. simpl. repeat split; reflexivity.
Qed.

(** ** Computations that only advance a random key *)

Lemma same_up_to_key_of_refl f s : same_up_to_key_of f s s.
Proof. split; [reflexivity | intros l; left; reflexivity]. Qed.

Lemma same_up_to_key_of_trans f s1 s2 s3 :
  same_up_to_key_of f s1 s2 → same_up_to_key_of f s2 s3 →
  same_up_to_key_of f s1 s3.
Proof.
  intros [Hu1 Hh1] [Hu2 Hh2]. split; [congruence |].
  intros l. destruct (Hh1 l) as [E1|(Hf1 & fo & k1 & A1 & B1)];
    destruct (Hh2 l) as [E2|(Hf2 & fo' & k2 & A2 & B2)].
  - left. congruence.
  - right. split; [exact Hf2 |]. exists fo', k2. rewrite <- E1. auto.
  - right. split; [exact Hf1 |]. exists fo, k1. rewrite E2. auto.
  - right. split; [exact Hf1 |]. exists fo, k2. split; [exact A1 |].
    rewrite B1 in A2. injection A2 as <-. exact B2.
Qed.

Lemma advances_key_of_bind {A B} f (m : M store A) (k : A → M store B) :
  advances_key_of f m → (∀ a, advances_key_of f (k a)) →
  advances_key_of f (bind m k).
Proof.
  intros Hm Hk s. unfold bind. specialize (Hm s).
  destruct (m s) as [[a|e] s1]; simpl in *; [| exact Hm].
  eapply same_up_to_key_of_trans; [exact Hm | apply Hk].
Qed.

Lemma read_only_advances_key_of {A} f (m : M store A) :
  read_only m → advances_key_of f m.
Proof. intros H s. rewrite H. apply same_up_to_key_of_refl. Qed.

Lemma rng_advances_key_of random_split f :
  advances_key_of f (on_heap (rng random_split f)).
Proof.
  intros [h u]. unfold on_heap, rng, bind, get_func. simpl.
  destruct (deref h f) as [fo| |] eqn:Hd; simpl;
    try apply same_up_to_key_of_refl.
  unfold put_func. destruct f as [|l| | |]; simpl;
    try apply same_up_to_key_of_refl.
  apply deref_func_lookup in Hd.
  split; [reflexivity |]. simpl. intros l'.
  destruct (decide (l' = l)) as [->|Hne].
  - right. split; [reflexivity |]. exists fo, (fst (random_split (f_random_key fo))).
    split; [exact Hd | apply lookup_insert_eq].
  - left. apply lookup_insert_ne. congruence.
Qed.

Section BaseExtras.

Variable random_split : key → key * key.
Variable set_params : funobj → pytree → result funobj.
Variable set_function_state : funobj → pytree → result funobj.
Variable target_params : M store bundle.
Variable target_function_state : M store bundle.

Local Abbreviation update' :=
  (update random_split set_params set_function_state
     target_params target_function_state).
Local Abbreviation update_from_grads' :=
  (update_from_grads set_params set_function_state).
Local Abbreviation grads_and_metrics' :=
  (grads_and_metrics random_split target_params target_function_state).
Local Abbreviation td_error' :=
  (td_error random_split target_params target_function_state).
Local Abbreviation split_update' :=
  (split_update random_split set_params set_function_state
     target_params target_function_state).

(** X4: the flag [return_td_error] decides what [update] returns and
    nothing else: the store after the call and the raised exception are the
    same, and the metrics returned are the same. *)
Theorem update_return_td_error_flag b s :
  let upd :=
    update random_split set_params set_function_state target_params
      target_function_state b in
  snd (upd true s) = snd (upd false s)
  ∧ (∀ e, fst (upd true s) = Err e ↔ fst (upd false s) = Err e)
  ∧ (∀ m, fst (upd false s) = Ok (m, None)
          ↔ ∃ td, fst (upd true s) = Ok (m, Some td)).
Proof.
  intros upd. subst upd. unfold update, bind.
  destruct (grads_and_metrics' b s) as [[[[[g fs] m0] td0]|e0] s1]; simpl.
  - destruct (any_isnan g); simpl.
    + repeat split; try tauto; intros; try discriminate.
      destruct H as [td H]. discriminate.
    + destruct (update_from_grads' g fs s1) as [[[]|e1] s2]; simpl.
      * repeat split; try tauto; intros; try discriminate.
        -- injection H as <-. eauto.
        -- destruct H as [td H]. injection H as <- _. reflexivity.
      * repeat split; try tauto; intros; try discriminate.
        destruct H as [td H]. discriminate.
  - repeat split; try tauto; intros; try discriminate.
    destruct H as [td H]. discriminate.
Qed.

(** X5: without NaN in the gradients the split path and [update] agree
    (C2); with NaN they part: [update] raises [RuntimeError] while the
    split path hands the same gradients to [update_from_grads], which has
    no guard of its own. *)
Theorem split_path_has_no_nan_guard b rte s g fs m td s1 :
  grads_and_metrics' b s = (Ok (g, fs, m, td), s1) →
  any_isnan g = true →
  update' b rte s = (Err RuntimeError, s1)
  ∧ split_update' b s = update_from_grads' g fs s1
  ∧ (is_ok (fst (update_from_grads' g fs s1)) = true →
     is_ok (fst (split_update' b s)) = true
     ∧ is_ok (fst (update' b rte s)) = false).
Proof.
  intros Hg Hn. unfold update, split_update.
  rewrite !(bind_eq _ _ _ _ _ Hg), Hn. simpl.
  split; [reflexivity |]. split; [reflexivity |]. auto.
Qed.

Section ReadOnlyTargets.

Hypothesis target_params_ro : read_only target_params.
Hypothesis target_function_state_ro : read_only target_function_state.

Lemma td_error_keeps b : keeps (td_error' b).
Proof.
  unfold td_error.
  repeat first
    [ apply rng_keeps
    | apply keeps_bind; [| intros ? ]
    | apply read_only_keeps; solve [ eauto with ro ] ].
Qed.

Lemma update_from_grads_keeps_wiring g fs : keeps_wiring (update_from_grads' g fs).
Proof.
  unfold update_from_grads, optimizer_get.
  repeat first
    [ apply on_heap_keeps_wiring
    | apply optimizer_state_set_keeps_wiring
    | apply keeps_wiring_bind; [| intros ? ]
    | apply read_only_keeps_wiring; solve [ eauto with ro ] ].
Qed.

Lemma grads_and_metrics_keeps_wiring b : keeps_wiring (grads_and_metrics' b).
Proof.
  unfold grads_and_metrics.
  repeat first
    [ apply on_heap_keeps_wiring
    | apply keeps_wiring_bind; [| intros ? ]
    | apply read_only_keeps_wiring; solve [ eauto with ro ] ].
Qed.

Lemma td_error_keeps_wiring b : keeps_wiring (td_error' b).
Proof.
  unfold td_error.
  repeat first
    [ apply on_heap_keeps_wiring
    | apply keeps_wiring_bind; [| intros ? ]
    | apply read_only_keeps_wiring; solve [ eauto with ro ] ].
Qed.

Lemma update_keeps_wiring b rte : keeps_wiring (update' b rte).
Proof.
  unfold update.
  apply keeps_wiring_bind; [apply grads_and_metrics_keeps_wiring |].
  intros [[[g fs] m] td].
  destruct (any_isnan g).
  - apply read_only_keeps_wiring. auto with ro.
  - apply keeps_wiring_bind; [apply update_from_grads_keeps_wiring |].
    intros ?. apply read_only_keeps_wiring. auto with ro.
Qed.

Lemma observer_tail_advances_key {X} f
    (func : pytree → bundle → pytree → bundle → key → TransitionBatch →
            result X) b :
  advances_key_of f
    (p <- on_heap (params_get f) ;;
     tp <- target_params ;;
     fs <- on_heap (function_state_get f) ;;
     ts <- target_function_state ;;
     k <- on_heap (rng random_split f) ;;
     lift_result (func p tp fs ts k b))%M.
Proof.
  repeat first
    [ apply rng_advances_key_of
    | apply advances_key_of_bind; [| intros ? ]
    | apply read_only_advances_key_of; solve [ eauto with ro ] ].
Qed.

Lemma grads_and_metrics_advances_key b s :
  same_up_to_key_of (_f (st_self s)) s
    (snd (grads_and_metrics' b s)).
Proof.
  unfold grads_and_metrics, bind at 1, self_attr.
  destruct (_grads_and_metrics_func (st_self s)) as [func|];
    [| apply same_up_to_key_of_refl].
  unfold bind at 1, gets at 1.
  apply (observer_tail_advances_key (_f (st_self s)) func b s).
Qed.

Lemma td_error_advances_key b s :
  same_up_to_key_of (_f (st_self s)) s
    (snd (td_error' b s)).
Proof.
  unfold td_error, bind at 1, self_attr.
  destruct (_td_error_func (st_self s)) as [func|];
    [| apply same_up_to_key_of_refl].
  unfold bind at 1, gets at 1.
  apply (observer_tail_advances_key (_f (st_self s)) func b s).
Qed.

(** X1: an exception raised while the gradients are computed (a failed
    shape assertion, a missing key, a missing attribute) ends [update] with
    that exception before anything is written: the updater and every object
    of the heap are as before the call, but for the random key of the online
    function, which may have advanced; so parameters, function state,
    optimizer and optimizer state are as before. *)
Theorem update_aborts_on_grads_error b rte s e s1 :
  grads_and_metrics' b s = (Err e, s1) →
  update' b rte s = (Err e, s1)
  ∧ same_up_to_key_of (_f (st_self s)) s s1
  ∧ learnables s1 = learnables s
  ∧ getattr_params (st_heap s1) (_f (st_self s1))
    = getattr_params (st_heap s) (_f (st_self s))
  ∧ getattr_function_state (st_heap s1) (_f (st_self s1))
    = getattr_function_state (st_heap s) (_f (st_self s))
  ∧ _optimizer_state (st_self s1) = _optimizer_state (st_self s).
Proof.
  intros Hg.
  pose proof (grads_and_metrics_keeps random_split target_params
                target_function_state target_params_ro
                target_function_state_ro b s) as Hk.
  rewrite Hg in Hk. simpl in Hk.
  split; [unfold update; rewrite (bind_err _ _ _ _ _ Hg); reflexivity |].
  split.
  { pose proof (grads_and_metrics_advances_key b s) as Ha.
    rewrite Hg in Ha. exact Ha. }
  split; [exact Hk |].
  assert (Hu : st_self s1 = st_self s) by (unfold learnables in Hk; congruence).
  rewrite Hu.
  destruct (learnables_params s1 s (_f (st_self s)) Hk) as [Hp Hf]. auto.
Qed.

(** X2: [td_error] and [grads_and_metrics] only observe: whatever they
    return or raise, the updater and every object of the heap are as before,
    but for the random key of the online function, which may have advanced;
    so the parameters and function state of every object, the optimizer and
    its state are as before. *)
Theorem observers_keep_learnables b s :
  same_up_to_key_of (_f (st_self s)) s (snd (td_error' b s))
  ∧ same_up_to_key_of (_f (st_self s)) s (snd (grads_and_metrics' b s))
  ∧ learnables (snd (td_error' b s)) = learnables s
  ∧ learnables (snd (grads_and_metrics' b s)) = learnables s
  ∧ (∀ v, getattr_params (st_heap (snd (td_error' b s))) v
          = getattr_params (st_heap s) v
          ∧ getattr_function_state (st_heap (snd (td_error' b s))) v
            = getattr_function_state (st_heap s) v)
  ∧ st_self (snd (td_error' b s)) = st_self s.
Proof.
  pose proof (td_error_keeps b s) as Ht.
  pose proof (grads_and_metrics_keeps random_split target_params
                target_function_state target_params_ro
                target_function_state_ro b s) as Hg.
  split; [apply td_error_advances_key |].
  split; [apply grads_and_metrics_advances_key |].
  split; [exact Ht |]. split; [exact Hg |].
  split; [intros v; apply learnables_params, Ht |].
  unfold learnables in Ht. congruence.
Qed.

(** X3: no method changes what the updater is wired to: the online and
    target functions, the loss function, the regularizer, the closures and
    the target policy stay the same objects, and the tree structure of the
    optimizer state stays what the constructor made it, through [update],
    [update_from_grads], [grads_and_metrics], [td_error] and both
    setters. *)
Theorem methods_keep_wiring b rte g fs o os s :
  same_wiring (st_self s) (st_self (snd (update' b rte s)))
  ∧ same_wiring (st_self s) (st_self (snd (update_from_grads' g fs s)))
  ∧ same_wiring (st_self s) (st_self (snd (grads_and_metrics' b s)))
  ∧ same_wiring (st_self s) (st_self (snd (td_error' b s)))
  ∧ same_wiring (st_self s) (st_self (snd (optimizer_set o s)))
  ∧ same_wiring (st_self s) (st_self (snd (optimizer_state_set os s))).
Proof.
  split; [apply update_keeps_wiring |].
  split; [apply update_from_grads_keeps_wiring |].
  split; [apply grads_and_metrics_keeps_wiring |].
  split; [apply td_error_keeps_wiring |].
  split; [apply optimizer_set_keeps_wiring |].
  apply optimizer_state_set_keeps_wiring.
Qed.

End ReadOnlyTargets.

End BaseExtras.

Section UpdateFromGrads.

Variable set_params : funobj → pytree → result funobj.
Variable set_function_state : funobj → pytree → result funobj.

Local Abbreviation update_from_grads' :=
  (update_from_grads set_params set_function_state).

(** X6: [update_from_grads] writes in three steps and can stop after
    each: a refused function state leaves the store untouched; a failed
    optimizer step, or a new optimizer state of another tree structure,
    stops it with the function state already committed and parameters and
    optimizer state as before; refused parameters stop it with function
    state and optimizer state committed; otherwise all three are
    written. *)
Theorem update_from_grads_order_of_effects s l fo g fs :
  _f (st_self s) = PyRef l →
  st_heap s !! l = Some (Func fo) →
  let u := st_self s in
  let step fo1 := apply_grads_func (_optimizer u) (_optimizer_state u)
                    (f_params fo1) g in
  let h1 fo1 := <[l := Func fo1]> (st_heap s) in
  (∀ e, set_function_state fo fs = Err e →
        update_from_grads' g fs s = (Err e, s))
  ∧ (∀ fo1 e, set_function_state fo fs = Ok fo1 → step fo1 = Err e →
        update_from_grads' g fs s = (Err e, mk_store (h1 fo1) u))
  ∧ (∀ fo1 os' p', set_function_state fo fs = Ok fo1 →
        step fo1 = Ok (os', p') →
        tree_structure os' ≠ tree_structure (_optimizer_state u) →
        update_from_grads' g fs s = (Err AttributeError, mk_store (h1 fo1) u))
  ∧ (∀ fo1 os' p' e, set_function_state fo fs = Ok fo1 →
        step fo1 = Ok (os', p') →
        tree_structure os' = tree_structure (_optimizer_state u) →
        set_params fo1 p' = Err e →
        update_from_grads' g fs s
        = (Err e, mk_store (h1 fo1) (with_optimizer_state os' u)))
  ∧ (∀ fo1 os' p' fo2, set_function_state fo fs = Ok fo1 →
        step fo1 = Ok (os', p') →
        tree_structure os' = tree_structure (_optimizer_state u) →
        set_params fo1 p' = Ok fo2 →
        update_from_grads' g fs s
        = (Ok tt, mk_store (<[l := Func fo2]> (h1 fo1))
                    (with_optimizer_state os' u))).
Proof.
  destruct s as [h u0]. simpl. intros Hf Hl.
  assert (Hfs : on_heap (function_state_set set_function_state (PyRef l) fs)
                       (mk_store h u0)
                     = match set_function_state fo fs with
                       | Ok fo1 => (Ok tt, mk_store (<[l := Func fo1]> h) u0)
                       | Err e => (Err e, mk_store h u0)
                       end).
  { unfold on_heap, function_state_set, bind, get_func, lift_result,
      put_func, deref. simpl. rewrite Hl. simpl.
    destruct (set_function_state fo fs); reflexivity. }
  assert (Hpg : ∀ fo1, on_heap (params_get (PyRef l))
                         (mk_store (<[l := Func fo1]> h) u0)
                       = (Ok (f_params fo1), mk_store (<[l := Func fo1]> h) u0)).
  { intros fo1. unfold on_heap, params_get, bind, get_func, deref. simpl.
    rewrite lookup_insert_eq. reflexivity. }
  assert (Hps : ∀ fo1 p' u1, on_heap (params_set set_params (PyRef l) p')
                         (mk_store (<[l := Func fo1]> h) u1)
                       = match set_params fo1 p' with
                         | Ok fo2 => (Ok tt, mk_store (<[l := Func fo2]>
                                                (<[l := Func fo1]> h)) u1)
                         | Err e => (Err e, mk_store (<[l := Func fo1]> h) u1)
                         end).
  { intros fo1 p' u1. unfold on_heap, params_set, bind, get_func, lift_result,
      put_func, deref. simpl. rewrite lookup_insert_eq. simpl.
    destruct (set_params fo1 p'); reflexivity. }
  assert (Hbody : update_from_grads' g fs (mk_store h u0) =
    match set_function_state fo fs with
    | Err e => (Err e, mk_store h u0)
    | Ok fo1 =>
        match apply_grads_func (_optimizer u0) (_optimizer_state u0)
                (f_params fo1) g with
        | Err e => (Err e, mk_store (<[l := Func fo1]> h) u0)
        | Ok r =>
            if decide (tree_structure (fst r)
                       ≠ tree_structure (_optimizer_state u0))
            then (Err AttributeError, mk_store (<[l := Func fo1]> h) u0)
            else on_heap (params_set set_params (PyRef l) (snd r))
                   (mk_store (<[l := Func fo1]> h)
                      (with_optimizer_state (fst r) u0))
        end
    end).
  { unfold update_from_grads.
    unfold bind at 1. unfold gets at 1. simpl. rewrite Hf.
    unfold bind at 1. rewrite Hfs.
    destruct (set_function_state fo fs) as [fo1|e]; [| reflexivity].
    unfold bind at 1. unfold optimizer_get, gets at 1. simpl.
    unfold bind at 1. unfold optimizer_state_get at 1, gets at 1. simpl.
    unfold bind at 1. rewrite Hpg.
    unfold bind at 1. unfold lift_result.
    destruct (apply_grads_func _ _ _ _) as [r|e]; [| reflexivity].
    unfold bind at 1. unfold optimizer_state_set, bind, optimizer_state_get,
      gets, raise, modify. simpl.
    destruct (decide _); reflexivity. }
  rewrite Hbody. clear Hbody.
  repeat split.
  - intros e ->. reflexivity.
  - intros fo1 e -> ->. reflexivity.
  - intros fo1 os' p' -> -> Hne. simpl. rewrite decide_True by exact Hne.
    reflexivity.
  - intros fo1 os' p' e -> -> Heq Hsp. simpl.
    rewrite decide_False by (intros Hne; apply Hne, Heq).
    rewrite Hps, Hsp. reflexivity.
  - intros fo1 os' p' fo2 -> -> Heq Hsp. simpl.
    rewrite decide_False by (intros Hne; apply Hne, Heq).
    rewrite Hps, Hsp. reflexivity.
Qed.

End UpdateFromGrads.

(** ** Further properties of the constructors and the target bundles *)

Section InitExtras.

Variable random_split : key → key * key.
Variable huber : loss_fn.
Variable adam : optimizer.
Variable class_name : string.
Variable observation_preprocessor : key → pytree → pytree.
Variable action_preprocessor : key → pytree → pytree.
Variable v_function : pytree → pytree → key → pytree → bool → ndarray * pytree.
Variable v_function_dist : pytree → pytree → key → pytree → bool → pytree * pytree.
Variable q_function_type1 :
  pytree → pytree → key → pytree → pytree → bool → ndarray * pytree.
Variable q_function_type1_dist :
  pytree → pytree → key → pytree → pytree → bool → pytree * pytree.
Variable VT : Type.
Variable proba_dist : ProbaDist VT.
Variable value_transform : VT.
Variable target_func : bundle → bundle → key → TransitionBatch → ndarray.
Variable target_func_dist : bundle → bundle → key → TransitionBatch → pytree.
Variable batch_eval : pytree → pytree → pytree → key → TransitionBatch → ndarray.
Variable jax_grad : (pytree → result ndarray) → pytree → pytree.
Variable get_grads_diagnostics : pytree → string → metrics_dict.

Local Abbreviation V_init :=
  (BaseTDLearningV_init random_split huber adam class_name
     observation_preprocessor v_function v_function_dist VT proba_dist
     value_transform target_func target_func_dist batch_eval jax_grad
     get_grads_diagnostics).
Local Abbreviation Q_init :=
  (BaseTDLearningQ_init random_split huber adam class_name
     observation_preprocessor action_preprocessor q_function_type1
     q_function_type1_dist VT proba_dist value_transform target_func
     target_func_dist batch_eval jax_grad get_grads_diagnostics).
Local Abbreviation QWithTargetPolicy_init :=
  (BaseTDLearningQWithTargetPolicy_init random_split huber adam class_name
     observation_preprocessor action_preprocessor q_function_type1
     q_function_type1_dist VT proba_dist value_transform target_func
     target_func_dist batch_eval jax_grad get_grads_diagnostics).

(** What a successful V or Q construction stores. *)
Lemma V_init_ok_inv v v_targ opt lf reg h u h' :
  V_init v v_targ opt lf reg h = (Ok u, h') →
  h' = h
  ∧ ∃ fo, deref h v = Func fo
          ∧ _f u = v
          ∧ _f_targ u = (if is_none v_targ then v else v_targ)
          ∧ loss_function u = default huber lf
          ∧ policy_regularizer u = reg
          ∧ _optimizer u = default adam opt
          ∧ _optimizer_state u = opt_init (default adam opt) (f_params fo)
          ∧ pi_targ u = None.
Proof.
  rewrite V_init_eq, Base_init_eq.
  destruct (is_vfunction h v && (is_none v_targ || is_vfunction h v_targ));
    [| discriminate].
  destruct (reg_ok h reg); [| discriminate].
  destruct (deref h v) as [fo| |]; try discriminate.
  intros H. injection H as <- <-. split; [reflexivity |].
  exists fo. simpl. repeat split; reflexivity.
Qed.

Lemma Q_init_ok_inv q q_targ opt lf reg h u h' :
  Q_init q q_targ opt lf reg h = (Ok u, h') →
  h' = h
  ∧ ∃ fo, deref h q = Func fo
          ∧ _f u = q
          ∧ _f_targ u = (if is_none q_targ then q else q_targ)
          ∧ loss_function u = default huber lf
          ∧ policy_regularizer u = reg
          ∧ _optimizer u = default adam opt
          ∧ _optimizer_state u = opt_init (default adam opt) (f_params fo)
          ∧ pi_targ u = None.
Proof.
  rewrite Q_init_eq, Base_init_eq.
  destruct (is_qfunction h q
            && (is_none q_targ || is_list_or_tuple q_targ || is_qfunction h q_targ));
    [| discriminate].
  destruct (reg_ok h reg); [| discriminate].
  destruct (deref h q) as [fo| |]; try discriminate.
  intros H. injection H as <- <-. split; [reflexivity |].
  exists fo. simpl. repeat split; reflexivity.
Qed.

Lemma with_optimizer_same u : with_optimizer (_optimizer u) u = u.
Proof. destruct u. reflexivity. Qed.

Lemma with_optimizer_state_same u :
  with_optimizer_state (_optimizer_state u) u = u.
Proof. destruct u. reflexivity. Qed.

(** X7: a V or Q updater that has just been constructed holds the given
    optimizer and loss function, or [optax.adam(1e-3)] and the Huber loss
    where [None] was given, and an optimizer state initialised on the online
    parameters; so assigning its own optimizer or optimizer state back is
    accepted and changes nothing. *)
Theorem constructed_updater_defaults v q f_targ opt lf reg h u :
  V_init v f_targ opt lf reg h = (Ok u, h)
  ∨ Q_init q f_targ opt lf reg h = (Ok u, h) →
  _optimizer u = default adam opt
  ∧ loss_function u = default huber lf
  ∧ policy_regularizer u = reg
  ∧ _optimizer_state u
    = opt_init (_optimizer u) (getattr_params h (_f u))
  ∧ optimizer_set (_optimizer u) (mk_store h u) = (Ok tt, mk_store h u)
  ∧ optimizer_state_set (_optimizer_state u) (mk_store h u)
    = (Ok tt, mk_store h u).
Proof.
  intros H.
  assert (Hinv : ∃ fo, deref h (_f u) = Func fo
                       ∧ loss_function u = default huber lf
                       ∧ policy_regularizer u = reg
                       ∧ _optimizer u = default adam opt
                       ∧ _optimizer_state u
                         = opt_init (default adam opt) (f_params fo)).
  { destruct H as [H|H];
      [apply V_init_ok_inv in H | apply Q_init_ok_inv in H];
      destruct H as (_ & fo & Hd & Hf & _ & Hl & Hr & Ho & Hs & _);
      exists fo; rewrite Hf; auto. }
  destruct Hinv as (fo & Hd & Hl & Hr & Ho & Hs).
  split; [exact Ho |]. split; [exact Hl |]. split; [exact Hr |].
  assert (Hp : getattr_params h (_f u) = f_params fo)
    by (unfold getattr_params; rewrite Hd; reflexivity).
  split; [rewrite Hp, Ho; exact Hs |].
  split.
  - unfold optimizer_set, bind, gets, on_heap, params_get, bind, get_func,
      optimizer_state_get, gets. simpl. rewrite Hd. simpl.
    rewrite decide_False by (intros Hne; apply Hne; rewrite Hs, Ho; reflexivity).
    unfold modify, set_self_optimizer. simpl.
    rewrite with_optimizer_same. reflexivity.
  - unfold optimizer_state_set, bind, optimizer_state_get, gets. simpl.
    rewrite decide_False by (intros Hne; apply Hne; reflexivity).
    unfold modify, set_self_optimizer_state. simpl.
    rewrite with_optimizer_state_same. reflexivity.
Qed.

(** X8: an updater constructed without a target function bootstraps from
    the online function itself: the constructor stores the online function
    as the target, and whatever the heap has become since, the target entry
    of both bundles is the online entry. *)
Theorem target_defaults_to_online v q opt lf reg h u s tp ts :
  (V_init v PyNone opt lf reg h = (Ok u, h) → _f u = v ∧ _f_targ u = v)
  ∧ (Q_init q PyNone opt lf reg h = (Ok u, h) → _f u = q ∧ _f_targ u = q)
  ∧ (_f_targ (st_self s) = _f (st_self s) →
     (fst (V_target_params s) = Ok tp →
      tp !! "v_targ" = tp !! "v"
      ∧ tp !! "v" = Some (getattr_params (st_heap s) (_f (st_self s))))
     ∧ (fst (V_target_function_state s) = Ok ts →
        ts !! "v_targ" = ts !! "v"
        ∧ ts !! "v"
          = Some (getattr_function_state (st_heap s) (_f (st_self s))))
     ∧ (fst (Q_target_params s) = Ok tp →
        tp !! "q_targ" = tp !! "q"
        ∧ tp !! "q" = Some (getattr_params (st_heap s) (_f (st_self s))))
     ∧ (fst (Q_target_function_state s) = Ok ts →
        ts !! "q_targ" = ts !! "q"
        ∧ ts !! "q"
          = Some (getattr_function_state (st_heap s) (_f (st_self s))))).
Proof.
  split; [| split].
  - intros H. apply V_init_ok_inv in H as (_ & fo & _ & Hf & Ht & _).
    simpl in Ht. auto.
  - intros H. apply Q_init_ok_inv in H as (_ & fo & _ & Hf & Ht & _).
    simpl in Ht. auto.
  - destruct s as [h0 u0]. simpl. intros Heq.
    unfold V_target_params, V_target_function_state, Q_target_params,
      Q_target_function_state, bind, gets, on_heap, params_get,
      function_state_get, bind, get_func, ret, to_immutable_dict,
      getattr_params, getattr_function_state.
    simpl. rewrite Heq.
    destruct (deref h0 (_f u0)) as [fo| |] eqn:Hd; simpl;
      (split; [| split; [| split]]); intros H; simpl in H;
      rewrite ?Hd in H; simpl in H; try discriminate;
      injection H as <-; split; reflexivity.
Qed.

End InitExtras.

Section ListTargets.

Variable random_split : key → key * key.
Variable set_params : funobj → pytree → result funobj.
Variable set_function_state : funobj → pytree → result funobj.

(** X9: the Q constructor accepts a list or tuple of target functions,
    but the target bundles of [BaseTDLearningQ] and of
    [BaseTDLearningQWithTargetPolicy] read [q_targ.params] and
    [q_targ.function_state]: with a list they raise [AttributeError], and so
    do [update], [grads_and_metrics] and [td_error] of these classes, before
    anything is written and before a random key is drawn. *)
Theorem list_q_targ_needs_override s b rte :
  is_list_or_tuple (_f_targ (st_self s)) = true →
  Q_target_params s = (Err AttributeError, s)
  ∧ Q_target_function_state s = (Err AttributeError, s)
  ∧ QWithTargetPolicy_target_params s = (Err AttributeError, s)
  ∧ QWithTargetPolicy_target_function_state s = (Err AttributeError, s)
  ∧ update random_split set_params set_function_state
      Q_target_params Q_target_function_state b rte s
    = (Err AttributeError, s)
  ∧ grads_and_metrics random_split Q_target_params Q_target_function_state b s
    = (Err AttributeError, s)
  ∧ td_error random_split Q_target_params Q_target_function_state b s
    = (Err AttributeError, s).
Proof.
  destruct s as [h u]. simpl. intros Hl.
  assert (Hd : deref h (_f_targ u) = Opaque)
    by (destruct (_f_targ u); simpl in *; try discriminate; reflexivity).
  assert (H1 : Q_target_params (mk_store h u)
               = (Err AttributeError, mk_store h u)).
  { unfold Q_target_params, bind, gets, on_heap, params_get, bind, get_func.
    simpl. destruct (deref h (_f u)); simpl; rewrite ?Hd; reflexivity. }
  assert (H2 : Q_target_function_state (mk_store h u)
               = (Err AttributeError, mk_store h u)).
  { unfold Q_target_function_state, bind, gets, on_heap, function_state_get,
      bind, get_func.
    simpl. destruct (deref h (_f u)); simpl; rewrite ?Hd; reflexivity. }
  assert (H3 : grads_and_metrics random_split Q_target_params
                 Q_target_function_state b (mk_store h u)
               = (Err AttributeError, mk_store h u)).
  { unfold grads_and_metrics. unfold bind at 1. unfold self_attr. simpl.
    destruct (_grads_and_metrics_func u); [| reflexivity].
    unfold bind at 1. unfold gets at 1. simpl.
    unfold bind at 1.
    unfold on_heap at 1, params_get, bind at 1, get_func at 1. simpl.
    destruct (deref h (_f u)); try reflexivity. simpl.
    unfold bind at 1. rewrite H1. reflexivity. }
  split; [exact H1 |]. split; [exact H2 |].
  split.
  { unfold QWithTargetPolicy_target_params, bind, gets, on_heap, params_get,
      bind, get_func.
    simpl. destruct (deref h (_f u)); simpl; rewrite ?Hd; reflexivity. }
  split.
  { unfold QWithTargetPolicy_target_function_state, bind, gets, on_heap,
      function_state_get, bind, get_func.
    simpl. destruct (deref h (_f u)); simpl; rewrite ?Hd; reflexivity. }
  split; [unfold update; rewrite (bind_err _ _ _ _ _ H3); reflexivity |].
  split; [exact H3 |].
  unfold td_error. unfold bind at 1. unfold self_attr. simpl.
  destruct (_td_error_func u); [| reflexivity].
  unfold bind at 1. unfold gets at 1. simpl.
  unfold bind at 1.
  unfold on_heap at 1, params_get, bind at 1, get_func at 1. simpl.
  destruct (deref h (_f u)); try reflexivity. simpl.
  unfold bind at 1. rewrite H1. reflexivity.
Qed.

End ListTargets.

(** ** Further properties of the loss computation *)

Section LossExtras.

Variable random_split : key → key * key.
Variable class_name : string.
Variable observation_preprocessor : key → pytree → pytree.
Variable action_preprocessor : key → pytree → pytree.
Variable v_function : pytree → pytree → key → pytree → bool → ndarray * pytree.
Variable v_function_dist : pytree → pytree → key → pytree → bool → pytree * pytree.
Variable q_function_type1 :
  pytree → pytree → key → pytree → pytree → bool → ndarray * pytree.
Variable q_function_type1_dist :
  pytree → pytree → key → pytree → pytree → bool → pytree * pytree.
Variable VT : Type.
Variable proba_dist : ProbaDist VT.
Variable value_transform : VT.
Variable target_func : bundle → bundle → key → TransitionBatch → ndarray.
Variable target_func_dist : bundle → bundle → key → TransitionBatch → pytree.
Variable batch_eval : pytree → pytree → pytree → key → TransitionBatch → ndarray.

Local Abbreviation V_fwd :=
  (V_forward random_split observation_preprocessor v_function v_function_dist
     VT proba_dist value_transform target_func target_func_dist batch_eval).
Local Abbreviation V_loss :=
  (V_loss_func random_split class_name observation_preprocessor v_function
     v_function_dist VT proba_dist value_transform target_func target_func_dist
     batch_eval).
Local Abbreviation Q_fwd :=
  (Q_forward random_split observation_preprocessor action_preprocessor
     q_function_type1 q_function_type1_dist VT proba_dist value_transform
     target_func target_func_dist batch_eval).
Local Abbreviation Q_loss :=
  (Q_loss_func random_split class_name observation_preprocessor
     action_preprocessor q_function_type1 q_function_type1_dist VT proba_dist
     value_transform target_func target_func_dist batch_eval).
Local Abbreviation reg_term := (regularization_term random_split batch_eval).
Local Abbreviation clipW b := (jnp_clip (W b) W_lo W_hi).



(** X12: the metrics dict of either [loss_func] has exactly three
    entries, named after the class: the loss it returns, the mean of the
    TD error times the clipped weights, and the target-function diagnostic;
    the three names are distinct whatever the class name. *)
Theorem loss_func_metrics stoch rn lf p tp st ts k b loss td st' m :
  V_loss stoch rn lf p tp st ts k b = Ok (loss, (td, st', m))
  ∨ Q_loss stoch rn lf p tp st ts k b = Ok (loss, (td, st', m)) →
  m !! loss_key class_name = Some loss
  ∧ (∃ wtd, arr_binop fmul (clipW b) td = Ok wtd
            ∧ m !! td_error_key class_name = Some (jnp_mean wtd))
  ∧ is_Some (m !! td_error_targ_key class_name)
  ∧ dom m = {[ loss_key class_name; td_error_key class_name;
               td_error_targ_key class_name ]}
  ∧ size m = 3%nat.
Proof.
  intros H.
  assert (Ht : ∃ o, td_error_and_metrics class_name lf (clipW b) o
                    = Ok (loss, (td, st', m))).
  { destruct H as [H|H]; [unfold V_loss_func in H | unfold Q_loss_func in H];
      apply rbind_ok_inv in H as (o & _ & H); eauto. }
  destruct Ht as [o Ht].
  apply tail_metrics in Ht as (wtd & dt & Hw & _ & ->).
  assert (N1 : loss_key class_name ≠ td_error_key class_name)
    by (intros E; pose proof (string_app_inv _ _ _ E); discriminate).
  assert (N2 : loss_key class_name ≠ td_error_targ_key class_name)
    by (intros E; pose proof (string_app_inv _ _ _ E); discriminate).
  assert (N3 : td_error_key class_name ≠ td_error_targ_key class_name)
    by (intros E; pose proof (string_app_inv _ _ _ E); discriminate).
  split; [apply lookup_insert_eq |].
  split.
  { exists wtd. split; [exact Hw |].
    rewrite lookup_insert_ne by exact N1. apply lookup_insert_eq. }
  split.
  { rewrite lookup_insert_ne by exact N2.
    rewrite lookup_insert_ne by exact N3.
    rewrite lookup_insert_eq. eauto. }
  split.
  { rewrite !dom_insert_L, dom_empty_L.
    rewrite (right_id_L ∅ (∪)), !(assoc_L (∪)). reflexivity. }
  rewrite map_size_insert_None.
  2: { rewrite lookup_insert_ne by congruence.
       rewrite lookup_insert_ne by congruence. apply lookup_empty. }
  rewrite map_size_insert_None.
  2: { rewrite lookup_insert_ne by congruence. apply lookup_empty. }
  rewrite map_size_insert_None by apply lookup_empty.
  rewrite map_size_empty. reflexivity.
Qed.

End LossExtras.

Section WeightsExtras.

Variable random_split : key → key * key.
Variable class_name : string.
Variable observation_preprocessor : key → pytree → pytree.
Variable action_preprocessor : key → pytree → pytree.
Variable v_function : pytree → pytree → key → pytree → bool → ndarray * pytree.
Variable v_function_dist : pytree → pytree → key → pytree → bool → pytree * pytree.
Variable q_function_type1 :
  pytree → pytree → key → pytree → pytree → bool → ndarray * pytree.
Variable q_function_type1_dist :
  pytree → pytree → key → pytree → pytree → bool → pytree * pytree.
Variable VT : Type.
Variable proba_dist : ProbaDist VT.
Variable value_transform : VT.
Variable target_func : bundle → bundle → key → TransitionBatch → ndarray.
Variable target_func_dist : bundle → bundle → key → TransitionBatch → pytree.
Variable batch_eval : pytree → pytree → pytree → key → TransitionBatch → ndarray.

Local Abbreviation V_fwd :=
  (V_forward random_split observation_preprocessor v_function v_function_dist
     VT proba_dist value_transform target_func target_func_dist batch_eval).
Local Abbreviation V_loss :=
  (V_loss_func random_split class_name observation_preprocessor v_function
     v_function_dist VT proba_dist value_transform target_func target_func_dist
     batch_eval).
Local Abbreviation Q_fwd :=
  (Q_forward random_split observation_preprocessor action_preprocessor
     q_function_type1 q_function_type1_dist VT proba_dist value_transform
     target_func target_func_dist batch_eval).
Local Abbreviation Q_loss :=
  (Q_loss_func random_split class_name observation_preprocessor
     action_preprocessor q_function_type1 q_function_type1_dist VT proba_dist
     value_transform target_func target_func_dist batch_eval).

Section AnyWeights.

Hypothesis target_func_ignores_W : ∀ tp ts k, ignores_W (target_func tp ts k).
Hypothesis target_func_dist_ignores_W :
  ∀ tp ts k, ignores_W (target_func_dist tp ts k).
Hypothesis batch_eval_ignores_W : ∀ r hp rs k, ignores_W (batch_eval r hp rs k).

(** The weights reach the part before the assertions only through the
    loss of the scalar head. *)
Lemma V_forward_any_W stoch rn lf p tp s ts k b w o1 o2 :
  V_fwd stoch rn lf p tp s ts k b = Ok o1 →
  V_fwd stoch rn lf p tp s ts k (with_W b w) = Ok o2 →
  bo_G o2 = bo_G o1 ∧ bo_pred o2 = bo_pred o1 ∧ bo_targ o2 = bo_targ o1
  ∧ bo_state_new o2 = bo_state_new o1
  ∧ (stoch = true → bo_loss o2 = bo_loss o1).
Proof.
  unfold V_forward. cbn [S W with_W].
  rewrite regularization_term_with_W by assumption.
  destruct (regularization_term random_split batch_eval rn tp ts _ b) as [rr|e];
    simpl; [| discriminate].
  destruct stoch.
  - unfold V_dist_branch. rewrite target_func_dist_ignores_W.
    intros H1 H2. rewrite H1 in H2. injection H2 as <-. auto.
  - unfold V_scalar_branch. rewrite target_func_ignores_W.
    intros H1 H2.
    apply rbind_ok_inv in H1 as (G1 & E1 & H1).
    apply rbind_ok_inv in H1 as (l1 & _ & H1).
    apply rbind_ok_inv in H1 as (pt1 & P1 & H1).
    apply rbind_ok_inv in H1 as (st1 & S1 & H1).
    apply rbind_ok_inv in H2 as (G2 & E2 & H2).
    apply rbind_ok_inv in H2 as (l2 & _ & H2).
    apply rbind_ok_inv in H2 as (pt2 & P2 & H2).
    apply rbind_ok_inv in H2 as (st2 & S2 & H2).
    rewrite E1 in E2. injection E2 as <-.
    rewrite P1 in P2. injection P2 as <-.
    rewrite S1 in S2. injection S2 as <-.
    injection H1 as <-. injection H2 as <-. simpl.
    repeat split; try reflexivity. discriminate.
Qed.

Lemma Q_forward_any_W stoch rn lf p tp s ts k b w o1 o2 :
  Q_fwd stoch rn lf p tp s ts k b = Ok o1 →
  Q_fwd stoch rn lf p tp s ts k (with_W b w) = Ok o2 →
  bo_G o2 = bo_G o1 ∧ bo_pred o2 = bo_pred o1 ∧ bo_targ o2 = bo_targ o1
  ∧ bo_state_new o2 = bo_state_new o1
  ∧ (stoch = true → bo_loss o2 = bo_loss o1).
Proof.
  unfold Q_forward. cbn [S A W with_W].
  rewrite regularization_term_with_W by assumption.
  destruct (regularization_term random_split batch_eval rn tp ts _ b) as [rr|e];
    simpl; [| discriminate].
  destruct stoch.
  - unfold Q_dist_branch. rewrite target_func_dist_ignores_W.
    intros H1 H2. rewrite H1 in H2. injection H2 as <-. auto.
  - unfold Q_scalar_branch. rewrite target_func_ignores_W.
    intros H1 H2.
    apply rbind_ok_inv in H1 as (G1 & E1 & H1).
    apply rbind_ok_inv in H1 as (l1 & _ & H1).
    apply rbind_ok_inv in H1 as (pt1 & P1 & H1).
    apply rbind_ok_inv in H1 as (st1 & S1 & H1).
    apply rbind_ok_inv in H2 as (G2 & E2 & H2).
    apply rbind_ok_inv in H2 as (l2 & _ & H2).
    apply rbind_ok_inv in H2 as (pt2 & P2 & H2).
    apply rbind_ok_inv in H2 as (st2 & S2 & H2).
    rewrite E1 in E2. injection E2 as <-.
    rewrite P1 in P2. injection P2 as <-.
    rewrite S1 in S2. injection S2 as <-.
    injection H1 as <-. injection H2 as <-. simpl.
    repeat split; try reflexivity. discriminate.
Qed.

Lemma loss_any_W (fwd1 fwd2 : result branch_out) stoch lf W1 W2
    l1 td1 st1 m1 l2 td2 st2 m2 :
  (∀ o1 o2, fwd1 = Ok o1 → fwd2 = Ok o2 →
     bo_G o2 = bo_G o1 ∧ bo_pred o2 = bo_pred o1 ∧ bo_targ o2 = bo_targ o1
     ∧ bo_state_new o2 = bo_state_new o1
     ∧ (stoch = true → bo_loss o2 = bo_loss o1)) →
  rbind fwd1 (td_error_and_metrics class_name lf W1) = Ok (l1, (td1, st1, m1)) →
  rbind fwd2 (td_error_and_metrics class_name lf W2) = Ok (l2, (td2, st2, m2)) →
  td2 = td1 ∧ st2 = st1 ∧ (stoch = true → l2 = l1).
Proof.
  intros Hf H1 H2.
  apply loss_of_parts in H1
    as (o1 & n1 & d1 & F1 & _ & N1 & D1 & -> & _ & -> & ->).
  apply loss_of_parts in H2
    as (o2 & n2 & d2 & F2 & _ & N2 & D2 & -> & _ & -> & ->).
  destruct (Hf o1 o2 F1 F2) as (HG & HV & _ & HS & HL).
  rewrite HG, HV in D2. rewrite D1 in D2. injection D2 as <-.
  rewrite HV, N1 in N2. injection N2 as <-.
  auto.
Qed.

End AnyWeights.

(** X13: with a target function and a regularizer that do not read the
    raw weights, the TD error and the new function state of either
    [loss_func] do not depend on the importance weights at all: two calls
    that return on batches differing only in [W] return the same TD error
    and state.  With a distributional head the loss is the same as well:
    there the weights enter only the assertions and the metrics. *)
Theorem td_error_independent_of_weights stoch rn lf p tp s ts k b w
    l1 td1 st1 m1 l2 td2 st2 m2 :
  (∀ tp ts k, ignores_W (target_func tp ts k)) →
  (∀ tp ts k, ignores_W (target_func_dist tp ts k)) →
  (∀ r hp rs k, ignores_W (batch_eval r hp rs k)) →
  (V_loss stoch rn lf p tp s ts k b = Ok (l1, (td1, st1, m1)) →
   V_loss stoch rn lf p tp s ts k (with_W b w) = Ok (l2, (td2, st2, m2)) →
   td2 = td1 ∧ st2 = st1 ∧ (stoch = true → l2 = l1))
  ∧ (Q_loss stoch rn lf p tp s ts k b = Ok (l1, (td1, st1, m1)) →
     Q_loss stoch rn lf p tp s ts k (with_W b w) = Ok (l2, (td2, st2, m2)) →
     td2 = td1 ∧ st2 = st1 ∧ (stoch = true → l2 = l1)).
Proof.
  intros I1 I2 I3. split; intros H1 H2.
  - unfold V_loss_func in H1, H2.
    eapply loss_any_W; [| exact H1 | exact H2].
    intros o1 o2. apply V_forward_any_W; assumption.
  - unfold Q_loss_func in H1, H2.
    eapply loss_any_W; [| exact H1 | exact H2].
    intros o1 o2. apply Q_forward_any_W; assumption.
Qed.

End WeightsExtras.

(** ** The distributional targets *)

Section TargetDistParamsFacts.

Variable random_split : key → key * key.
Variable targ_observation_preprocessor : key → pytree → pytree.
Variable targ_function_dist : pytree → pytree → key → pytree → bool → pytree * pytree.
Variable targ_function_type1_dist :
  pytree → pytree → key → pytree → pytree → bool → pytree * pytree.
Variable VT : Type.
Variable targ_proba_dist : ProbaDist VT.
Variable targ_value_transform : VT.

Local Abbreviation V_get :=
  (V_get_target_dist_params random_split targ_observation_preprocessor
     targ_function_dist VT targ_proba_dist targ_value_transform).
Local Abbreviation Q_get :=
  (Q_get_target_dist_params random_split targ_observation_preprocessor
     targ_function_type1_dist VT targ_proba_dist targ_value_transform).

(** X14: [_get_target_dist_params] of the V and of the Q updater read
    the batch only through the next observations, the bootstrap factors
    [In] and the returns [Rn]: batches that agree on these give the same
    target distribution (for Q, at the same next actions, which are an
    argument of their own), and in particular the importance weights are
    not read. *)
Theorem get_target_dist_params_reads_bootstrap_fields p st k b1 b2 a :
  same_bootstrap_fields b1 b2 →
  V_get p st k b1 = V_get p st k b2
  ∧ Q_get p st k b1 a = Q_get p st k b2 a
  ∧ ignores_W (V_get p st k)
  ∧ ignores_W (fun b => Q_get p st k b a).
Proof.
  intros (HS & HI & HR).
  unfold V_get_target_dist_params, Q_get_target_dist_params.
  rewrite HS, HI, HR.
  repeat split; intros b w; reflexivity.
Qed.

End TargetDistParamsFacts.

(** ** coax._core.dynamics_model *)

Section DynamicsModelFacts.

Variable space : Type.
Variable func_t : Type.
Variable proba_dist_t : Type.
Variable preprocessor_t : Type.
Variable ProbaDist_new : space → proba_dist_t.
Variable preprocess_variate : proba_dist_t → preprocessor_t.

(** X15: the constructor of [DynamicsModel] and its [example_data]
    resolve their optional arguments alike: called with the spaces of the
    environment and the same optional arguments they hand the same spaces,
    preprocessors and distribution to the base class.  In both the
    observation preprocessor is [preprocess_variate] of the distribution
    handed on, whether that was given or defaulted; arguments that are
    given are passed on as they are, and the defaults are built from the
    action space (preprocessor) and the observation space (distribution). *)
Theorem dynamics_model_arguments func env ap pd seed batch_size seed' :
  let kw :=
    DynamicsModel_init_kwargs space func_t proba_dist_t preprocessor_t
      ProbaDist_new preprocess_variate func env ap pd seed in
  let ekw :=
    DynamicsModel_example_data_kwargs space proba_dist_t preprocessor_t
      ProbaDist_new preprocess_variate (env_observation_space space env)
      (env_action_space space env) ap pd batch_size seed' in
  ekw_observation_space _ _ _ ekw = kw_observation_space _ _ _ _ kw
  ∧ ekw_action_space _ _ _ ekw = kw_action_space _ _ _ _ kw
  ∧ ekw_observation_preprocessor _ _ _ ekw
    = kw_observation_preprocessor _ _ _ _ kw
  ∧ ekw_action_preprocessor _ _ _ ekw = kw_action_preprocessor _ _ _ _ kw
  ∧ ekw_proba_dist _ _ _ ekw = kw_proba_dist _ _ _ _ kw
  ∧ kw_observation_preprocessor _ _ _ _ kw
    = preprocess_variate (kw_proba_dist _ _ _ _ kw)
  ∧ kw_action_preprocessor _ _ _ _ kw
    = default (preprocess_variate (ProbaDist_new (env_action_space space env))) ap
  ∧ kw_proba_dist _ _ _ _ kw
    = default (ProbaDist_new (env_observation_space space env)) pd.
Proof.
  destruct ap, pd; repeat split; reflexivity.
Qed.

End DynamicsModelFacts.

(** ** The jitted closures *)

Lemma grad_has_aux_outcome {X} jax_grad
    (f : pytree → result (ndarray * X)) p :
  grad_has_aux jax_grad f p
  = match f p with
    | Ok r => Ok (jax_grad (fun p0 => rbind (f p0) (fun r' => Ok (fst r'))) p,
                  snd r)
    | Err e => Err e
    end.
Proof. unfold grad_has_aux. destruct (f p); reflexivity. Qed.

Lemma gm_of_loss jax_grad
    (L : pytree → result (ndarray * (ndarray * pytree * metrics_dict)))
    (p : pytree) (diag : pytree → metrics_dict) :
  let gm :=
    rbind (grad_has_aux jax_grad L p)
      (fun r => let grads := fst r in
                let '(td_error, state_new, metrics) := snd r in
                Ok (grads, state_new, diag grads ∪ metrics, td_error)) in
  let tdf :=
    rbind (L p) (fun r => let '(td_error, _, _) := snd r in Ok td_error) in
  (∀ e, gm = Err e ↔ L p = Err e)
  ∧ (∀ e, tdf = Err e ↔ L p = Err e)
  ∧ (∀ g st m td, gm = Ok (g, st, m, td) →
       tdf = Ok td
       ∧ ∃ loss m0, L p = Ok (loss, (td, st, m0))
                    ∧ m = diag g ∪ m0 ∧ dom m0 ⊆ dom m).
Proof.
  cbv zeta. rewrite grad_has_aux_outcome.
  destruct (L p) as [[l1 [[td1 st1] m1]]|e1]; simpl.
  - split; [intros e; split; discriminate |].
    split; [intros e; split; discriminate |].
    intros g st m td H. injection H as <- <- <- <-.
    split; [reflexivity |].
    eexists _, _. split; [reflexivity |]. split; [reflexivity |].
    rewrite dom_union_L. apply union_subseteq_r.
  - split; [intros e; split; intros [= ->]; reflexivity |].
    split; [intros e; split; intros [= ->]; reflexivity |].
    intros g st m td H. discriminate H.
Qed.

Section ClosureFacts.

Variable random_split : key → key * key.
Variable class_name : string.
Variable observation_preprocessor : key → pytree → pytree.
Variable action_preprocessor : key → pytree → pytree.
Variable v_function : pytree → pytree → key → pytree → bool → ndarray * pytree.
Variable v_function_dist : pytree → pytree → key → pytree → bool → pytree * pytree.
Variable q_function_type1 :
  pytree → pytree → key → pytree → pytree → bool → ndarray * pytree.
Variable q_function_type1_dist :
  pytree → pytree → key → pytree → pytree → bool → pytree * pytree.
Variable VT : Type.
Variable proba_dist : ProbaDist VT.
Variable value_transform : VT.
Variable target_func : bundle → bundle → key → TransitionBatch → ndarray.
Variable target_func_dist : bundle → bundle → key → TransitionBatch → pytree.
Variable batch_eval : pytree → pytree → pytree → key → TransitionBatch → ndarray.
Variable jax_grad : (pytree → result ndarray) → pytree → pytree.
Variable get_grads_diagnostics : pytree → string → metrics_dict.

Local Abbreviation V_loss :=
  (V_loss_func random_split class_name observation_preprocessor v_function
     v_function_dist VT proba_dist value_transform target_func target_func_dist
     batch_eval).
Local Abbreviation V_gm :=
  (V_grads_and_metrics_func random_split class_name observation_preprocessor
     v_function v_function_dist VT proba_dist value_transform target_func
     target_func_dist batch_eval jax_grad get_grads_diagnostics).
Local Abbreviation V_td :=
  (V_td_error_func random_split class_name observation_preprocessor v_function
     v_function_dist VT proba_dist value_transform target_func target_func_dist
     batch_eval).
Local Abbreviation Q_loss :=
  (Q_loss_func random_split class_name observation_preprocessor
     action_preprocessor q_function_type1 q_function_type1_dist VT proba_dist
     value_transform target_func target_func_dist batch_eval).
Local Abbreviation Q_gm :=
  (Q_grads_and_metrics_func random_split class_name observation_preprocessor
     action_preprocessor q_function_type1 q_function_type1_dist VT proba_dist
     value_transform target_func target_func_dist batch_eval jax_grad
     get_grads_diagnostics).
Local Abbreviation Q_td :=
  (Q_td_error_func random_split class_name observation_preprocessor
     action_preprocessor q_function_type1 q_function_type1_dist VT proba_dist
     value_transform target_func target_func_dist batch_eval).

(** X16: [grads_and_metrics_func] evaluates [loss_func] at the first key
    drawn from its own key, while [td_error_func] hands its key on as it is.
    So [grads_and_metrics_func] at key [k] raises exactly what [loss_func]
    and [td_error_func] raise at the first subkey of [k]; when it returns,
    its TD error is the one [td_error_func] returns at that subkey, its
    function state is that of [loss_func], and its metrics are those of
    [loss_func] with the gradient diagnostics written over them. *)
Theorem closures_share_loss_func stoch rn lf p tp s ts k b :
  let k1 := rng_key random_split k in
  (∀ e, V_gm stoch rn lf p tp s ts k b = Err e
        ↔ V_loss stoch rn lf p tp s ts k1 b = Err e)
  ∧ (∀ e, V_td stoch rn lf p tp s ts k1 b = Err e
          ↔ V_loss stoch rn lf p tp s ts k1 b = Err e)
  ∧ (∀ g st m td, V_gm stoch rn lf p tp s ts k b = Ok (g, st, m, td) →
       V_td stoch rn lf p tp s ts k1 b = Ok td
       ∧ ∃ loss m0,
           V_loss stoch rn lf p tp s ts k1 b = Ok (loss, (td, st, m0))
           ∧ m = get_grads_diagnostics g (class_name +:+ "/grads_") ∪ m0
           ∧ dom m0 ⊆ dom m)
  ∧ (∀ e, Q_gm stoch rn lf p tp s ts k b = Err e
          ↔ Q_loss stoch rn lf p tp s ts k1 b = Err e)
  ∧ (∀ e, Q_td stoch rn lf p tp s ts k1 b = Err e
          ↔ Q_loss stoch rn lf p tp s ts k1 b = Err e)
  ∧ (∀ g st m td, Q_gm stoch rn lf p tp s ts k b = Ok (g, st, m, td) →
       Q_td stoch rn lf p tp s ts k1 b = Ok td
       ∧ ∃ loss m0,
           Q_loss stoch rn lf p tp s ts k1 b = Ok (loss, (td, st, m0))
           ∧ m = get_grads_diagnostics g (class_name +:+ "/grads_") ∪ m0
           ∧ dom m0 ⊆ dom m).
Proof.
  intros k1.
  pose proof (gm_of_loss jax_grad
                (fun p0 => V_loss stoch rn lf p0 tp s ts k1 b) p
                (fun g => get_grads_diagnostics g (class_name +:+ "/grads_")))
    as (V1 & V2 & V3).
  pose proof (gm_of_loss jax_grad
                (fun p0 => Q_loss stoch rn lf p0 tp s ts k1 b) p
                (fun g => get_grads_diagnostics g (class_name +:+ "/grads_")))
    as (Q1 & Q2 & Q3).
  split; [exact V1 |]. split; [exact V2 |]. split; [exact V3 |].
  split; [exact Q1 |]. split; [exact Q2 | exact Q3].
Qed.

End ClosureFacts.

(** ** The further properties at the example updaters *)

Lemma update_aborts_on_grads_error_witness :
  fst (ex_grads_and_metrics (ex_batch_W [fin 1]) (ex_V_store g_fin))
    = Err AssertionError
  ∧ fst (ex_update (ex_batch_W [fin 1]) false (ex_V_store g_fin))
    = Err AssertionError
  ∧ same_up_to_key_of (PyRef 1%positive) (ex_V_store g_fin)
      (snd (ex_update (ex_batch_W [fin 1]) false (ex_V_store g_fin)))
  ∧ learnables (snd (ex_update (ex_batch_W [fin 1]) false (ex_V_store g_fin)))
    = learnables (ex_V_store g_fin).
Proof.
  pose (s1 := snd (ex_grads_and_metrics (ex_batch_W [fin 1]) (ex_V_store g_fin))).
  assert (Hg : ex_grads_and_metrics (ex_batch_W [fin 1]) (ex_V_store g_fin)
               = (Err AssertionError, s1)).
  { rewrite (surjective_pairing
               (ex_grads_and_metrics (ex_batch_W [fin 1]) (ex_V_store g_fin))).
    f_equal. }
  destruct (update_aborts_on_grads_error ex_split ex_set_params
              ex_set_function_state V_target_params V_target_function_state
              V_target_params_ro V_target_function_state_ro
              (ex_batch_W [fin 1]) false (ex_V_store g_fin) AssertionError s1 Hg)
    as (Hu & Hk & Hl & _).
  split; [rewrite Hg; reflexivity |].
  unfold ex_update. rewrite Hu. simpl fst. simpl snd.
  split; [reflexivity |]. split; [exact Hk | exact Hl].
Defined.

Lemma observers_keep_learnables_witness :
  same_up_to_key_of (PyRef 1%positive) (ex_V_store g_fin)
    (snd (ex_td_error ex_batch (ex_V_store g_fin)))
  ∧ same_up_to_key_of (PyRef 1%positive) (ex_V_store g_fin)
      (snd (ex_grads_and_metrics ex_batch (ex_V_store g_fin)))
  ∧ learnables (snd (ex_td_error ex_batch (ex_V_store g_fin)))
    = learnables (ex_V_store g_fin).
Proof.
  destruct (observers_keep_learnables ex_split V_target_params
              V_target_function_state V_target_params_ro
              V_target_function_state_ro ex_batch (ex_V_store g_fin))
    as (H1 & H2 & H3 & _).
  split; [exact H1 |]. split; [exact H2 | exact H3].
Defined.

Lemma methods_keep_wiring_witness :
  same_wiring (ex_V_updater g_fin)
    (st_self (snd (ex_update ex_batch false (ex_V_store g_fin))))
  ∧ same_wiring (ex_V_updater g_fin)
      (st_self (snd (optimizer_set ex_momentum (ex_V_store g_fin)))).
Proof.
  destruct (methods_keep_wiring ex_split ex_set_params ex_set_function_state
              V_target_params V_target_function_state V_target_params_ro
              V_target_function_state_ro ex_batch false g_fin PNone
              ex_momentum PNone (ex_V_store g_fin))
    as (H1 & _ & _ & _ & H5 & _).
  split; [exact H1 | exact H5].
Defined.

Lemma split_path_has_no_nan_guard_witness :
  fst (ex_update ex_batch false (ex_V_store g_nan)) = Err RuntimeError
  ∧ is_ok (fst (ex_split_update ex_batch (ex_V_store g_nan))) = true.
Proof.
  assert (Hs : is_ok (fst (ex_split_update ex_batch (ex_V_store g_nan))) = true)
    by (vm_compute; reflexivity).
  split; [| exact Hs].
  destruct (ex_grads_and_metrics ex_batch (ex_V_store g_nan))
    as [[[[[g fs] m] td]|e] s1] eqn:E.
  2: { apply (f_equal (fun r => is_ok (fst r))) in E. vm_compute in E.
       discriminate E. }
  assert (Hn : any_isnan g = true).
  { apply (f_equal (fun r => on_ok (fst r)
                               (fun x => any_isnan (fst (fst (fst x)))))) in E.
    simpl in E. rewrite <- E. vm_compute. reflexivity. }
  destruct (split_path_has_no_nan_guard ex_split ex_set_params
              ex_set_function_state V_target_params V_target_function_state
              ex_batch false (ex_V_store g_nan) g fs m td s1 E Hn)
    as (Hu & _ & _).
  unfold ex_update. rewrite Hu. reflexivity.
Defined.

Lemma update_from_grads_order_of_effects_witness :
  ex_update_from_grads g_fin PNone
    (mk_store ex_heap (with_optimizer ex_restructuring_opt (ex_updater g_fin)))
  = (Err AttributeError,
     mk_store (<[ 1%positive := Func ex_v ]> ex_heap)
       (with_optimizer ex_restructuring_opt (ex_updater g_fin))).
Proof.
  pose proof (update_from_grads_order_of_effects ex_set_params
                ex_set_function_state
                (mk_store ex_heap
                   (with_optimizer ex_restructuring_opt (ex_updater g_fin)))
                1%positive ex_v g_fin PNone eq_refl eq_refl) as H.
  cbv zeta in H. destruct H as (_ & _ & H3 & _).
  eapply (H3 ex_v PNone).
  - reflexivity.
  - reflexivity.
  - vm_compute. discriminate.
Defined.

Lemma constructed_updater_defaults_witness :
  ex_V_init g_fin (PyRef 1%positive) PyNone None None PyNone ex_heap4
    = (Ok (ex_V_updater g_fin), ex_heap4)
  ∧ _optimizer (ex_V_updater g_fin) = ex_sgd
  ∧ loss_function (ex_V_updater g_fin) = mse
  ∧ _optimizer_state (ex_V_updater g_fin) = PTuple [].
Proof.
  assert (Hi : ex_V_init g_fin (PyRef 1%positive) PyNone None None PyNone ex_heap4
               = (Ok (ex_V_updater g_fin), ex_heap4)).
  { destruct (V_init_outcome ex_split mse ex_sgd "TD" ex_preprocessor
                ex_v_function ex_v_function_dist unit ex_proba_dist tt
                ex_target_func ex_target_func_dist ex_batch_eval
                (ex_jax_grad g_fin) ex_diagnostics
                (PyRef 1%positive) PyNone None None PyNone ex_heap4)
      as [Hok _].
    destruct (Hok eq_refl) as [u Hu].
    unfold ex_V_updater, ex_V_init. rewrite Hu. reflexivity. }
  split; [exact Hi |].
  destruct (constructed_updater_defaults ex_split mse ex_sgd "TD"
              ex_preprocessor ex_preprocessor ex_v_function ex_v_function_dist
              ex_q_function_type1 ex_q_function_type1_dist unit ex_proba_dist
              tt ex_target_func ex_target_func_dist ex_batch_eval
              (ex_jax_grad g_fin) ex_diagnostics
              (PyRef 1%positive) (PyRef 2%positive) PyNone None None PyNone
              ex_heap4 (ex_V_updater g_fin) (or_introl Hi))
    as (Ho & Hl & _ & Hs & _).
  split; [exact Ho |]. split; [exact Hl |].
  rewrite Hs, Ho. reflexivity.
Defined.

Lemma target_defaults_to_online_witness :
  _f_targ (ex_V_updater g_fin) = PyRef 1%positive
  ∧ (∀ tp, fst (V_target_params (ex_V_store g_fin)) = Ok tp →
           tp !! "v_targ" = tp !! "v").
Proof.
  assert (Hi : ex_V_init g_fin (PyRef 1%positive) PyNone None None PyNone ex_heap4
               = (Ok (ex_V_updater g_fin), ex_heap4)).
  { destruct (V_init_outcome ex_split mse ex_sgd "TD" ex_preprocessor
                ex_v_function ex_v_function_dist unit ex_proba_dist tt
                ex_target_func ex_target_func_dist ex_batch_eval
                (ex_jax_grad g_fin) ex_diagnostics
                (PyRef 1%positive) PyNone None None PyNone ex_heap4)
      as [Hok _].
    destruct (Hok eq_refl) as [u Hu].
    unfold ex_V_updater, ex_V_init. rewrite Hu. reflexivity. }
  pose proof (fun tp =>
    target_defaults_to_online ex_split mse ex_sgd "TD"
      ex_preprocessor ex_preprocessor ex_v_function ex_v_function_dist
      ex_q_function_type1 ex_q_function_type1_dist unit ex_proba_dist
      tt ex_target_func ex_target_func_dist ex_batch_eval
      (ex_jax_grad g_fin) ex_diagnostics
      (PyRef 1%positive) (PyRef 2%positive) None None PyNone
      ex_heap4 (ex_V_updater g_fin) (ex_V_store g_fin) tp ∅) as H.
  split.
  - destruct (H ∅) as (HV & _). destruct (HV Hi) as [_ Ht]. exact Ht.
  - intros tp Htp. destruct (H tp) as (HV & _ & Hs).
    destruct (HV Hi) as [Hf Ht].
    assert (Hsame : _f_targ (st_self (ex_V_store g_fin))
                    = _f (st_self (ex_V_store g_fin)))
      by (simpl; rewrite Hf, Ht; reflexivity).
    destruct (Hs Hsame) as (Hp & _). apply Hp. exact Htp.
Defined.

Lemma list_q_targ_needs_override_witness :
  is_list_or_tuple (_f_targ (st_self ex_Q_list_store)) = true
  ∧ ex_Q_update ex_batch false ex_Q_list_store
    = (Err AttributeError, ex_Q_list_store)
  ∧ Q_target_params ex_Q_list_store = (Err AttributeError, ex_Q_list_store).
Proof.
  assert (Hl : is_list_or_tuple (_f_targ (st_self ex_Q_list_store)) = true)
    by (vm_compute; reflexivity).
  split; [exact Hl |].
  destruct (list_q_targ_needs_override ex_split ex_set_params
              ex_set_function_state ex_Q_list_store ex_batch false Hl)
    as (H1 & _ & _ & _ & H5 & _).
  split; [exact H5 | exact H1].
Defined.



Lemma loss_func_metrics_witness :
  ∃ loss td st m,
    ex_V_loss_func true true mse ex_params ex_tp PNone ex_ts ex_key ex_batch
      = Ok (loss, (td, st, m))
    ∧ m !! loss_key "TD" = Some loss
    ∧ size m = 3%nat.
Proof.
  assert (Hok : is_ok (ex_V_loss_func true true mse ex_params ex_tp PNone ex_ts
                         ex_key ex_batch) = true) by (vm_compute; reflexivity).
  destruct (ex_V_loss_func true true mse ex_params ex_tp PNone ex_ts ex_key
              ex_batch) as [[loss [[td st] m]]|e] eqn:E; [| discriminate Hok].
  exists loss, td, st, m.
  destruct (loss_func_metrics ex_split "TD" ex_preprocessor
              ex_preprocessor ex_v_function ex_v_function_dist
              ex_q_function_type1 ex_q_function_type1_dist unit ex_proba_dist
              tt ex_target_func ex_target_func_dist ex_batch_eval
              true true mse ex_params ex_tp PNone ex_ts ex_key ex_batch
              loss td st m (or_introl E))
    as (H1 & _ & _ & _ & H5).
  split; [reflexivity |]. split; [exact H1 | exact H5].
Defined.

Lemma td_error_independent_of_weights_witness :
  ∃ l1 l2 td st m1 m2,
    ex_V_loss_func false true mse ex_params ex_tp PNone ex_ts ex_key ex_batch
      = Ok (l1, (td, st, m1))
    ∧ ex_V_loss_func false true mse ex_params ex_tp PNone ex_ts ex_key
        (ex_batch_W [fin 5; fin 7])
      = Ok (l2, (td, st, m2)).
Proof.
  assert (H1 : is_ok (ex_V_loss_func false true mse ex_params ex_tp PNone ex_ts
                        ex_key ex_batch) = true) by (vm_compute; reflexivity).
  assert (H2 : is_ok (ex_V_loss_func false true mse ex_params ex_tp PNone ex_ts
                        ex_key (ex_batch_W [fin 5; fin 7])) = true)
    by (vm_compute; reflexivity).
  destruct (ex_V_loss_func false true mse ex_params ex_tp PNone ex_ts ex_key
              ex_batch) as [[l1 [[td1 st1] m1]]|e] eqn:E1; [| discriminate H1].
  destruct (ex_V_loss_func false true mse ex_params ex_tp PNone ex_ts ex_key
              (ex_batch_W [fin 5; fin 7])) as [[l2 [[td2 st2] m2]]|e] eqn:E2;
    [| discriminate H2].
  destruct (td_error_independent_of_weights ex_split "TD" ex_preprocessor
              ex_preprocessor ex_v_function ex_v_function_dist
              ex_q_function_type1 ex_q_function_type1_dist unit ex_proba_dist
              tt ex_target_func ex_target_func_dist ex_batch_eval
              false true mse ex_params ex_tp PNone ex_ts ex_key ex_batch
              (arr1 [fin 5; fin 7]) l1 td1 st1 m1 l2 td2 st2 m2
              (fun _ _ _ _ _ => eq_refl) (fun _ _ _ _ _ => eq_refl)
              (fun _ _ _ _ _ _ => eq_refl))
    as (HV & _).
  destruct (HV E1 E2) as (-> & -> & _).
  exists l1, l2, td1, st1, m1, m2. split; reflexivity.
Defined.

Lemma get_target_dist_params_reads_bootstrap_fields_witness :
  same_bootstrap_fields ex_batch
    (mk_batch PNone PNone (Rn ex_batch) (In ex_batch) (S_next ex_batch) PNone
       (arr1 []) (arr1 [fin 5; fin 7]))
  ∧ V_get_target_dist_params ex_split ex_preprocessor ex_v_function_dist unit
      ex_proba_dist tt ex_params PNone ex_key ex_batch
    = V_get_target_dist_params ex_split ex_preprocessor ex_v_function_dist unit
        ex_proba_dist tt ex_params PNone ex_key
        (mk_batch PNone PNone (Rn ex_batch) (In ex_batch) (S_next ex_batch)
           PNone (arr1 []) (arr1 [fin 5; fin 7])).
Proof.
  assert (Hb : same_bootstrap_fields ex_batch
                 (mk_batch PNone PNone (Rn ex_batch) (In ex_batch)
                    (S_next ex_batch) PNone (arr1 []) (arr1 [fin 5; fin 7])))
    by (repeat split; reflexivity).
  split; [exact Hb |].
  destruct (get_target_dist_params_reads_bootstrap_fields ex_split
              ex_preprocessor ex_v_function_dist ex_q_function_type1_dist unit
              ex_proba_dist tt ex_params PNone ex_key ex_batch
              (mk_batch PNone PNone (Rn ex_batch) (In ex_batch)
                 (S_next ex_batch) PNone (arr1 []) (arr1 [fin 5; fin 7]))
              PNone Hb)
    as (HV & _).
  exact HV.
Defined.

Lemma closures_share_loss_func_witness :
  ∃ g st m td,
    ex_V_grads_and_metrics_func false true mse ex_params ex_tp PNone ex_ts
      ex_key ex_batch = Ok (g, st, m, td)
    ∧ ex_V_td_error_func false true mse ex_params ex_tp PNone ex_ts
        (rng_key ex_split ex_key) ex_batch = Ok td.
Proof.
  assert (Hok : is_ok (ex_V_grads_and_metrics_func false true mse ex_params
                         ex_tp PNone ex_ts ex_key ex_batch) = true)
    by (vm_compute; reflexivity).
  destruct (ex_V_grads_and_metrics_func false true mse ex_params ex_tp PNone
              ex_ts ex_key ex_batch) as [[[[g st] m] td]|e] eqn:E;
    [| discriminate Hok].
  exists g, st, m, td. split; [reflexivity |].
  pose proof (closures_share_loss_func ex_split "TD" ex_preprocessor
                ex_preprocessor ex_v_function ex_v_function_dist
                ex_q_function_type1 ex_q_function_type1_dist unit ex_proba_dist
                tt ex_target_func ex_target_func_dist ex_batch_eval
                (ex_jax_grad g_fin) ex_diagnostics
                false true mse ex_params ex_tp PNone ex_ts ex_key ex_batch)
    as H.
  cbv zeta in H. destruct H as (_ & _ & H3 & _).
  destruct (H3 g st m td E) as [Ht _]. exact Ht.
Defined.

Lemma update_return_td_error_flag_witness :
  snd (ex_update ex_batch true (ex_V_store g_fin))
  = snd (ex_update ex_batch false (ex_V_store g_fin)).
Proof.
  pose proof (update_return_td_error_flag ex_split ex_set_params
                ex_set_function_state V_target_params V_target_function_state
                ex_batch (ex_V_store g_fin)) as H.
  cbv zeta in H. destruct H as (H & _). exact H.
Defined.
